(** * config.py: atomic JSON configuration store

    A shallow embedding of [config.py] (the bot's configuration helper) and
    the properties of its load / save protocol.

    The module keeps one JSON document in [bot_config.json], a backup in
    [bot_config.backup.json], and a process-wide cache.  Python dictionaries
    and lists are mutable objects that the module shares freely (the cache
    and the caller hold the same dictionary, [DEFAULT_CONFIG.copy()] is a
    shallow copy), so values live in an object store and are passed around by
    reference.  File contents are text; the [json] library of the Python
    distribution is an interface ([JsonLib]: a text is parsed, or an
    exception is raised) with a small concrete instance ([MiniJson]) used to
    run the code on concrete files. *)

From Stdlib Require Import ZArith String Ascii List DecimalString.
From Stdlib Require DecimalZ DecimalPos.
From stdpp Require Import base option list gmap strings.

Open Scope string_scope.
Open Scope list_scope.

(** ** JSON trees: the contents of a configuration file *)

Unset Elimination Schemes.
Inductive json : Type :=
| JNull
| JBool (b : bool)
| JInt (n : Z)
| JStr (s : string)
| JArr (items : list json)
| JObj (members : list (string * json)).
Set Elimination Schemes.

(** Number of nodes of a tree; a container is strictly larger than each of
    its children. *)
Fixpoint json_size (j : json) : nat :=
  match j with
  | JArr items => S (list_sum (map json_size items))
  | JObj members => S (list_sum (map (fun kv => json_size (snd kv)) members))
  | _ => 1
  end.

(** Nesting depth of containers. *)
Fixpoint json_depth (j : json) : nat :=
  match j with
  | JArr items => S (foldr Nat.max 0 (map json_depth items))
  | JObj members => S (foldr Nat.max 0 (map (fun kv => json_depth (snd kv)) members))
  | _ => 0
  end.

(** ** Python dictionaries

    A [dict] keeps its keys in insertion order and holds each key once.
    [d[k] = v] overwrites in place when [k] is present and appends
    otherwise.  Keys are strings: the only keys [json.load] produces and the
    only keys this module writes. *)

Section Dict.
Context {A : Type}.

Fixpoint dict_get (k : string) (d : list (string * A)) : option A :=
  match d with
  | [] => None
  | (k', v) :: d' => if String.eqb k k' then Some v else dict_get k d'
  end.

Fixpoint dict_set (k : string) (v : A) (d : list (string * A)) : list (string * A) :=
  match d with
  | [] => [(k, v)]
  | (k', v') :: d' =>
      if String.eqb k k' then (k', v) :: d' else (k', v') :: dict_set k v d'
  end.

Definition dict_mem (k : string) (d : list (string * A)) : bool :=
  match dict_get k d with Some _ => true | None => false end.
End Dict.

(** ** The object store

    A Python value is an immediate ([None], a bool, an int, a str) or a
    reference to an object: a dict or a list, which are mutable, or a tuple,
    which is not.  Objects are never freed; a new object takes the next free
    address.  Floats and dict keys that are not strings are not modelled. *)

Abbreviation loc := nat.

Inductive pyval : Type :=
| PNone
| PBool (b : bool)
| PInt (n : Z)
| PStr (s : string)
| PRef (l : loc).

Inductive pyobj : Type :=
| ODict (d : list (string * pyval))
| OList (xs : list pyval)
| OTuple (xs : list pyval).

Definition new_obj (o : pyobj) (h : list pyobj) : pyval * list pyobj :=
  (PRef (length h), h ++ [o]).

(** Objects built one after the other, each in the store the previous one
    left. *)
Definition alloc_seq {A : Type} (f : A -> list pyobj -> pyval * list pyobj)
  : list A -> list pyobj -> list pyval * list pyobj :=
  fix go (xs : list A) (h : list pyobj) : list pyval * list pyobj :=
    match xs with
    | [] => ([], h)
    | x :: xs' =>
        let '(v, h1) := f x h in
        let '(vs, h2) := go xs' h1 in
        (v :: vs, h2)
    end.

(** [json.load] builds the Python value of a parsed tree: children first,
    then the container that holds them. *)
Fixpoint alloc_json (j : json) (h : list pyobj) : pyval * list pyobj :=
  match j with
  | JNull => (PNone, h)
  | JBool b => (PBool b, h)
  | JInt n => (PInt n, h)
  | JStr s => (PStr s, h)
  | JArr items =>
      let '(vs, h1) := alloc_seq alloc_json items h in
      new_obj (OList vs) h1
  | JObj members =>
      let '(vs, h1) := alloc_seq (fun kv => alloc_json (snd kv)) members h in
      new_obj (ODict (zip (map fst members) vs)) h1
  end.

(** The tree a value denotes in a store, read with bounded recursion:
    [None] when the fuel runs out (the structure is deeper than [fuel], or
    cyclic) or a reference dangles. *)
Fixpoint snapshot (fuel : nat) (h : list pyobj) (v : pyval) : option json :=
  match v with
  | PNone => Some JNull
  | PBool b => Some (JBool b)
  | PInt n => Some (JInt n)
  | PStr s => Some (JStr s)
  | PRef l =>
      match fuel with
      | 0 => None
      | S fuel' =>
          match h !! l with
          | Some (ODict d) =>
              JObj <$> mapM (fun kv => pair (fst kv) <$> snapshot fuel' h (snd kv)) d
          | Some (OList xs) | Some (OTuple xs) => JArr <$> mapM (snapshot fuel' h) xs
          | None => None
          end
      end
  end.

(** What [json.dump] sees of a value.  A chain of distinct objects is no
    longer than the store, so a structure that needs more fuel than
    [S (length h)] is circular, and [json.dump] raises [ValueError] on it. *)
Definition tree_of (h : list pyobj) (v : pyval) : option json :=
  snapshot (S (length h)) h v.

(** ** Exceptions *)

Inductive exn : Type :=
| OSError
| JSONDecodeError
| EOFError
| TypeError
| ValueError
| AttributeError
| KeyError
| UnicodeDecodeError
| RecursionError.

Inductive result (A : Type) : Type :=
| Ret (a : A)
| Raise (e : exn).
Arguments Ret {A} a.
Arguments Raise {A} e.

(** ** The json library

    [json_loads] is [json.load] up to the construction of the Python value:
    the tree of the text, or the exception [json.load] raises on it.  That
    is [JSONDecodeError] for a text that is not JSON; CPython also raises
    [RecursionError] on a text nested deeper than the interpreter allows and
    [ValueError] on an integer literal longer than its digit limit.
    [json_dumps] is the text that [json.dump(_, f, indent=4)] writes. *)
Class JsonLib := {
  json_loads : string -> result json;
  json_dumps : json -> string
}.

(** ** Files, process state and the environment *)

(** Whether a file can be read as text: it can; or it cannot be opened
    (permissions), and [open] raises [OSError]; or its bytes are no text in
    the encoding of the process, and reading raises
    [UnicodeDecodeError]. *)
Inductive readability : Type :=
| Readable
| Denied
| Undecodable.

(** A file of the working directory: its contents (the text, the bytes
    when they are no text), and whether it can be read. *)
Record node := Node { readable : readability; content : string }.

(** The lines the module prints. *)
Inductive line : Type :=
| WarnCorrupted              (* "... corrupted, attempting to recover from backup" *)
| RecoveryFailed             (* "Config recovery failed, returning default config" *)
| SavedAt (ts : pyval)       (* "Config saved successfully at ..." *)
| SaveFailed (e : exn).      (* "Failed to save config: ..." *)

Record world := World {
  files : gmap string node;     (* the working directory *)
  objs : list pyobj;            (* the object store *)
  _config_cache : pyval;        (* the global of that name *)
  stdout : list line
}.

Definition set_files (f : gmap string node) (w : world) : world :=
  World f (objs w) (_config_cache w) (stdout w).
Definition set_objs (h : list pyobj) (w : world) : world :=
  World (files w) h (_config_cache w) (stdout w).
Definition set_cache (c : pyval) (w : world) : world :=
  World (files w) (objs w) c (stdout w).
Definition put_line (l : line) (w : world) : world :=
  World (files w) (objs w) (_config_cache w) (stdout w ++ [l]).

(** Where the I/O of the durable write fails, when it does.  [AtWrite n]:
    the write of the text fails after [n] characters reached the file. *)
Inductive io_step : Type :=
| AtMkstemp
| AtWrite (n : nat)
| AtFlush
| AtFsync
| AtClose
| AtReplace.

(** Where the backup copy fails, when it does. *)
Inductive backup_step : Type :=
| AtBackupOpen
| AtBackupWrite (n : nat).

(** What one call of [save_config] receives from outside: the clock, the
    name [mkstemp] picks, and the failures of the operating system. *)
Record env := Env {
  now : string;                        (* datetime.now().isoformat() *)
  tmp_suffix : string;                 (* the random part of the temp name *)
  backup_fault : option backup_step;
  io_fault : option io_step
}.

(** ** Computations: state and exceptions *)

Definition M (A : Type) : Type := world -> result A * world.

#[global] Instance M_ret : MRet M := fun A a w => (Ret a, w).
#[global] Instance M_bind : MBind M := fun A B k c w =>
  match c w with
  | (Ret a, w') => k a w'
  | (Raise e, w') => (Raise e, w')
  end.

Definition raise {A : Type} (e : exn) : M A := fun w => (Raise e, w).

(** [try: body  except ...: handler].  Whatever the body did to the world
    before it raised stays done. *)
Definition try_except {A : Type} (body : M A) (handler : exn -> M A) : M A :=
  fun w =>
    match body w with
    | (Ret a, w') => (Ret a, w')
    | (Raise e, w') => handler e w'
    end.

Definition print (l : line) : M unit := fun w => (Ret tt, put_line l w).
Definition assign_cache (v : pyval) : M unit := fun w => (Ret tt, set_cache v w).
Definition read_cache : M pyval := fun w => (Ret (_config_cache w), w).

(** ** Operations on Python values *)

(** [{}] *)
Definition new_dict : M pyval := fun w =>
  let '(v, h) := new_obj (ODict []) (objs w) in (Ret v, set_objs h w).

(** [v[k] = x] for a string key. *)
Definition setitem (v : pyval) (k : string) (x : pyval) : M unit := fun w =>
  match v with
  | PRef l =>
      match objs w !! l with
      | Some (ODict d) => (Ret tt, set_objs (<[l := ODict (dict_set k x d)]> (objs w)) w)
      | _ => (Raise TypeError, w)
      end
  | _ => (Raise TypeError, w)
  end.

(** [v[k]] for a string key. *)
Definition getitem (v : pyval) (k : string) : M pyval := fun w =>
  match v with
  | PRef l =>
      match objs w !! l with
      | Some (ODict d) =>
          match dict_get k d with
          | Some x => (Ret x, w)
          | None => (Raise KeyError, w)
          end
      | _ => (Raise TypeError, w)
      end
  | _ => (Raise TypeError, w)
  end.

(** A text occurs in another one. *)
Fixpoint occurs_in (p s : string) : bool :=
  String.prefix p s ||
  match s with
  | EmptyString => false
  | String _ s' => occurs_in p s'
  end.

Definition is_str (k : string) (v : pyval) : bool :=
  match v with PStr s => String.eqb k s | _ => false end.

(** [k in v] for a string [k]: a key of a dict, an element of a list or of
    a tuple, a substring of a str; other values are not containers. *)
Definition contains (k : string) (v : pyval) : M bool := fun w =>
  match v with
  | PRef l =>
      match objs w !! l with
      | Some (ODict d) => (Ret (dict_mem k d), w)
      | Some (OList xs) | Some (OTuple xs) => (Ret (existsb (is_str k) xs), w)
      | None => (Raise TypeError, w)
      end
  | PStr s => (Ret (occurs_in k s), w)
  | _ => (Raise TypeError, w)
  end.

(** [v.get(k, default)]: only dicts have the method. *)
Definition get_method (v : pyval) (k : string) (default : M pyval) : M pyval :=
  fun w =>
    match v with
    | PRef l =>
        match objs w !! l with
        | Some (ODict d) =>
            match default w with
            | (Ret dv, w') =>
                (Ret (match dict_get k d with Some x => x | None => dv end), w')
            | (Raise e, w') => (Raise e, w')
            end
        | _ => (Raise AttributeError, w)
        end
    | _ => (Raise AttributeError, w)
    end.

(** [v.copy()]: a new object with the same entries; the entries themselves
    are shared with the original.  Dicts and lists have the method, tuples
    and immediate values do not. *)
Definition copy_method (v : pyval) : M pyval := fun w =>
  match v with
  | PRef l =>
      match objs w !! l with
      | Some (OTuple _) | None => (Raise AttributeError, w)
      | Some o => let '(v', h) := new_obj o (objs w) in (Ret v', set_objs h w)
      end
  | _ => (Raise AttributeError, w)
  end.

(** [str(n)] for an integer. *)
Definition str (n : Z) : string := NilZero.string_of_int (Z.to_int n).

(** ** File operations *)

Definition os_path_exists (path : string) : M bool := fun w =>
  (Ret (bool_decide (is_Some (files w !! path))), w).

(** [with open(path, 'r') as f: ... f.read()].  [open] raises [OSError]
    on a file that is missing or cannot be opened; reading raises
    [UnicodeDecodeError] (a [ValueError], not a [JSONDecodeError]) on bytes
    that are no text. *)
Definition read_text (path : string) : M string := fun w =>
  match files w !! path with
  | Some nd =>
      match readable nd with
      | Readable => (Ret (content nd), w)
      | Denied => (Raise OSError, w)
      | Undecodable => (Raise UnicodeDecodeError, w)
      end
  | None => (Raise OSError, w)
  end.

(** A file after its contents were replaced by a text the program wrote:
    the permissions are what they were, the contents are text. *)
Definition rewritten (r : readability) : readability :=
  match r with Denied => Denied | _ => Readable end.

(** The text of [path] becomes [text]; an existing file keeps its
    permissions. *)
Definition put_text (path text : string) (f : gmap string node) : gmap string node :=
  <[path := Node (match f !! path with
                  | Some nd => rewritten (readable nd)
                  | None => Readable
                  end) text]> f.

Definition write_text (path text : string) : M unit := fun w =>
  (Ret tt, set_files (put_text path text (files w)) w).

(** [os.remove(path)] *)
Definition os_remove (path : string) : M unit := fun w =>
  match files w !! path with
  | Some _ => (Ret tt, set_files (delete path (files w)) w)
  | None => (Raise OSError, w)
  end.

(** The operating system fails at step [s] of the durable write. *)
Definition fails_at (e : env) (s : io_step) : bool :=
  match io_fault e, s with
  | Some AtMkstemp, AtMkstemp
  | Some AtFlush, AtFlush
  | Some AtFsync, AtFsync
  | Some AtClose, AtClose
  | Some AtReplace, AtReplace => true
  | _, _ => false
  end.

Definition io_check (e : env) (s : io_step) : M unit := fun w =>
  if fails_at e s then (Raise OSError, w) else (Ret tt, w).

(** The name [tempfile.mkstemp(dir=..., prefix='config_tmp_')] returns. *)
Definition temp_name (e : env) : string := "config_tmp_" +:+ tmp_suffix e.

(** [mkstemp] creates an empty file under a name that was free, or fails
    (the system call fails, or no free name is found). *)
Definition mkstemp (e : env) : M string := fun w =>
  if fails_at e AtMkstemp then (Raise OSError, w)
  else match files w !! temp_name e with
       | Some _ => (Raise OSError, w)
       | None => (Ret (temp_name e),
                  set_files (<[temp_name e := Node Readable ""]> (files w)) w)
       end.

(** [os.replace(src, dst)]: [dst] becomes the file [src] was, in one step. *)
Definition os_replace (e : env) (src dst : string) : M unit := fun w =>
  if fails_at e AtReplace then (Raise OSError, w)
  else match files w !! src with
       | Some nd => (Ret tt, set_files (<[dst := nd]> (delete src (files w))) w)
       | None => (Raise OSError, w)
       end.

(** ** config.py *)

Definition CONFIG_FILE : string := "bot_config.json".
Definition CONFIG_BACKUP_FILE : string := "bot_config.backup.json".

(** The literal the module binds to [DEFAULT_CONFIG]. *)
Definition default_members : list (string * json) :=
       [ ("log_channel_id", JNull);
         ("guild_log_channels", JObj []);
         ("announcement_channels", JObj []);
         ("ticket_category_id", JNull);
         ("ticket_counter", JInt 0);
         ("muted_roles", JObj []);
         ("min_account_age_days", JInt 7);
         ("warnings", JObj []);
         ("temp_bans", JObj []);
         ("temp_mutes", JObj []);
         ("giveaways", JObj []);
         ("completed_giveaways", JObj []);
         ("role_prefixes", JObj []);
         ("webhook_url", JNull);
         ("guild_languages", JObj []);
         ("guild_prefixes", JObj []);
         ("last_saved", JNull) ].

Definition default_schema : json := JObj default_members.

(** Importing the module evaluates the literal: every [{}] in it is an
    object of its own, and [DEFAULT_CONFIG] refers to the outer dict. *)
Definition DEFAULT_CONFIG : pyval := fst (alloc_json default_schema []).
Definition module_objs : list pyobj := snd (alloc_json default_schema []).

(** The process right after the import, in a working directory [f]. *)
Definition boot (f : gmap string node) : world := World f module_objs PNone [].

(** The Python value of a parsed tree, built in the store. *)
Definition build_value (j : json) : M pyval := fun w =>
  let '(v, h) := alloc_json j (objs w) in (Ret v, set_objs h w).

Section Config.
Context `{JsonLib}.

(** [with open(path, 'r') as f: json.load(f)] *)
Definition json_load (path : string) : M pyval :=
  text ← read_text path;
  match json_loads text with
  | Raise err => raise err
  | Ret j => build_value j
  end.

(** [json.dump(v, f, indent=4)] into the open file [path]; [cut] is the
    number of characters after which the write fails, when it does. *)
Definition json_dump (v : pyval) (path : string) (cut : option nat) : M unit :=
  fun w =>
    match tree_of (objs w) v with
    | None => (Raise ValueError, w)
    | Some j =>
        match cut with
        | Some n =>
            (Raise OSError,
             set_files (put_text path (String.substring 0 n (json_dumps j)) (files w)) w)
        | None =>
            (Ret tt, set_files (put_text path (json_dumps j) (files w)) w)
        end
    end.

(** [with open(CONFIG_BACKUP_FILE, 'w') as f: json.dump(v, f, indent=4)];
    opening truncates the file. *)
Definition dump_backup (e : env) (v : pyval) : M unit :=
  match backup_fault e with
  | Some AtBackupOpen => raise OSError
  | Some (AtBackupWrite n) =>
      write_text CONFIG_BACKUP_FILE "";;
      json_dump v CONFIG_BACKUP_FILE (Some n)
  | None =>
      write_text CONFIG_BACKUP_FILE "";;
      json_dump v CONFIG_BACKUP_FILE None
  end.

(** The [with os.fdopen(fd, 'w') as f:] block of [save_config]. *)
Definition dump_temp (e : env) (temp_path : string) (v : pyval) : M unit :=
  json_dump v temp_path
    (match io_fault e with Some (AtWrite n) => Some n | _ => None end);;
  io_check e AtFlush;;
  io_check e AtFsync;;
  io_check e AtClose.

(** [load_config()]: the primary file, then the backup when the primary
    file is not JSON, then a copy of the defaults.  Only a decoding error of
    the primary file leads to the backup; any other exception of the first
    [try] goes to the caller. *)
Definition load_config : M pyval :=
  ex ← os_path_exists CONFIG_FILE;
  if (ex : bool) then
    try_except
      (config ← json_load CONFIG_FILE;
       assign_cache config;;
       mret config)
      (fun err =>
         match err with
         | JSONDecodeError | EOFError =>
             print WarnCorrupted;;
             exb ← os_path_exists CONFIG_BACKUP_FILE;
             recovered ←
               (if (exb : bool) then
                  try_except
                    (config ← json_load CONFIG_BACKUP_FILE;
                     assign_cache config;;
                     mret (Some config))
                    (fun _ => mret None)
                else mret None);
             match recovered with
             | Some config => mret config
             | None => print RecoveryFailed;; copy_method DEFAULT_CONFIG
             end
         | _ => raise err
         end)
  else copy_method DEFAULT_CONFIG.

(** The block under [# Create backup first]. *)
Definition make_backup (e : env) : M unit :=
  ex ← os_path_exists CONFIG_FILE;
  if (ex : bool) then
    try_except
      (backup_data ← json_load CONFIG_FILE;
       dump_backup e backup_data)
      (fun _ => mret tt)
  else mret tt.

(** The temporary file, the write and the atomic rename. *)
Definition write_atomically (e : env) (config_data : pyval) : M unit :=
  temp_path ← mkstemp e;
  try_except
    (dump_temp e temp_path config_data;;
     os_replace e temp_path CONFIG_FILE;;
     assign_cache config_data;;
     ts ← getitem config_data "last_saved";
     print (SavedAt ts))
    (fun err =>
       ext ← os_path_exists temp_path;
       (if (ext : bool) then os_remove temp_path else mret tt);;
       raise err).

(** [save_config(config_data)]: the stamp, the backup, the durable write,
    all under one [try] whose handler prints the exception. *)
Definition save_config (e : env) (config_data : pyval) : M unit :=
  try_except
    (setitem config_data "last_saved" (PStr (now e));;
     make_backup e;;
     write_atomically e config_data)
    (fun err => print (SaveFailed err)).

(** [get_config()] *)
Definition get_config : M pyval := load_config.

(** [update_config(key, value)] *)
Definition update_config (e : env) (key : string) (value : pyval) : M pyval :=
  config ← load_config;
  setitem config key value;;
  save_config e config;;
  mret config.

(** [get_guild_prefix(guild_id)] *)
Definition get_guild_prefix (guild_id : Z) : M pyval :=
  config ← load_config;
  guild_prefixes ← get_method config "guild_prefixes" new_dict;
  get_method guild_prefixes (str guild_id) (mret (PStr "!")).

(** [set_guild_prefix(guild_id, prefix)] *)
Definition set_guild_prefix (e : env) (guild_id : Z) (prefix : pyval) : M pyval :=
  config ← load_config;
  present ← contains "guild_prefixes" config;
  (if (present : bool) then mret tt
   else fresh ← new_dict; setitem config "guild_prefixes" fresh);;
  guild_prefixes ← getitem config "guild_prefixes";
  setitem guild_prefixes (str guild_id) prefix;;
  save_config e config;;
  mret prefix.

(** [refresh_config_cache()].  The lock only excludes other threads; one
    thread runs here. *)
Definition refresh_config_cache : M pyval :=
  assign_cache PNone;;
  load_config.

(** [get_cached_config()] *)
Definition get_cached_config : M pyval :=
  cached ← read_cache;
  match cached with
  | PNone => load_config
  | _ => mret cached
  end.
End Config.

(** ** A concrete json library

    The fragment of Python's [json] needed to run the module on concrete
    files: [null], booleans, integers, strings of characters below 256,
    arrays and objects.  Number literals with a fraction or an exponent and
    the [NaN] / [Infinity] extensions are outside the fragment (the reader
    rejects them).  The reader raises what CPython raises: see [loads].
    The writer is [json.dumps(_, indent=4)]: items on lines
    of their own, four spaces per level, ["key": value], [ensure_ascii]
    escapes. *)
Module MiniJson.
#[local] Open Scope nat_scope.

Definition dquote : ascii := "034"%char.
Definition newline : ascii := "010"%char.

Definition hex_digit (n : nat) : ascii :=
  nth n (list_ascii_of_string "0123456789abcdef") "0"%char.

Definition escape (c : ascii) : string :=
  let n := nat_of_ascii c in
  if n =? 34 then String "\"%char (String dquote "")
  else if n =? 92 then "\\"
  else if n =? 10 then "\n"
  else if n =? 13 then "\r"
  else if n =? 9 then "\t"
  else if n =? 8 then "\b"
  else if n =? 12 then "\f"
  else if (n <? 32) || (126 <? n) then
    "\u00" +:+ String (hex_digit (n / 16)) (String (hex_digit (n mod 16)) "")
  else String c "".

Fixpoint escape_all (s : string) : string :=
  match s with
  | EmptyString => ""
  | String c s' => escape c +:+ escape_all s'
  end.

Definition encode_str (s : string) : string :=
  String dquote (escape_all s +:+ String dquote "").

Fixpoint spaces (n : nat) : string :=
  match n with
  | 0 => ""
  | S n' => String " "%char (spaces n')
  end.

Definition newline_indent (level : nat) : string :=
  String newline (spaces (4 * level)).

Fixpoint join (sep : string) (xs : list string) : string :=
  match xs with
  | [] => ""
  | [x] => x
  | x :: xs' => x +:+ sep +:+ join sep xs'
  end.

Fixpoint dumps_at (level : nat) (j : json) : string :=
  match j with
  | JNull => "null"
  | JBool true => "true"
  | JBool false => "false"
  | JInt n => str n
  | JStr s => encode_str s
  | JArr [] => "[]"
  | JArr items =>
      "[" +:+ newline_indent (S level)
      +:+ join ("," +:+ newline_indent (S level)) (map (dumps_at (S level)) items)
      +:+ newline_indent level +:+ "]"
  | JObj [] => "{}"
  | JObj members =>
      "{" +:+ newline_indent (S level)
      +:+ join ("," +:+ newline_indent (S level))
            (map (fun kv => encode_str (fst kv) +:+ ": " +:+ dumps_at (S level) (snd kv))
                 members)
      +:+ newline_indent level +:+ "}"
  end.

Definition dumps (j : json) : string := dumps_at 0 j.

(** *** Reading

    The reader returns what it read and the rest of the text, or raises as
    [json.load] does: [JSONDecodeError] where the text stops being JSON,
    [ValueError] at an integer literal too long to convert, [RecursionError]
    at a container nested too deep; the first of them from the left. *)

Definition malformed {A : Type} : result A := Raise JSONDecodeError.

Definition is_ws (c : ascii) : bool :=
  let n := nat_of_ascii c in
  (n =? 32) || (n =? 9) || (n =? 10) || (n =? 13).

Fixpoint skip_ws (s : string) : string :=
  match s with
  | String c r => if is_ws c then skip_ws r else s
  | EmptyString => ""
  end.

Definition digit_of (c : ascii) : option Z :=
  let n := nat_of_ascii c in
  if (48 <=? n) && (n <=? 57) then Some (Z.of_nat (n - 48)) else None.

Definition hex_of (c : ascii) : option nat :=
  let n := nat_of_ascii c in
  if (48 <=? n) && (n <=? 57) then Some (n - 48)
  else if (97 <=? n) && (n <=? 102) then Some (n - 87)
  else if (65 <=? n) && (n <=? 70) then Some (n - 55)
  else None.

(** The digits of a literal, counted as they are read. *)
Fixpoint read_digits (count : nat) (acc : Z) (s : string) : nat * Z * string :=
  match s with
  | String c r =>
      match digit_of c with
      | Some d => read_digits (S count) (10 * acc + d) r
      | None => (count, acc, s)
      end
  | EmptyString => (count, acc, "")
  end.

(** A fraction or an exponent follows: a float, outside the fragment. *)
Definition float_follows (s : string) : bool :=
  match s with
  | String c _ =>
      let n := nat_of_ascii c in (n =? 46) || (n =? 101) || (n =? 69)
  | EmptyString => false
  end.

(** The longest decimal literal [int] converts: the default of
    [sys.get_int_max_str_digits()]. *)
Definition max_str_digits : nat := 4300.

(** The nesting [json.load] accepts: entering a container at depth
    [nesting_limit] raises [RecursionError].  The bound is the recursion
    limit of the interpreter (1000 unless the program changes it); the calls
    already on the stack take a few levels off it, which are not counted
    here. *)
Definition nesting_limit : nat := 1000.

(** [0 | [1-9][0-9]*] *)
Definition read_nat (s : string) : result (Z * string) :=
  match s with
  | String c r =>
      match digit_of c with
      | Some 0%Z => if float_follows r then malformed else Ret (0%Z, r)
      | Some d =>
          let '(count, n, r') := read_digits 1 d r in
          if float_follows r' then malformed
          else if max_str_digits <? count then Raise ValueError
          else Ret (n, r')
      | None => malformed
      end
  | EmptyString => malformed
  end.

(** The characters of a string literal after its opening quote. *)
Fixpoint read_chars (s : string) : option (string * string) :=
  match s with
  | EmptyString => None
  | String c r =>
      let n := nat_of_ascii c in
      if n =? 34 then Some ("", r)
      else if n =? 92 then
        match r with
        | String e r' =>
            let m := nat_of_ascii e in
            if m =? 117 then
              match r' with
              | String h1 (String h2 (String h3 (String h4 r''))) =>
                  match hex_of h1, hex_of h2, hex_of h3, hex_of h4 with
                  | Some 0, Some 0, Some a, Some b =>
                      match read_chars r'' with
                      | Some (t, rest) => Some (String (ascii_of_nat (16 * a + b)) t, rest)
                      | None => None
                      end
                  | _, _, _, _ => None
                  end
              | _ => None
              end
            else
              let plain :=
                if m =? 34 then Some dquote
                else if m =? 92 then Some "\"%char
                else if m =? 47 then Some "/"%char
                else if m =? 98 then Some "008"%char
                else if m =? 102 then Some "012"%char
                else if m =? 110 then Some "010"%char
                else if m =? 114 then Some "013"%char
                else if m =? 116 then Some "009"%char
                else None in
              match plain, read_chars r' with
              | Some x, Some (t, rest) => Some (String x t, rest)
              | _, _ => None
              end
        | EmptyString => None
        end
      else if n <? 32 then None
      else
        match read_chars r with
        | Some (t, rest) => Some (String c t, rest)
        | None => None
        end
  end.

Fixpoint strip (p s : string) : option string :=
  match p, s with
  | EmptyString, _ => Some s
  | String a p', String b s' => if Ascii.eqb a b then strip p' s' else None
  | _, _ => None
  end.

Definition starts (c : ascii) (s : string) : option string :=
  match s with
  | String c' r => if Ascii.eqb c c' then Some r else None
  | EmptyString => None
  end.

(** [room] is the number of containers that may still be entered, one
    inside the other. *)
Fixpoint read_value (fuel room : nat) (s : string) : result (json * string) :=
  match fuel with
  | 0 => malformed
  | S fuel' =>
      match s with
      | EmptyString => malformed
      | String c r =>
          let n := nat_of_ascii c in
          if n =? 123 then
            match room with
            | 0 => Raise RecursionError
            | S room' =>
                match starts "}"%char (skip_ws r) with
                | Some rest => Ret (JObj [], rest)
                | None =>
                    match read_members fuel' room' (skip_ws r) with
                    | Ret (ms, rest) =>
                        Ret (JObj (foldl (fun d kv => dict_set (fst kv) (snd kv) d) [] ms),
                             rest)
                    | Raise err => Raise err
                    end
                end
            end
          else if n =? 91 then
            match room with
            | 0 => Raise RecursionError
            | S room' =>
                match starts "]"%char (skip_ws r) with
                | Some rest => Ret (JArr [], rest)
                | None =>
                    match read_items fuel' room' (skip_ws r) with
                    | Ret (xs, rest) => Ret (JArr xs, rest)
                    | Raise err => Raise err
                    end
                end
            end
          else if n =? 34 then
            match read_chars r with
            | Some (t, rest) => Ret (JStr t, rest)
            | None => malformed
            end
          else if n =? 45 then
            match read_nat r with
            | Ret (k, rest) => Ret (JInt (- k), rest)
            | Raise err => Raise err
            end
          else
            match strip "null" s, strip "true" s, strip "false" s with
            | Some rest, _, _ => Ret (JNull, rest)
            | _, Some rest, _ => Ret (JBool true, rest)
            | _, _, Some rest => Ret (JBool false, rest)
            | _, _, _ =>
                match read_nat s with
                | Ret (k, rest) => Ret (JInt k, rest)
                | Raise err => Raise err
                end
            end
      end
  end
with read_items (fuel room : nat) (s : string) : result (list json * string) :=
  match fuel with
  | 0 => malformed
  | S fuel' =>
      match read_value fuel' room s with
      | Ret (x, rest) =>
          match skip_ws rest with
          | String c r =>
              if nat_of_ascii c =? 44 then
                match read_items fuel' room (skip_ws r) with
                | Ret (xs, rest') => Ret (x :: xs, rest')
                | Raise err => Raise err
                end
              else if nat_of_ascii c =? 93 then Ret ([x], r)
              else malformed
          | EmptyString => malformed
          end
      | Raise err => Raise err
      end
  end
with read_members (fuel room : nat) (s : string)
  : result (list (string * json) * string) :=
  match fuel with
  | 0 => malformed
  | S fuel' =>
      match starts dquote s with
      | Some r =>
          match read_chars r with
          | Some (k, rest) =>
              match starts ":"%char (skip_ws rest) with
              | Some rest1 =>
                  match read_value fuel' room (skip_ws rest1) with
                  | Ret (x, rest2) =>
                      match skip_ws rest2 with
                      | String c r' =>
                          if nat_of_ascii c =? 44 then
                            match read_members fuel' room (skip_ws r') with
                            | Ret (ms, rest') => Ret ((k, x) :: ms, rest')
                            | Raise err => Raise err
                            end
                          else if nat_of_ascii c =? 125 then Ret ([(k, x)], r')
                          else malformed
                      | EmptyString => malformed
                      end
                  | Raise err => Raise err
                  end
              | None => malformed
              end
          | None => malformed
          end
      | None => malformed
      end
  end.

(** A document is one value, with nothing but blanks around it. *)
Definition loads (s : string) : result json :=
  match read_value (2 * String.length s + 2) (nesting_limit - 1) (skip_ws s) with
  | Ret (j, rest) =>
      match skip_ws rest with
      | EmptyString => Ret j
      | _ => malformed
      end
  | Raise err => Raise err
  end.

#[global] Instance lib : JsonLib := {| json_loads := loads; json_dumps := dumps |}.

End MiniJson.

(** ** Sample runs

    Directories, environments and processes on which the module is run
    below, with the concrete json library. *)
Module Sample.
(** [s] between double quotes. *)
Definition quoted (s : string) : string :=
  String MiniJson.dquote (s +:+ String MiniJson.dquote "").

(** A primary file written by another program, on one line. *)
Definition compact_text : string := "{" +:+ quoted "ticket_counter" +:+ ": 5}".
Definition compact_tree : json := JObj [("ticket_counter", JInt 5)].

Definition stamp_time : string := "2024-05-01T12:00:00.000000".

(** Nothing fails. *)
Definition env_ok : env := Env stamp_time "k3x9" None None.

(** The write into the temporary file fails (no space left, say) before
    any of the text reaches it. *)
Definition env_write_fails : env := Env stamp_time "k3x9" None (Some (AtWrite 0)).

Definition dir_valid : gmap string node := {[ CONFIG_FILE := Node Readable compact_text ]}.
Definition dir_empty : gmap string node := ∅.
Definition dir_unreadable : gmap string node := {[ CONFIG_FILE := Node Denied compact_text ]}.
Definition dir_truncated : gmap string node := {[ CONFIG_FILE := Node Readable "{" ]}.
Definition dir_recoverable : gmap string node :=
  {[ CONFIG_FILE := Node Readable "{"; CONFIG_BACKUP_FILE := Node Readable compact_text ]}.

(** The value a call returned ([None] when it raised). *)
Definition returned (r : result pyval) : pyval :=
  match r with Ret v => v | Raise _ => PNone end.

(** A process that has loaded [dir_valid], and the document it got. *)
Definition loaded : world := snd (load_config (boot dir_valid)).
Definition doc : pyval := returned (fst (load_config (boot dir_valid))).

(** The text [json.dump(_, indent=4)] writes for [compact_tree]. *)
Definition indented_text : string :=
  "{" +:+ String MiniJson.newline ("    " +:+ quoted "ticket_counter" +:+ ": 5")
      +:+ String MiniJson.newline "}".

(** A process that has loaded the truncated file and got the default
    document. *)
Definition fallen_back : world := snd (load_config (boot dir_truncated)).
Definition default_doc : pyval := returned (fst (load_config (boot dir_truncated))).

(** [update_config('ticket_counter', 9)] when the write of the temporary
    file fails. *)
Definition after_failed_update : world :=
  snd (update_config env_write_fails "ticket_counter" (PInt 9) (boot dir_valid)).

(** The primary file disappears under a process that has loaded it. *)
Definition file_gone : world := set_files dir_empty loaded.

(** A process started in an empty directory. *)
Definition first_run : world := boot dir_empty.
Definition first_doc : pyval := returned (fst (load_config first_run)).
Definition after_set : world :=
  snd (set_guild_prefix env_ok 12345 (PStr "?") first_run).

(** The primary file is truncated, there is no backup, and the write of
    the temporary file fails when [set_guild_prefix] saves. *)
Definition after_failed_set : world :=
  snd (set_guild_prefix env_write_fails 1 (PStr "?") (boot dir_truncated)).

(** The file written by the first [set_guild_prefix] of [first_run] is
    later truncated by another program. *)
Definition truncated_later : world := set_files dir_truncated after_set.
(** A primary file that holds a JSON array. *)
Definition dir_list : gmap string node := {[ CONFIG_FILE := Node Readable "[1]" ]}.

(** A primary file whose [guild_prefixes] is a number. *)
Definition dir_bad_prefixes : gmap string node :=
  {[ CONFIG_FILE := Node Readable ("{" +:+ quoted "guild_prefixes" +:+ ": 5}") ]}.

(** The write of the backup file fails after three characters; nothing
    else does. *)
Definition env_backup_cut : env := Env stamp_time "k3x9" (Some (AtBackupWrite 3)) None.

(** A process that loads the file written by the first [set_guild_prefix]
    of [first_run], and the document it gets. *)
Definition second_run : world := snd (load_config after_set).
Definition second_doc : pyval := returned (fst (load_config after_set)).

(** A process whose caller has built the document [{'a': (1, 2)}]: the
    tuple is the object at 12, the dict the object at 13. *)
Definition with_tuple : world :=
  set_objs (module_objs ++ [OTuple [PInt 1; PInt 2]; ODict [("a", PRef 12)]])
           (boot dir_empty).
Definition tuple_doc : pyval := PRef 13.

(** A primary file that holds one integer, of 4301 digits; the backup is
    valid. *)
Definition long_int_text : string :=
  String "1"%char (string_of_list_ascii (repeat "0"%char 4300)).
Definition dir_long_int : gmap string node :=
  {[ CONFIG_FILE := Node Readable long_int_text;
     CONFIG_BACKUP_FILE := Node Readable compact_text ]}.

(** A primary file of a thousand opening brackets; the backup is valid. *)
Definition deep_text : string := string_of_list_ascii (repeat "["%char 1000).
Definition dir_deep : gmap string node :=
  {[ CONFIG_FILE := Node Readable deep_text;
     CONFIG_BACKUP_FILE := Node Readable compact_text ]}.

(** A primary file whose bytes are no text in UTF-8 ([ff fe] inside a
    string literal); the backup is valid. *)
Definition garbled_bytes : string :=
  "{" +:+ quoted "a" +:+ ": "
      +:+ quoted (String (ascii_of_nat 255) (String (ascii_of_nat 254) "")) +:+ "}".
Definition dir_garbled : gmap string node :=
  {[ CONFIG_FILE := Node Undecodable garbled_bytes;
     CONFIG_BACKUP_FILE := Node Readable compact_text ]}.
End Sample.

(** ** Notions used in the statements *)

(** ** Induction on JSON trees *)

Section JsonInd.
Variable P : json -> Prop.
Hypothesis Hnull : P JNull.
Hypothesis Hbool : forall b, P (JBool b).
Hypothesis Hint : forall n, P (JInt n).
Hypothesis Hstr : forall s, P (JStr s).
Hypothesis Harr : forall items, Forall P items -> P (JArr items).
Hypothesis Hobj : forall members, Forall (fun kv => P (snd kv)) members -> P (JObj members).

Fixpoint json_ind (j : json) : P j :=
  match j with
  | JNull => Hnull
  | JBool b => Hbool b
  | JInt n => Hint n
  | JStr s => Hstr s
  | JArr items =>
      Harr items
        ((fix all (js : list json) : Forall P js :=
            match js with
            | [] => @List.Forall_nil _ P
            | j' :: js' => @List.Forall_cons _ P j' js' (json_ind j') (all js')
            end) items)
  | JObj members =>
      Hobj members
        ((fix all (ms : list (string * json)) : Forall (fun kv => P (snd kv)) ms :=
            match ms with
            | [] => @List.Forall_nil _ _
            | kv :: ms' => @List.Forall_cons _ _ kv ms' (json_ind (snd kv)) (all ms')
            end) members)
  end.
End JsonInd.

(** Two dictionaries with the same keys in the same order, and related
    values. *)
Definition entries {A B : Type} (R : A -> B -> Prop)
  : list (string * A) -> list (string * B) -> Prop :=
  Forall2 (fun kv kj => fst kv = fst kj /\ R (snd kv) (snd kj)).

(** [v] was built for the tree [j] in the store [h], which became [h']:
    the store only grew, and [v] reads as [j]. *)
Definition built (h h' : list pyobj) (v : pyval) (j : json) : Prop :=
  exists cells, h' = h ++ cells /\ json_depth j <= length cells /\
                snapshot (json_depth j) h' v = Some j.

(** An immediate value: not a reference. *)
Definition is_atom (v : pyval) : Prop :=
  match v with PRef _ => False | _ => True end.

Section FileStates.
Context `{JsonLib}.

(** The exceptions the handler of the primary read names:
    [except (json.JSONDecodeError, EOFError)]. *)
Definition decode_error (err : exn) : bool :=
  match err with JSONDecodeError | EOFError => true | _ => false end.

(** [path] is a readable file whose text is the JSON document [j]. *)
Definition holds_json (f : gmap string node) (path : string) (j : json) : Prop :=
  exists text, f !! path = Some (Node Readable text) /\ json_loads text = Ret j.

(** [path] is a readable file whose text is not JSON (malformed,
    truncated, empty): [json.load] raises on it an exception that the
    handler of the primary read names. *)
Definition corrupt (f : gmap string node) (path : string) : Prop :=
  exists text err, f !! path = Some (Node Readable text) /\
                   json_loads text = Raise err /\ decode_error err = true.

(** [path] exists and cannot be opened. *)
Definition unreadable (f : gmap string node) (path : string) : Prop :=
  exists text, f !! path = Some (Node Denied text).

(** [path] exists and its bytes are no text. *)
Definition undecodable (f : gmap string node) (path : string) : Prop :=
  exists text, f !! path = Some (Node Undecodable text).

(** [path] is a readable file on whose text [json.load] raises [err], an
    exception that the handler of the primary read does not name. *)
Definition refused (f : gmap string node) (path : string) (err : exn) : Prop :=
  exists text, f !! path = Some (Node Readable text) /\
               json_loads text = Raise err /\ decode_error err = false.

(** The library reads back the text it writes for [j]. *)
Definition reads_back (j : json) : Prop := json_loads (json_dumps j) = Ret j.
End FileStates.

(** The document [jd] with its [last_saved] member set to [ts]. *)
Definition stamped (ts : string) (jd : list (string * json)) : json :=
  JObj (dict_set "last_saved" (JStr ts) jd).

(** A value that is not a dict: it does not support item assignment. *)
Definition not_a_dict (h : list pyobj) (v : pyval) : Prop :=
  match v with
  | PRef l => match h !! l with Some (ODict _) => False | _ => True end
  | _ => True
  end.

(** The world after [config_data['last_saved'] = now] on the dict [d] at
    [l]. *)
Definition stamp (e : env) (l : loc) (d : list (string * pyval)) (w : world) : world :=
  set_objs (<[l := ODict (dict_set "last_saved" (PStr (now e)) d)]> (objs w)) w.

(** [DEFAULT_CONFIG] refers to a dict of the store. *)
Definition default_alive (h : list pyobj) : Prop :=
  match DEFAULT_CONFIG with
  | PRef l => exists d, h !! l = Some (ODict d)
  | _ => False
  end.

(** The statements of [set_guild_prefix] between the load and the save. *)
Definition put_prefix (config : pyval) (guild_id : Z) (prefix : pyval) : M unit :=
  present ← contains "guild_prefixes" config;
  (if (present : bool) then mret tt
   else fresh ← new_dict; setitem config "guild_prefixes" fresh);;
  guild_prefixes ← getitem config "guild_prefixes";
  setitem guild_prefixes (str guild_id) prefix.

(** A computation never shrinks the store. *)
Definition grows {A : Type} (c : M A) : Prop :=
  forall w, length (objs w) <= length (objs (snd (c w))).

(** A computation leaves a dict a dict: objects are not freed, and none is
    replaced by an object of another type. *)
Definition keeps_dicts {A : Type} (c : M A) : Prop :=
  forall w l d, objs w !! l = Some (ODict d) ->
                exists d', objs (snd (c w)) !! l = Some (ODict d').

(** A computation leaves every file as it was. *)
Definition keeps_files {A : Type} (c : M A) : Prop :=
  forall w, files (snd (c w)) = files w.

(** A computation touches no file but the primary one and the backup. *)
Definition confined {A : Type} (c : M A) : Prop :=
  forall w path,
    path <> CONFIG_FILE -> path <> CONFIG_BACKUP_FILE ->
    files (snd (c w)) !! path = files w !! path.

(** A computation leaves every object of the store as it was; it may add
    objects. *)
Definition keeps_objects {A : Type} (c : M A) : Prop :=
  forall w l o, objs w !! l = Some o -> objs (snd (c w)) !! l = Some o.

(** The object a value refers to. *)
Definition deref (h : list pyobj) (v : pyval) : option pyobj :=
  match v with PRef l => h !! l | _ => None end.

(** * Properties *)

(** ** Dictionaries *)

Section DictFacts.
Context {A : Type}.
Implicit Types (d : list (string * A)) (k : string) (v : A).

Lemma dict_get_set_eq k v d : dict_get k (dict_set k v d) = Some v.
Proof.
  induction d as [|[k' v'] d IH]; simpl.
  - by rewrite String.eqb_refl.
  - destruct (String.eqb k k') eqn:E; simpl; rewrite E; [done | apply IH].
Qed.

Lemma dict_get_set_ne k k' v d : k <> k' -> dict_get k' (dict_set k v d) = dict_get k' d.
Proof.
  intros Hne. induction d as [|[k0 v0] d IH]; simpl.
  - destruct (String.eqb k' k) eqn:E; [|done].
    apply String.eqb_eq in E. congruence.
  - destruct (String.eqb k k0) eqn:E; simpl; [|by rewrite IH].
    apply String.eqb_eq in E. subst k0.
    destruct (String.eqb k' k) eqn:E'; [|done].
    apply String.eqb_eq in E'. congruence.
Qed.

Lemma dict_mem_false k d : dict_mem k d = false -> dict_get k d = None.
Proof. unfold dict_mem. by destruct (dict_get k d). Qed.

Lemma dict_mem_true k d : dict_mem k d = true -> exists v, dict_get k d = Some v.
Proof. unfold dict_mem. destruct (dict_get k d); [eauto | done]. Qed.
End DictFacts.

Section Entries.
Context {A B : Type} (R : A -> B -> Prop).

Lemma entries_set k v j d jd :
  entries R d jd -> R v j -> entries R (dict_set k v d) (dict_set k j jd).
Proof.
  intros Hd Hv. induction Hd as [|[k1 v1] [k2 j2] d jd [Hk Hr] Hd IH]; simpl in *.
  - constructor; [done | constructor].
  - subst k2. destruct (String.eqb k k1); constructor; done.
Qed.

Lemma entries_get k d jd :
  entries R d jd ->
  match dict_get k d, dict_get k jd with
  | Some v, Some j => R v j
  | None, None => True
  | _, _ => False
  end.
Proof.
  intros Hd. induction Hd as [|[k1 v1] [k2 j2] d jd [Hk Hr] Hd IH]; simpl in *; [done|].
  subst k2. by destruct (String.eqb k k1).
Qed.

Lemma entries_get_l k d jd v :
  entries R d jd -> dict_get k d = Some v -> exists j, dict_get k jd = Some j /\ R v j.
Proof.
  intros Hd Hk. pose proof (entries_get k d jd Hd) as Hg. rewrite Hk in Hg.
  destruct (dict_get k jd); [eauto | done].
Qed.

Lemma entries_get_r k d jd j :
  entries R d jd -> dict_get k jd = Some j -> exists v, dict_get k d = Some v /\ R v j.
Proof.
  intros Hd Hk. pose proof (entries_get k d jd Hd) as Hg. rewrite Hk in Hg.
  destruct (dict_get k d); [eauto | done].
Qed.

Lemma entries_get_None k d jd :
  entries R d jd -> dict_get k jd = None -> dict_get k d = None.
Proof.
  intros Hd Hk. pose proof (entries_get k d jd Hd) as Hg. rewrite Hk in Hg.
  by destruct (dict_get k d).
Qed.
End Entries.

(** ** Reading the object store *)

Section Snapshot.
Implicit Types (h : list pyobj) (v : pyval) (j : json) (f : nat).

Lemma snapshot_dict f h l d jd :
  h !! l = Some (ODict d) ->
  snapshot (S f) h (PRef l) = Some (JObj jd) <->
  entries (fun v j => snapshot f h v = Some j) d jd.
Proof.
  intros Hl. simpl. rewrite Hl. unfold entries. split.
  - intros Hm. apply fmap_Some in Hm as (jd' & Hm & [= ->]).
    apply mapM_Some in Hm. eapply Forall2_impl; [exact Hm|].
    intros [k v] [k' j] Hkv. simpl in *.
    apply fmap_Some in Hkv as (j' & Hs & [= -> ->]). done.
  - intros Hd. apply fmap_Some. exists jd. split; [|done].
    apply mapM_Some. eapply Forall2_impl; [exact Hd|].
    intros [k v] [k' j] [Hk Hs]. simpl in *. subst k'. by rewrite Hs.
Qed.

Lemma snapshot_list f h l xs js :
  h !! l = Some (OList xs) ->
  snapshot (S f) h (PRef l) = Some (JArr js) <->
  Forall2 (fun v j => snapshot f h v = Some j) xs js.
Proof.
  intros Hl. simpl. rewrite Hl. split.
  - intros Hm. apply fmap_Some in Hm as (js' & Hm & [= ->]).
    by apply mapM_Some in Hm.
  - intros Hd. apply fmap_Some. exists js. split; [|done]. by apply mapM_Some.
Qed.

(** [json.dump] writes a tuple as it writes a list. *)
Lemma snapshot_tuple f h l xs js :
  h !! l = Some (OTuple xs) ->
  snapshot (S f) h (PRef l) = Some (JArr js) <->
  Forall2 (fun v j => snapshot f h v = Some j) xs js.
Proof.
  intros Hl. simpl. rewrite Hl. split.
  - intros Hm. apply fmap_Some in Hm as (js' & Hm & [= ->]).
    by apply mapM_Some in Hm.
  - intros Hd. apply fmap_Some. exists js. split; [|done]. by apply mapM_Some.
Qed.

(** A value that reads as an object is a dict whose entries read as the
    members. *)
Lemma snapshot_obj_inv f h v jd :
  snapshot f h v = Some (JObj jd) ->
  exists f' l d, f = S f' /\ v = PRef l /\ h !! l = Some (ODict d) /\
                 entries (fun v j => snapshot f' h v = Some j) d jd.
Proof.
  destruct f as [|f']; destruct v as [| | | |l]; simpl; try done.
  destruct (h !! l) as [[d|xs|xs]|] eqn:Hl; [| | |done].
  - intros Hs. exists f', l, d. repeat split; [done|].
    apply (snapshot_dict f' h l d jd Hl). simpl. by rewrite Hl.
  - intros Hs. apply fmap_Some in Hs as (? & _ & [=]).
  - intros Hs. apply fmap_Some in Hs as (? & _ & [=]).
Qed.

Lemma snapshot_str_inv f h v s : snapshot f h v = Some (JStr s) -> v = PStr s.
Proof.
  destruct f; destruct v as [| | | |l]; simpl; try congruence; try done.
  destruct (h !! l) as [[d|xs|xs]|]; [| | |done];
    intros Hs; apply fmap_Some in Hs as (? & _ & [=]).
Qed.

(** More fuel and a larger store read the same tree. *)
Lemma snapshot_weaken f : forall f' h ext v j,
  snapshot f h v = Some j -> f <= f' -> snapshot f' (h ++ ext) v = Some j.
Proof.
  induction f as [|f IH]; intros f' h ext v j Hs Hle;
    (destruct v as [| | | |l]; [by destruct f'; simpl in * ..|]); [done|].
  destruct f' as [|f']; [lia|].
  simpl in Hs. destruct (h !! l) as [[d|xs|xs]|] eqn:Hl; [| | |discriminate].
  - apply fmap_Some in Hs as (jd & Hm & ->).
    apply (snapshot_dict f' (h ++ ext) l d jd); [by apply lookup_app_l_Some|].
    apply mapM_Some in Hm. eapply Forall2_impl; [exact Hm|].
    intros [k v] [k' j] Hkv. simpl in *.
    apply fmap_Some in Hkv as (j' & Hs & [= -> ->]). split; [done|].
    apply IH; [done | lia].
  - apply fmap_Some in Hs as (js & Hm & ->).
    apply (snapshot_list f' (h ++ ext) l xs js); [by apply lookup_app_l_Some|].
    apply mapM_Some in Hm. eapply Forall2_impl; [exact Hm|].
    intros v j Hs. simpl in *. apply IH; [done | lia].
  - apply fmap_Some in Hs as (js & Hm & ->).
    apply (snapshot_tuple f' (h ++ ext) l xs js); [by apply lookup_app_l_Some|].
    apply mapM_Some in Hm. eapply Forall2_impl; [exact Hm|].
    intros v j Hs. simpl in *. apply IH; [done | lia].
Qed.

Lemma snapshot_mono f f' h v j :
  snapshot f h v = Some j -> f <= f' -> snapshot f' h v = Some j.
Proof.
  intros Hs Hle. rewrite <- (app_nil_r h). by eapply snapshot_weaken.
Qed.

(** The tree of a value does not depend on the fuel that reads it. *)
Lemma snapshot_det f1 f2 h v j1 j2 :
  snapshot f1 h v = Some j1 -> snapshot f2 h v = Some j2 -> j1 = j2.
Proof.
  intros H1 H2.
  apply (snapshot_mono _ (f1 `max` f2)) in H1; [|lia].
  apply (snapshot_mono _ (f1 `max` f2)) in H2; [|lia].
  congruence.
Qed.

Lemma tree_of_app h ext v j : tree_of h v = Some j -> tree_of (h ++ ext) v = Some j.
Proof.
  unfold tree_of. intros Hs. eapply snapshot_weaken; [exact Hs|].
  rewrite length_app. lia.
Qed.
End Snapshot.

(** ** Building values in the store *)

Lemma alloc_seq_built {A : Type} (f : A -> list pyobj -> pyval * list pyobj)
      (tr : A -> json) (xs : list A) :
  Forall (fun x => forall h, built h (snd (f x h)) (fst (f x h)) (tr x)) xs ->
  forall h, exists cells,
    snd (alloc_seq f xs h) = h ++ cells /\
    foldr Nat.max 0 (map (fun x => json_depth (tr x)) xs) <= length cells /\
    Forall2 (fun v x => snapshot (foldr Nat.max 0 (map (fun x => json_depth (tr x)) xs))
                                 (h ++ cells) v = Some (tr x))
            (fst (alloc_seq f xs h)) xs.
Proof.
  induction 1 as [|x xs Hx _ IH]; intros h; simpl.
  - exists []. rewrite app_nil_r. split_and!; [done | lia | constructor].
  - destruct (Hx h) as (c1 & Hh1 & Hd1 & Hs1).
    destruct (f x h) as [v h1] eqn:Hf. simpl in *. subst h1.
    destruct (IH (h ++ c1)) as (c2 & Hh2 & Hd2 & Hs2).
    destruct (alloc_seq f xs (h ++ c1)) as [vs h2] eqn:Hg. simpl in *. subst h2.
    exists (c1 ++ c2). rewrite app_assoc, length_app. split_and!; [done | lia |].
    constructor.
    + eapply snapshot_weaken; [exact Hs1 | lia].
    + eapply Forall2_impl; [exact Hs2|]. intros v' x' Hs. simpl in Hs.
      eapply snapshot_mono; [exact Hs | lia].
Qed.

Lemma entries_zip {A B : Type} (R : A -> B -> Prop) (vs : list A) (ms : list (string * B)) :
  Forall2 (fun v kv => R v (snd kv)) vs ms ->
  entries R (zip (map fst ms) vs) ms.
Proof.
  induction 1 as [|v [k j] vs ms Hr _ IH]; simpl; constructor; done.
Qed.

Lemma alloc_json_built j : forall h, built h (snd (alloc_json j h)) (fst (alloc_json j h)) j.
Proof.
  induction j as [| | | |items IH|members IH] using json_ind; intros h;
    try (exists []; rewrite app_nil_r; simpl; split_and!; [done | lia | done]).
  - destruct (alloc_seq_built alloc_json (fun j => j) items IH h) as (cells & Hh & Hd & Hs).
    change (fun x : json => json_depth x) with json_depth in *.
    cbn [alloc_json]. destruct (alloc_seq alloc_json items h) as [vs h1].
    cbn [new_obj fst snd] in *. subst h1.
    exists (cells ++ [OList vs]). rewrite app_assoc, length_app.
    split_and!; [done | simpl; lia |].
    change (json_depth (JArr items)) with (S (foldr Nat.max 0 (map json_depth items))).
    apply snapshot_list with (xs := vs); [by apply list_lookup_middle|].
    eapply Forall2_impl; [exact Hs|]. intros v j Hv.
    eapply snapshot_weaken; [exact Hv | lia].
  - destruct (alloc_seq_built (fun kv => alloc_json (snd kv)) snd members IH h)
      as (cells & Hh & Hd & Hs).
    cbn [alloc_json].
    destruct (alloc_seq (fun kv => alloc_json (snd kv)) members h) as [vs h1].
    cbn [new_obj fst snd] in *. subst h1.
    exists (cells ++ [ODict (zip (map fst members) vs)]). rewrite app_assoc, length_app.
    split_and!; [done | simpl; lia |].
    change (json_depth (JObj members))
      with (S (foldr Nat.max 0 (map (fun kv => json_depth (snd kv)) members))).
    apply snapshot_dict with (d := zip (map fst members) vs); [by apply list_lookup_middle|].
    apply entries_zip.
    eapply Forall2_impl; [exact Hs|]. intros v j Hv.
    eapply snapshot_weaken; [exact Hv | lia].
Qed.

Lemma alloc_json_tree j h v h' :
  alloc_json j h = (v, h') -> (exists cells, h' = h ++ cells) /\ tree_of h' v = Some j.
Proof.
  intros Ha. destruct (alloc_json_built j h) as (cells & Hh & Hd & Hs).
  rewrite Ha in *. simpl in *. split; [eauto|].
  unfold tree_of. eapply snapshot_mono; [exact Hs|]. subst h'. rewrite length_app. lia.
Qed.

(** ** Updating a dictionary in place *)

Lemma Forall2_impl_in {A B : Type} (R Q : A -> B -> Prop) (l : list A) (k : list B) :
  Forall2 R l k ->
  (forall x y, y ∈ k -> R x y -> Q x y) ->
  Forall2 Q l k.
Proof.
  induction 1 as [|x y l k Hr _ IH]; intros Himp; constructor.
  - apply Himp; [left | done].
  - apply IH. intros x' y' Hin. apply Himp. by right.
Qed.

Lemma json_size_member (kj : string * json) (jd : list (string * json)) :
  kj ∈ jd -> json_size (snd kj) < json_size (JObj jd).
Proof.
  intros Hin. simpl. apply Nat.lt_succ_r.
  induction Hin as [kj jd|kj kj' jd _ IH]; simpl; lia.
Qed.

Lemma json_size_item (j : json) (js : list json) :
  j ∈ js -> json_size j < json_size (JArr js).
Proof.
  intros Hin. simpl. apply Nat.lt_succ_r.
  induction Hin as [j js|j j' js _ IH]; simpl; lia.
Qed.

Lemma dict_get_elem {A : Type} (k : string) (d : list (string * A)) (v : A) :
  dict_get k d = Some v -> (k, v) ∈ d.
Proof.
  induction d as [|[k' v'] d IH]; simpl; [done|].
  destruct (String.eqb k k') eqn:E.
  - apply String.eqb_eq in E. intros [= ->]. subst. left.
  - intros Hg. right. by apply IH.
Qed.

(** Replacing the object at [l] does not change what is read from a value
    whose tree is smaller than the tree of [l]: such a value cannot reach
    [l]. *)
Lemma snapshot_update_small h l o F J :
  snapshot F h (PRef l) = Some J ->
  forall f v j,
    snapshot f h v = Some j -> json_size j < json_size J ->
    snapshot f (<[l := o]> h) v = Some j.
Proof.
  intros HJ. induction f as [|f IH]; intros v j Hs Hlt;
    (destruct v as [| | | |l']; [by simpl in * ..|]); [done|].
  destruct (decide (l' = l)) as [->|Hne].
  { pose proof (snapshot_det _ _ _ _ _ _ Hs HJ). subst. lia. }
  simpl in Hs. destruct (h !! l') as [[d|xs|xs]|] eqn:Hl; [| | |done].
  - apply fmap_Some in Hs as (jd & Hm & ->).
    apply snapshot_dict with (d := d); [by rewrite list_lookup_insert_ne|].
    assert (entries (fun v j => snapshot f h v = Some j) d jd) as Hd.
    { apply (snapshot_dict f h l' d jd Hl). simpl. by rewrite Hl, Hm. }
    eapply Forall2_impl_in; [exact Hd|].
    intros [k v] kj Hin [Hk Hv]. split; [done|]. apply IH; [done|].
    pose proof (json_size_member kj jd Hin). simpl in *. lia.
  - apply fmap_Some in Hs as (js & Hm & ->).
    apply snapshot_list with (xs := xs); [by rewrite list_lookup_insert_ne|].
    apply mapM_Some in Hm.
    eapply Forall2_impl_in; [exact Hm|].
    intros v j Hin Hv. apply IH; [done|].
    pose proof (json_size_item j js Hin). simpl in *. lia.
  - apply fmap_Some in Hs as (js & Hm & ->).
    apply snapshot_tuple with (xs := xs); [by rewrite list_lookup_insert_ne|].
    apply mapM_Some in Hm.
    eapply Forall2_impl_in; [exact Hm|].
    intros v j Hin Hv. apply IH; [done|].
    pose proof (json_size_item j js Hin). simpl in *. lia.
Qed.

(** [d[k] = x] on the dict at [l]: the tree of [l] gets the tree of [x]
    under [k], and keeps its other members. *)
Lemma snapshot_setitem f h l d k x jx jd :
  h !! l = Some (ODict d) ->
  snapshot (S f) h (PRef l) = Some (JObj jd) ->
  snapshot f (<[l := ODict (dict_set k x d)]> h) x = Some jx ->
  snapshot (S f) (<[l := ODict (dict_set k x d)]> h) (PRef l)
  = Some (JObj (dict_set k jx jd)).
Proof.
  intros Hl HJ Hx.
  apply snapshot_dict with (d := dict_set k x d).
  { apply list_lookup_insert_eq. by eapply lookup_lt_Some. }
  apply entries_set; [|done].
  eapply Forall2_impl_in; [exact (proj1 (snapshot_dict f h l d jd Hl) HJ)|].
  intros [k' v] kj Hin [Hk Hv]. split; [done|].
  eapply snapshot_update_small; [exact HJ | done |].
  by apply json_size_member.
Qed.

Lemma tree_of_setitem h l d k x jx jd :
  h !! l = Some (ODict d) ->
  tree_of h (PRef l) = Some (JObj jd) ->
  snapshot (length h) (<[l := ODict (dict_set k x d)]> h) x = Some jx ->
  tree_of (<[l := ODict (dict_set k x d)]> h) (PRef l) = Some (JObj (dict_set k jx jd)).
Proof.
  unfold tree_of. rewrite length_insert. apply snapshot_setitem.
Qed.

Lemma snapshot_atom f h h' v : is_atom v -> snapshot f h v = snapshot 0 h' v.
Proof. by destruct f, v. Qed.

Lemma Forall_dict_set {A : Type} (P : string * A -> Prop) k x (d : list (string * A)) :
  Forall P d -> (forall k', P (k', x)) -> Forall P (dict_set k x d).
Proof.
  intros Hd Hx. induction Hd as [|[k' v'] d Hp Hd IH]; simpl.
  - by constructor.
  - destruct (String.eqb k k'); constructor; done.
Qed.

Lemma snapshot_ref f h l :
  snapshot (S f) h (PRef l) =
  match h !! l with
  | Some (ODict d) =>
      JObj <$> mapM (fun kv => pair (fst kv) <$> snapshot f h (snd kv)) d
  | Some (OList xs) | Some (OTuple xs) => JArr <$> mapM (snapshot f h) xs
  | None => None
  end.
Proof. reflexivity. Qed.

Lemma mapM_is_Some_impl {A B C : Type} (f : A -> option B) (g : A -> option C) l k :
  mapM f l = Some k -> (forall x y, f x = Some y -> is_Some (g x)) -> is_Some (mapM g l).
Proof.
  intros Hm Himp. apply mapM_is_Some. apply mapM_Some in Hm.
  induction Hm; constructor; eauto.
Qed.

(** Putting an immediate value into a dict keeps every value of the store
    readable. *)
Lemma snapshot_update_total h lg dg k x :
  h !! lg = Some (ODict dg) -> is_atom x ->
  forall f v j,
    snapshot f h v = Some j ->
    is_Some (snapshot f (<[lg := ODict (dict_set k x dg)]> h) v).
Proof.
  intros Hlg Hx. induction f as [|f IH]; intros v j Hs;
    (destruct v as [| | | |l']; [by simpl in *; eauto ..|]); [done|].
  rewrite snapshot_ref in *.
  destruct (decide (l' = lg)) as [->|Hne].
  - rewrite list_lookup_insert_eq by (by eapply lookup_lt_Some).
    rewrite Hlg in Hs. apply fmap_Some in Hs as (jd & Hm & ->).
    apply fmap_is_Some, mapM_is_Some, Forall_dict_set.
    + apply mapM_is_Some. eapply mapM_is_Some_impl; [exact Hm|].
      intros [k1 v1] y Hkv. simpl in *. apply fmap_Some in Hkv as (j' & Hv & _).
      apply fmap_is_Some. by eapply IH.
    + intros k'. simpl. apply fmap_is_Some. destruct x, f; simpl; eauto; done.
  - rewrite list_lookup_insert_ne by done.
    destruct (h !! l') as [[d|xs|xs]|]; [| | |done].
    + apply fmap_Some in Hs as (jd & Hm & ->).
      apply fmap_is_Some. eapply mapM_is_Some_impl; [exact Hm|].
      intros [k1 v1] y Hkv. simpl in *. apply fmap_Some in Hkv as (j' & Hv & _).
      apply fmap_is_Some. by eapply IH.
    + apply fmap_Some in Hs as (js & Hm & ->).
      apply fmap_is_Some. eapply mapM_is_Some_impl; [exact Hm|].
      intros v1 y Hv. by eapply IH.
    + apply fmap_Some in Hs as (js & Hm & ->).
      apply fmap_is_Some. eapply mapM_is_Some_impl; [exact Hm|].
      intros v1 y Hv. by eapply IH.
Qed.

(** [d[kg][k] = x] for an immediate [x], seen from the outer dict [l]: the
    member under [kg] gets [x] under [k]. *)
Lemma snapshot_setitem_nested f h l d jd kg lg dg k x jx :
  h !! l = Some (ODict d) ->
  snapshot (S f) h (PRef l) = Some (JObj jd) ->
  dict_get kg d = Some (PRef lg) ->
  h !! lg = Some (ODict dg) ->
  is_atom x -> snapshot 0 h x = Some jx ->
  exists jd' jg,
    dict_get kg jd = Some (JObj jg) /\
    snapshot (S f) (<[lg := ODict (dict_set k x dg)]> h) (PRef l) = Some (JObj jd') /\
    dict_get kg jd' = Some (JObj (dict_set k jx jg)).
Proof.
  intros Hl HJ Hkg Hlg Hx Hjx.
  pose proof (proj1 (snapshot_dict f h l d jd Hl) HJ) as Hd.
  destruct (entries_get_l _ kg d jd _ Hd Hkg) as (j_g & Hjg & Hsg).
  destruct f as [|f]; [done|].
  assert (exists jg, j_g = JObj jg) as [jg ->].
  { rewrite snapshot_ref, Hlg in Hsg. apply fmap_Some in Hsg as (? & _ & ->). eauto. }
  assert (lg <> l) as Hne.
  { intros ->. pose proof (snapshot_det _ _ _ _ _ _ Hsg HJ) as [= ->].
    apply dict_get_elem, json_size_member in Hjg. simpl in Hjg. lia. }
  set (h' := <[lg := ODict (dict_set k x dg)]> h).
  assert (snapshot (S f) h' (PRef lg) = Some (JObj (dict_set k jx jg))) as Hg'.
  { apply snapshot_setitem; [done | done |].
    by rewrite (snapshot_atom f _ h x Hx). }
  destruct (snapshot_update_total h lg dg k x Hlg Hx _ _ _ HJ) as [J' HJ'].
  fold h' in HJ'.
  assert (h' !! l = Some (ODict d)) as Hl'.
  { unfold h'. by rewrite list_lookup_insert_ne. }
  assert (exists jd', J' = JObj jd') as [jd' ->].
  { rewrite snapshot_ref, Hl' in HJ'. apply fmap_Some in HJ' as (? & _ & ->). eauto. }
  exists jd', jg. split_and!; [done | done |].
  pose proof (proj1 (snapshot_dict _ h' l d jd' Hl') HJ') as Hd'.
  destruct (entries_get_l _ kg d jd' _ Hd' Hkg) as (j' & Hj' & Hs').
  congruence.
Qed.

(** ** The steps of the module, case by case *)

Ltac unfold_M :=
  unfold mbind, M_bind, mret, M_ret, try_except, raise, print, assign_cache,
    read_cache, os_path_exists, read_text, build_value in *.

(** Reading a field after an update of the world. *)
Lemma files_set_files f w : files (set_files f w) = f.
Proof. reflexivity. Qed.
Lemma files_set_objs h w : files (set_objs h w) = files w.
Proof. reflexivity. Qed.
Lemma files_set_cache c w : files (set_cache c w) = files w.
Proof. reflexivity. Qed.
Lemma files_put_line l w : files (put_line l w) = files w.
Proof. reflexivity. Qed.
Lemma objs_set_files f w : objs (set_files f w) = objs w.
Proof. reflexivity. Qed.
Lemma objs_set_objs h w : objs (set_objs h w) = h.
Proof. reflexivity. Qed.
Lemma objs_set_cache c w : objs (set_cache c w) = objs w.
Proof. reflexivity. Qed.
Lemma objs_put_line l w : objs (put_line l w) = objs w.
Proof. reflexivity. Qed.
Lemma cache_set_files f w : _config_cache (set_files f w) = _config_cache w.
Proof. reflexivity. Qed.
Lemma cache_set_objs h w : _config_cache (set_objs h w) = _config_cache w.
Proof. reflexivity. Qed.
Lemma cache_set_cache c w : _config_cache (set_cache c w) = c.
Proof. reflexivity. Qed.
Lemma cache_put_line l w : _config_cache (put_line l w) = _config_cache w.
Proof. reflexivity. Qed.
Lemma stdout_set_files f w : stdout (set_files f w) = stdout w.
Proof. reflexivity. Qed.
Lemma stdout_set_objs h w : stdout (set_objs h w) = stdout w.
Proof. reflexivity. Qed.
Lemma stdout_set_cache c w : stdout (set_cache c w) = stdout w.
Proof. reflexivity. Qed.
Lemma stdout_put_line l w : stdout (put_line l w) = stdout w ++ [l].
Proof. reflexivity. Qed.

Create Rewrite HintDb world.
#[global] Hint Rewrite files_set_files files_set_objs files_set_cache files_put_line
  objs_set_files objs_set_objs objs_set_cache objs_put_line
  cache_set_files cache_set_objs cache_set_cache cache_put_line
  stdout_set_files stdout_set_objs stdout_set_cache stdout_put_line : world.

Ltac simpl_world := autorewrite with world in *.

Section LoadConfig.
Context `{JsonLib}.
Implicit Types (w : world) (j : json).

Lemma json_load_ok path j w :
  holds_json (files w) path j ->
  json_load path w =
    (Ret (fst (alloc_json j (objs w))), set_objs (snd (alloc_json j (objs w))) w).
Proof.
  intros (text & Hf & Hj). unfold json_load. unfold_M. rewrite Hf. simpl.
  rewrite Hj. by destruct (alloc_json j (objs w)).
Qed.

Lemma json_load_corrupt path w :
  corrupt (files w) path ->
  exists err, decode_error err = true /\ json_load path w = (Raise err, w).
Proof.
  intros (text & err & Hf & Hj & He). exists err. split; [done|].
  unfold json_load. unfold_M. rewrite Hf. simpl. by rewrite Hj.
Qed.

Lemma json_load_unreadable path w :
  unreadable (files w) path -> json_load path w = (Raise OSError, w).
Proof. intros (text & Hf). unfold json_load. unfold_M. by rewrite Hf. Qed.

Lemma json_load_undecodable path w :
  undecodable (files w) path -> json_load path w = (Raise UnicodeDecodeError, w).
Proof. intros (text & Hf). unfold json_load. unfold_M. by rewrite Hf. Qed.

Lemma json_load_refused path w err :
  refused (files w) path err -> json_load path w = (Raise err, w).
Proof.
  intros (text & Hf & Hj & _). unfold json_load. unfold_M. rewrite Hf. simpl.
  by rewrite Hj.
Qed.

Lemma json_load_absent path w :
  files w !! path = None -> json_load path w = (Raise OSError, w).
Proof. intros Hf. unfold json_load. unfold_M. by rewrite Hf. Qed.

(** The states of a file. *)
Lemma file_state (f : gmap string node) path :
  f !! path = None \/ unreadable f path \/ corrupt f path \/
  (exists j, holds_json f path j) \/
  undecodable f path \/ exists err, refused f path err.
Proof.
  destruct (f !! path) as [[[| |] text]|] eqn:Hf; [| | |by left].
  - destruct (json_loads text) as [j|err] eqn:Hj.
    + right; right; right; left. exists j, text. done.
    + destruct (decode_error err) eqn:He.
      * right; right; left. exists text, err. done.
      * right; right; right; right; right. exists err, text. done.
  - right; left. by exists text.
  - right; right; right; right; left. by exists text.
Qed.

(** A file that holds no document makes [json.load] raise. *)
Lemma json_load_fails path w :
  (forall j, ~ holds_json (files w) path j) ->
  exists err, json_load path w = (Raise err, w).
Proof.
  intros Hn.
  destruct (file_state (files w) path) as [Hs|[Hs|[Hs|[[j Hs]|[Hs|[err Hs]]]]]].
  - exists OSError. by apply json_load_absent.
  - exists OSError. by apply json_load_unreadable.
  - destruct (json_load_corrupt _ _ Hs) as (err & _ & Hl). eauto.
  - by destruct (Hn j).
  - exists UnicodeDecodeError. by apply json_load_undecodable.
  - exists err. by apply json_load_refused.
Qed.

Lemma no_document (f : gmap string node) path :
  f !! path = None \/ unreadable f path \/ corrupt f path ->
  forall j, ~ holds_json f path j.
Proof.
  intros [Hs|[(t & Hs)|(t & err & Hs & Hj & _)]] j (t' & Ht & Hj'); congruence.
Qed.

Lemma document_or_not (f : gmap string node) path :
  (exists j, holds_json f path j) \/ (forall j, ~ holds_json f path j).
Proof.
  destruct (file_state f path) as [Hs|[Hs|[Hs|[Hs|[Hs|[err Hs]]]]]]; [| | |by left| |];
    right.
  1-3: by apply no_document; eauto.
  - intros j (t' & Ht & _). destruct Hs as (t & Hs). congruence.
  - intros j (t' & Ht & Hj). destruct Hs as (t & Hs & Hr & _). congruence.
Qed.

Lemma corrupt_intro (f : gmap string node) path text :
  f !! path = Some (Node Readable text) ->
  json_loads text = Raise JSONDecodeError ->
  corrupt f path.
Proof. intros Hf Hj. by exists text, JSONDecodeError. Qed.

Lemma exists_true (f : gmap string node) path nd :
  f !! path = Some nd -> bool_decide (is_Some (f !! path)) = true.
Proof. intros ->. by apply bool_decide_eq_true_2. Qed.

Lemma load_config_absent w :
  files w !! CONFIG_FILE = None -> load_config w = copy_method DEFAULT_CONFIG w.
Proof. intros Hf. unfold load_config. unfold_M. by rewrite Hf. Qed.

Lemma load_config_unreadable w :
  unreadable (files w) CONFIG_FILE -> load_config w = (Raise OSError, w).
Proof.
  intros Hu. pose proof (json_load_unreadable _ _ Hu) as Hl.
  destruct Hu as (text & Hf).
  unfold load_config. unfold_M. rewrite (exists_true _ _ _ Hf). by rewrite Hl.
Qed.

Lemma load_config_primary w j :
  holds_json (files w) CONFIG_FILE j ->
  load_config w =
    (Ret (fst (alloc_json j (objs w))),
     set_cache (fst (alloc_json j (objs w)))
       (set_objs (snd (alloc_json j (objs w))) w)).
Proof.
  intros Hp. pose proof (json_load_ok _ _ _ Hp) as Hl.
  destruct Hp as (text & Hf & _).
  unfold load_config. unfold_M. rewrite (exists_true _ _ _ Hf). by rewrite Hl.
Qed.

Lemma load_config_undecodable w :
  undecodable (files w) CONFIG_FILE -> load_config w = (Raise UnicodeDecodeError, w).
Proof.
  intros Hu. pose proof (json_load_undecodable _ _ Hu) as Hl.
  destruct Hu as (text & Hf).
  unfold load_config. unfold_M. rewrite (exists_true _ _ _ Hf). by rewrite Hl.
Qed.

Lemma load_config_refused w err :
  refused (files w) CONFIG_FILE err -> load_config w = (Raise err, w).
Proof.
  intros Hr. pose proof (json_load_refused _ _ _ Hr) as Hl.
  destruct Hr as (text & Hf & _ & He).
  unfold load_config. unfold_M. rewrite (exists_true _ _ _ Hf), Hl.
  by destruct err.
Qed.

Lemma load_config_backup w j :
  corrupt (files w) CONFIG_FILE ->
  holds_json (files w) CONFIG_BACKUP_FILE j ->
  let w1 := put_line WarnCorrupted w in
  load_config w =
    (Ret (fst (alloc_json j (objs w))),
     set_cache (fst (alloc_json j (objs w)))
       (set_objs (snd (alloc_json j (objs w))) w1)).
Proof.
  intros Hc Hb w1. subst w1. destruct (json_load_corrupt _ _ Hc) as (err & He & Hl).
  pose proof (json_load_ok CONFIG_BACKUP_FILE j (put_line WarnCorrupted w) Hb) as Hl'.
  destruct Hc as (text & err' & Hf & _). destruct Hb as (text' & Hf' & _).
  unfold load_config. unfold_M. rewrite (exists_true _ _ _ Hf), Hl.
  destruct err; try discriminate He;
    cbv beta iota; simpl_world; rewrite (exists_true _ _ _ Hf'); by rewrite Hl'.
Qed.

(** The primary file is not JSON and the backup holds no document: the
    bare [except] swallows whatever the backup read raises. *)
Lemma load_config_no_backup w :
  corrupt (files w) CONFIG_FILE ->
  (forall j, ~ holds_json (files w) CONFIG_BACKUP_FILE j) ->
  load_config w =
    copy_method DEFAULT_CONFIG (put_line RecoveryFailed (put_line WarnCorrupted w)).
Proof.
  intros Hc Hb. destruct (json_load_corrupt _ _ Hc) as (err & He & Hl).
  destruct (json_load_fails CONFIG_BACKUP_FILE (put_line WarnCorrupted w) Hb)
    as (errb & Hl').
  destruct Hc as (text & err' & Hf & _).
  unfold load_config. unfold_M. rewrite (exists_true _ _ _ Hf), Hl.
  destruct err; try discriminate He;
    cbv beta iota; simpl_world;
    (destruct (files w !! CONFIG_BACKUP_FILE) as [nd|] eqn:Hfb;
     [rewrite bool_decide_eq_true_2 by eauto; by rewrite Hl'
     |rewrite bool_decide_eq_false_2 by (by intros [? ?]); done]).
Qed.

Lemma load_config_fallback w :
  corrupt (files w) CONFIG_FILE ->
  (files w !! CONFIG_BACKUP_FILE = None \/ unreadable (files w) CONFIG_BACKUP_FILE \/
   corrupt (files w) CONFIG_BACKUP_FILE) ->
  load_config w =
    copy_method DEFAULT_CONFIG (put_line RecoveryFailed (put_line WarnCorrupted w)).
Proof. intros Hc Hb. apply load_config_no_backup; [done|]. by apply no_document. Qed.
End LoadConfig.

Lemma world_eta w : World (files w) (objs w) (_config_cache w) (stdout w) = w.
Proof. by destruct w. Qed.

Lemma set_files_id w : set_files (files w) w = w.
Proof. by destruct w. Qed.

Lemma temp_name_not_config e : temp_name e <> CONFIG_FILE.
Proof. unfold temp_name, CONFIG_FILE. simpl. discriminate. Qed.

Lemma temp_name_not_backup e : temp_name e <> CONFIG_BACKUP_FILE.
Proof. unfold temp_name, CONFIG_BACKUP_FILE. simpl. discriminate. Qed.

Lemma config_not_backup : CONFIG_FILE <> CONFIG_BACKUP_FILE.
Proof. discriminate. Qed.

Lemma put_text_lookup_ne path path' text (f : gmap string node) :
  path <> path' -> put_text path text f !! path' = f !! path'.
Proof. intros Hne. unfold put_text. by rewrite lookup_insert_ne. Qed.

Lemma put_text_lookup path text (f : gmap string node) :
  exists r, put_text path text f !! path = Some (Node r text) /\
            (f !! path = None -> r = Readable) /\
            (forall r' t', f !! path = Some (Node r' t') -> r = rewritten r').
Proof.
  unfold put_text. rewrite lookup_insert_eq. eexists. split; [done|].
  split; [by intros ->|]. by intros r' t' ->.
Qed.

Lemma delete_put_text path text (f : gmap string node) :
  delete path (put_text path text f) = delete path f.
Proof. unfold put_text. by rewrite delete_insert_eq. Qed.

Section BackupBlock.
Context `{JsonLib}.
Implicit Types (w : world) (j : json) (e : env).

Lemma setitem_dict l d k x w :
  objs w !! l = Some (ODict d) ->
  setitem (PRef l) k x w =
    (Ret tt, set_objs (<[l := ODict (dict_set k x d)]> (objs w)) w).
Proof. intros Hl. unfold setitem. by rewrite Hl. Qed.

Lemma setitem_not_dict v k x w :
  not_a_dict (objs w) v -> setitem v k x w = (Raise TypeError, w).
Proof.
  unfold setitem, not_a_dict. destruct v as [| | | |l]; try done.
  by destruct (objs w !! l) as [[]|].
Qed.

(** *** The backup block *)

(** Whatever keeps the primary file from giving a document, the bare
    [except] swallows it and no backup is written. *)
Lemma make_backup_none e w :
  (forall j, ~ holds_json (files w) CONFIG_FILE j) ->
  make_backup e w = (Ret tt, w).
Proof.
  intros Hn. destruct (json_load_fails CONFIG_FILE w Hn) as (err & Hl).
  unfold make_backup. unfold_M.
  destruct (bool_decide (is_Some (files w !! CONFIG_FILE))); [|done].
  by rewrite Hl.
Qed.

Lemma make_backup_skip e w :
  files w !! CONFIG_FILE = None \/ unreadable (files w) CONFIG_FILE \/
  corrupt (files w) CONFIG_FILE ->
  make_backup e w = (Ret tt, w).
Proof. intros Hs. apply make_backup_none. by apply no_document. Qed.

Lemma make_backup_copy e w j :
  holds_json (files w) CONFIG_FILE j ->
  let w1 := set_objs (snd (alloc_json j (objs w))) w in
  make_backup e w =
    (Ret tt,
     match backup_fault e with
     | Some AtBackupOpen => w1
     | Some (AtBackupWrite n) =>
         set_files (put_text CONFIG_BACKUP_FILE (String.substring 0 n (json_dumps j))
                      (put_text CONFIG_BACKUP_FILE "" (files w))) w1
     | None =>
         set_files (put_text CONFIG_BACKUP_FILE (json_dumps j)
                      (put_text CONFIG_BACKUP_FILE "" (files w))) w1
     end).
Proof.
  intros Hp w1. subst w1. pose proof (json_load_ok _ _ _ Hp) as Hl.
  destruct (alloc_json j (objs w)) as [v h'] eqn:Ha.
  apply alloc_json_tree in Ha as [_ Ht].
  destruct Hp as (text & Hf & _).
  unfold make_backup. unfold_M. rewrite (exists_true _ _ _ Hf), Hl.
  cbn [fst snd]. unfold dump_backup, json_dump, write_text. unfold_M.
  destruct (backup_fault e) as [[|n]|]; cbv beta iota; simpl_world;
    rewrite ?Ht; done.
Qed.

(** The backup block never raises, and touches nothing but the backup
    file (and the store, which it only extends). *)
Lemma make_backup_frame e w :
  exists w',
    make_backup e w = (Ret tt, w') /\
    (exists ext, objs w' = objs w ++ ext) /\
    _config_cache w' = _config_cache w /\
    stdout w' = stdout w /\
    forall path, path <> CONFIG_BACKUP_FILE -> files w' !! path = files w !! path.
Proof.
  destruct (document_or_not (files w) CONFIG_FILE) as [[j Hs]|Hs]; cycle 1.
  { exists w. rewrite make_backup_none by done.
    split_and!; try done. exists []. by rewrite app_nil_r. }
  rewrite (make_backup_copy e w j Hs).
  destruct (alloc_json j (objs w)) as [v h'] eqn:Ha.
  apply alloc_json_tree in Ha as [[ext ->] _]. cbn [snd].
  eexists. split; [done|].
  destruct (backup_fault e) as [[|n]|]; simpl_world;
    (split_and!; [by exists ext | done | done |]); intros path Hne; try done;
    by rewrite !put_text_lookup_ne.
Qed.
End BackupBlock.

Section DurableWrite.
Context `{JsonLib}.
Implicit Types (w : world) (j : json) (e : env).

(** Creating the temporary file and removing it again restores the
    directory. *)
Lemma remove_temp (f : gmap string node) path text text' :
  f !! path = None ->
  delete path (put_text path text (<[path := Node Readable text']> f)) = f.
Proof.
  intros Hf. rewrite delete_put_text, delete_insert_eq. by apply delete_id.
Qed.

Lemma remove_temp' (f : gmap string node) path text' :
  f !! path = None -> delete path (<[path := Node Readable text']> f) = f.
Proof. intros Hf. rewrite delete_insert_eq. by apply delete_id. Qed.

Lemma write_text_temp e w text :
  files w !! temp_name e = None ->
  put_text (temp_name e) text (<[temp_name e := Node Readable ""]> (files w))
  = <[temp_name e := Node Readable text]> (files w).
Proof.
  intros Hf. unfold put_text. rewrite lookup_insert_eq. cbn [readable].
  by rewrite insert_insert_eq.
Qed.

Lemma set_files_set_files (f g : gmap string node) w :
  set_files f (set_files g w) = set_files f w.
Proof. reflexivity. Qed.

Ltac run_step :=
  first [ rewrite lookup_insert_eq
        | rewrite bool_decide_eq_true_2 by eauto
        | progress simpl_world
        | progress cbv beta iota
        | rewrite write_text_temp by done
        | rewrite remove_temp' by done
        | rewrite set_files_set_files
        | rewrite set_files_id ].

(** A failure at any step of the durable write leaves the world as it
    was. *)
Lemma write_atomically_fault e v w s :
  io_fault e = Some s ->
  exists err, write_atomically e v w = (Raise err, w).
Proof.
  intros Hs. unfold write_atomically, mkstemp, dump_temp, json_dump, os_replace,
    io_check, os_remove, fails_at. unfold_M. rewrite Hs.
  destruct s as [|n| | | |]; [by eexists|..];
    (destruct (files w !! temp_name e) eqn:Hf; [by eexists|]);
    simpl_world; destruct (tree_of (objs w) v) as [j|];
    repeat run_step; by eexists.
Qed.

Lemma write_atomically_busy e v w :
  is_Some (files w !! temp_name e) ->
  write_atomically e v w = (Raise OSError, w).
Proof.
  intros [nd Hf]. unfold write_atomically, mkstemp. unfold_M. rewrite Hf.
  by destruct (fails_at e AtMkstemp).
Qed.

Lemma write_atomically_circular e v w :
  tree_of (objs w) v = None ->
  exists err, write_atomically e v w = (Raise err, w).
Proof.
  intros Ht. unfold write_atomically, mkstemp, dump_temp, json_dump, os_replace,
    io_check, os_remove. unfold_M.
  destruct (fails_at e AtMkstemp); [by eexists|].
  destruct (files w !! temp_name e) eqn:Hf; [by eexists|].
  simpl_world. rewrite Ht. repeat run_step. by eexists.
Qed.

(** Without a failure, the text of the document replaces the primary
    file, the cache is the document, and the temporary file is gone. *)
Lemma write_atomically_ok e l d ts j w :
  io_fault e = None ->
  files w !! temp_name e = None ->
  objs w !! l = Some (ODict d) ->
  dict_get "last_saved" d = Some ts ->
  tree_of (objs w) (PRef l) = Some j ->
  write_atomically e (PRef l) w =
    (Ret tt,
     put_line (SavedAt ts)
       (set_cache (PRef l)
          (set_files (<[CONFIG_FILE := Node Readable (json_dumps j)]> (files w)) w))).
Proof.
  intros Hs Hf Hl Hts Ht.
  unfold write_atomically, mkstemp, dump_temp, json_dump, os_replace,
    io_check, os_remove, getitem, fails_at. unfold_M. rewrite Hs, Hf.
  simpl_world. rewrite Ht. repeat run_step. rewrite Hl, Hts. done.
Qed.
End DurableWrite.

Section SaveConfig.
Context `{JsonLib}.
Implicit Types (w : world) (j : json) (e : env).

Lemma dict_or_not (h : list pyobj) v :
  (exists l d, v = PRef l /\ h !! l = Some (ODict d)) \/ not_a_dict h v.
Proof.
  destruct v as [| | | |l]; try (by right).
  destruct (h !! l) as [[d|xs|xs]|] eqn:Hl.
  - left. eauto.
  - right. simpl. by rewrite Hl.
  - right. simpl. by rewrite Hl.
  - right. simpl. by rewrite Hl.
Qed.

Lemma save_config_not_dict e v w :
  not_a_dict (objs w) v ->
  save_config e v w = (Ret tt, put_line (SaveFailed TypeError) w).
Proof.
  intros Hn. unfold save_config. unfold_M. by rewrite (setitem_not_dict _ _ _ _ Hn).
Qed.

(** [save_config] on a dict: the stamp, the backup block, then the
    durable write, whose exception is printed and not raised. *)
Lemma save_config_dict e l d w :
  objs w !! l = Some (ODict d) ->
  exists w2,
    make_backup e (stamp e l d w) = (Ret tt, w2) /\
    save_config e (PRef l) w =
      match write_atomically e (PRef l) w2 with
      | (Ret _, w3) => (Ret tt, w3)
      | (Raise err, w3) => (Ret tt, put_line (SaveFailed err) w3)
      end.
Proof.
  intros Hl. destruct (make_backup_frame e (stamp e l d w)) as (w2 & Hb & _).
  exists w2. split; [done|].
  unfold save_config. unfold_M. rewrite (setitem_dict _ _ _ _ _ Hl).
  fold (stamp e l d w). rewrite Hb.
  by destruct (write_atomically e (PRef l) w2) as [[[]|err] w3].
Qed.

Lemma save_config_returns e v w : fst (save_config e v w) = Ret tt.
Proof.
  destruct (dict_or_not (objs w) v) as [(l & d & -> & Hl)|Hn].
  - destruct (save_config_dict e l d w Hl) as (w2 & _ & ->).
    by destruct (write_atomically e (PRef l) w2) as [[[]|err] w3].
  - by rewrite save_config_not_dict.
Qed.

Lemma stamp_lookup e l d w :
  objs w !! l = Some (ODict d) ->
  objs (stamp e l d w) !! l = Some (ODict (dict_set "last_saved" (PStr (now e)) d)).
Proof.
  intros Hl. unfold stamp. simpl_world. apply list_lookup_insert_eq.
  by eapply lookup_lt_Some.
Qed.

Lemma stamp_tree e l d jd w :
  objs w !! l = Some (ODict d) ->
  tree_of (objs w) (PRef l) = Some (JObj jd) ->
  tree_of (objs (stamp e l d w)) (PRef l) = Some (stamped (now e) jd).
Proof.
  intros Hl Ht. unfold stamp, stamped. simpl_world.
  apply tree_of_setitem; [done | done |]. by destruct (length (objs w)).
Qed.

(** A failed save: the exception is printed; apart from the stamp and
    the backup block, the world is as it was. *)
Lemma save_config_fails e l d w :
  objs w !! l = Some (ODict d) ->
  is_Some (io_fault e) \/ is_Some (files w !! temp_name e) ->
  exists w2 err,
    make_backup e (stamp e l d w) = (Ret tt, w2) /\
    save_config e (PRef l) w = (Ret tt, put_line (SaveFailed err) w2).
Proof.
  intros Hl Hcause.
  destruct (save_config_dict e l d w Hl) as (w2 & Hb & ->).
  destruct (make_backup_frame e (stamp e l d w)) as (w2' & Hb' & _ & _ & _ & Hfs).
  rewrite Hb in Hb'. injection Hb' as <-.
  assert (exists err, write_atomically e (PRef l) w2 = (Raise err, w2)) as [err ->].
  { destruct Hcause as [[s Hs]|Hbusy].
    - by eapply write_atomically_fault.
    - exists OSError. apply write_atomically_busy.
      rewrite Hfs by apply temp_name_not_backup. done. }
  by exists w2, err.
Qed.

(** A successful save: the primary file holds the text of the stamped
    document and the cache is the caller's dict. *)
Lemma save_config_succeeds e l d jd w :
  objs w !! l = Some (ODict d) ->
  tree_of (objs w) (PRef l) = Some (JObj jd) ->
  io_fault e = None ->
  files w !! temp_name e = None ->
  exists w2,
    make_backup e (stamp e l d w) = (Ret tt, w2) /\
    tree_of (objs w2) (PRef l) = Some (stamped (now e) jd) /\
    save_config e (PRef l) w =
      (Ret tt,
       put_line (SavedAt (PStr (now e)))
         (set_cache (PRef l)
            (set_files
               (<[CONFIG_FILE := Node Readable (json_dumps (stamped (now e) jd))]> (files w2))
               w2))).
Proof.
  intros Hl Ht Hs Hf.
  destruct (save_config_dict e l d w Hl) as (w2 & Hb & ->).
  destruct (make_backup_frame e (stamp e l d w)) as (w2' & Hb' & [ext Hext] & _ & _ & Hfs).
  rewrite Hb in Hb'. injection Hb' as <-.
  assert (tree_of (objs w2) (PRef l) = Some (stamped (now e) jd)) as Ht2.
  { rewrite Hext. apply tree_of_app. by apply stamp_tree. }
  exists w2. split_and!; [done | done |].
  erewrite write_atomically_ok; [done | done | | | | exact Ht2].
  - rewrite Hfs by apply temp_name_not_backup. done.
  - rewrite Hext. apply lookup_app_l_Some. by apply stamp_lookup.
  - apply dict_get_set_eq.
Qed.
End SaveConfig.

(** ** Outcomes of load and save *)

Section Outcomes.
Context `{JsonLib}.
Implicit Types (w : world) (j : json) (e : env).

Lemma load_config_files w : files (snd (load_config w)) = files w.
Proof.
  assert (forall w', files (snd (copy_method DEFAULT_CONFIG w')) = files w') as Hcopy.
  { intros w'. unfold copy_method. destruct DEFAULT_CONFIG as [| | | |l]; try done.
    by destruct (objs w' !! l) as [[]|]. }
  destruct (file_state (files w) CONFIG_FILE) as [Hs|[Hs|[Hs|[[j Hs]|[Hs|[err Hs]]]]]].
  - by rewrite load_config_absent, Hcopy.
  - by rewrite load_config_unreadable.
  - destruct (document_or_not (files w) CONFIG_BACKUP_FILE) as [[j Hb]|Hb].
    + by rewrite (load_config_backup w j).
    + by rewrite load_config_no_backup, Hcopy.
  - by rewrite (load_config_primary w j).
  - by rewrite load_config_undecodable.
  - by rewrite (load_config_refused w err).
Qed.

(** A save whose durable write fails changes no file but the backup, and
    does not rebind the cache. *)
Lemma save_config_fault_frame e v w s :
  io_fault e = Some s ->
  _config_cache (snd (save_config e v w)) = _config_cache w /\
  forall path, path <> CONFIG_BACKUP_FILE ->
               files (snd (save_config e v w)) !! path = files w !! path.
Proof.
  intros Hs.
  destruct (dict_or_not (objs w) v) as [(l & d & -> & Hl)|Hn].
  - destruct (save_config_fails e l d w Hl) as (w2 & err & Hb & ->); [left; eauto|].
    destruct (make_backup_frame e (stamp e l d w)) as (w2' & Hb' & _ & Hc & _ & Hfs).
    rewrite Hb in Hb'. injection Hb' as <-. cbn [snd]. simpl_world.
    split; [done|]. intros path Hne. by rewrite Hfs.
  - rewrite save_config_not_dict by done. done.
Qed.

Lemma copy_default_returns w :
  default_alive (objs w) -> exists v, fst (copy_method DEFAULT_CONFIG w) = Ret v.
Proof.
  unfold default_alive, copy_method. destruct DEFAULT_CONFIG as [| | | |l]; try done.
  intros [d ->]. eauto.
Qed.

Lemma load_recovers_backup_aux w j :
  corrupt (files w) CONFIG_FILE ->
  holds_json (files w) CONFIG_BACKUP_FILE j ->
  exists v w',
    load_config w = (Ret v, w') /\
    tree_of (objs w') v = Some j /\
    _config_cache w' = v /\
    files w' = files w.
Proof.
  intros Hc Hb. rewrite (load_config_backup w j Hc Hb).
  destruct (alloc_json j (objs w)) as [v h'] eqn:Ha.
  apply alloc_json_tree in Ha as [_ Ht].
  eexists _, _. split; [done|]. cbn [fst snd]. simpl_world. done.
Qed.

Lemma write_atomically_objs e l d ts w :
  objs w !! l = Some (ODict d) ->
  dict_get "last_saved" d = Some ts ->
  objs (snd (write_atomically e (PRef l) w)) = objs w.
Proof.
  intros Hl Hts.
  destruct (io_fault e) as [s|] eqn:Hs.
  { by destruct (write_atomically_fault e (PRef l) w s Hs) as [err ->]. }
  destruct (files w !! temp_name e) eqn:Hf.
  { by rewrite write_atomically_busy. }
  destruct (tree_of (objs w) (PRef l)) as [j|] eqn:Ht.
  - by rewrite (write_atomically_ok e l d ts j w).
  - by destruct (write_atomically_circular e (PRef l) w Ht) as [err ->].
Qed.

(** The tree of a dict has the trees of its entries. *)
Lemma tree_of_dict_get h l d jd k x :
  h !! l = Some (ODict d) ->
  tree_of h (PRef l) = Some (JObj jd) ->
  dict_get k d = Some x ->
  exists jx, dict_get k jd = Some jx /\ snapshot (length h) h x = Some jx.
Proof.
  intros Hl Ht Hk. unfold tree_of in Ht.
  apply (snapshot_dict _ _ _ _ _ Hl) in Ht.
  by eapply entries_get_l in Ht.
Qed.

(** The durable write either fails and changes nothing, or replaces the
    primary file and rebinds the cache. *)
Lemma write_atomically_cases e l d ts w :
  objs w !! l = Some (ODict d) ->
  dict_get "last_saved" d = Some ts ->
  (exists err, write_atomically e (PRef l) w = (Raise err, w)) \/
  (exists j,
     io_fault e = None /\ files w !! temp_name e = None /\
     tree_of (objs w) (PRef l) = Some j /\
     write_atomically e (PRef l) w =
       (Ret tt,
        put_line (SavedAt ts)
          (set_cache (PRef l)
             (set_files (<[CONFIG_FILE := Node Readable (json_dumps j)]> (files w)) w)))).
Proof.
  intros Hl Hts.
  destruct (io_fault e) as [s|] eqn:Hs.
  { left. by eapply write_atomically_fault. }
  destruct (files w !! temp_name e) eqn:Hf.
  { left. exists OSError. by rewrite write_atomically_busy. }
  destruct (tree_of (objs w) (PRef l)) as [j|] eqn:Ht.
  - right. exists j. split_and!; try done. by eapply write_atomically_ok.
  - left. by apply write_atomically_circular.
Qed.

(** What a save of a dict leaves: the world after the stamp and the
    backup block, then a printed failure or the new primary file. *)
Lemma save_config_outcome e l d w :
  objs w !! l = Some (ODict d) ->
  exists w2,
    make_backup e (stamp e l d w) = (Ret tt, w2) /\
    ((exists err, save_config e (PRef l) w = (Ret tt, put_line (SaveFailed err) w2)) \/
     (exists j,
        io_fault e = None /\ files w !! temp_name e = None /\
        tree_of (objs w2) (PRef l) = Some j /\
        save_config e (PRef l) w =
          (Ret tt,
           put_line (SavedAt (PStr (now e)))
             (set_cache (PRef l)
                (set_files (<[CONFIG_FILE := Node Readable (json_dumps j)]> (files w2)) w2))))).
Proof.
  intros Hl.
  destruct (save_config_dict e l d w Hl) as (w2 & Hb & ->).
  destruct (make_backup_frame e (stamp e l d w)) as (w2' & Hb' & [ext Hext] & _ & _ & Hfs).
  rewrite Hb in Hb'. injection Hb' as <-.
  exists w2. split; [done|].
  destruct (write_atomically_cases e l
              (dict_set "last_saved" (PStr (now e)) d) (PStr (now e)) w2)
    as [[err ->]|(j & Hs & Hf & Ht & ->)].
  - rewrite Hext. apply lookup_app_l_Some. by apply stamp_lookup.
  - apply dict_get_set_eq.
  - left. by exists err.
  - right. exists j. split_and!; try done.
    rewrite <- Hf. symmetry. apply Hfs, temp_name_not_backup.
Qed.

(** The backup file after a save of a dict is the backup file the backup
    block left. *)
Lemma save_config_backup_file e l d w w2 :
  objs w !! l = Some (ODict d) ->
  make_backup e (stamp e l d w) = (Ret tt, w2) ->
  files (snd (save_config e (PRef l) w)) !! CONFIG_BACKUP_FILE
  = files w2 !! CONFIG_BACKUP_FILE.
Proof.
  intros Hl Hb.
  destruct (save_config_outcome e l d w Hl) as (w2' & Hb' & Hout).
  rewrite Hb in Hb'. injection Hb' as <-.
  destruct Hout as [[err ->]|(j & _ & _ & _ & ->)]; cbn [snd]; simpl_world; [done|].
  apply lookup_insert_ne, config_not_backup.
Qed.

Lemma save_config_copies_primary e l d w j :
  objs w !! l = Some (ODict d) ->
  holds_json (files w) CONFIG_FILE j ->
  backup_fault e = None ->
  exists r, files (snd (save_config e (PRef l) w)) !! CONFIG_BACKUP_FILE
            = Some (Node r (json_dumps j)).
Proof.
  intros Hl Hp Hbf.
  pose proof (make_backup_copy e (stamp e l d w) j Hp) as Hb. rewrite Hbf in Hb.
  rewrite (save_config_backup_file e l d w _ Hl Hb). simpl_world.
  destruct (put_text_lookup CONFIG_BACKUP_FILE (json_dumps j)
              (put_text CONFIG_BACKUP_FILE "" (files w))) as (r & Hr & _).
  eauto.
Qed.

Lemma save_config_keeps_backup e l d w :
  objs w !! l = Some (ODict d) ->
  files w !! CONFIG_FILE = None \/ unreadable (files w) CONFIG_FILE \/
  corrupt (files w) CONFIG_FILE ->
  files (snd (save_config e (PRef l) w)) !! CONFIG_BACKUP_FILE
  = files w !! CONFIG_BACKUP_FILE.
Proof.
  intros Hl Hp.
  pose proof (make_backup_skip e (stamp e l d w) Hp) as Hb.
  by rewrite (save_config_backup_file e l d w _ Hl Hb).
Qed.

Lemma copy_default_frame w :
  _config_cache (snd (copy_method DEFAULT_CONFIG w)) = _config_cache w.
Proof.
  unfold copy_method. destruct DEFAULT_CONFIG as [| | | |l]; try done.
  by destruct (objs w !! l) as [[]|].
Qed.

Lemma set_guild_prefix_eq e g p w :
  set_guild_prefix e g p w =
    match load_config w with
    | (Ret config, w0) =>
        match put_prefix config g p w0 with
        | (Ret _, w1) => (Ret p, snd (save_config e config w1))
        | (Raise err, w1) => (Raise err, w1)
        end
    | (Raise err, w0) => (Raise err, w0)
    end.
Proof.
  unfold set_guild_prefix, put_prefix. unfold_M.
  destruct (load_config w) as [[config|err] w0]; [|done].
  destruct (contains "guild_prefixes" config w0) as [[[]|err] w1]; [| |done].
  - destruct (getitem config "guild_prefixes" w1) as [[gp|err] w2]; [|done].
    destruct (setitem gp (str g) p w2) as [[[]|err] w3]; [|done].
    pose proof (save_config_returns e config w3) as Hr.
    by destruct (save_config e config w3) as [[[]|err] w4].
  - destruct (new_dict w1) as [[fresh|err] w1']; [|done].
    destruct (setitem config "guild_prefixes" fresh w1') as [[[]|err] w1'']; [|done].
    destruct (getitem config "guild_prefixes" w1'') as [[gp|err] w2]; [|done].
    destruct (setitem gp (str g) p w2) as [[[]|err] w3]; [|done].
    pose proof (save_config_returns e config w3) as Hr.
    by destruct (save_config e config w3) as [[[]|err] w4].
Qed.

(** On a document whose [guild_prefixes] is absent or a dict, the
    statements between the load and the save leave the document with
    [guild_prefixes[str(guild_id)] = prefix], and touch nothing but the
    store. *)
Lemma put_prefix_tree g p v w0 jd :
  tree_of (objs w0) v = Some (JObj jd) ->
  (dict_get "guild_prefixes" jd = None \/
   exists jg, dict_get "guild_prefixes" jd = Some (JObj jg)) ->
  exists w3 jd3 jg3,
    put_prefix v g (PStr p) w0 = (Ret tt, w3) /\
    tree_of (objs w3) v = Some (JObj jd3) /\
    dict_get "guild_prefixes" jd3 = Some (JObj jg3) /\
    dict_get (str g) jg3 = Some (JStr p) /\
    files w3 = files w0 /\ _config_cache w3 = _config_cache w0.
Proof.
  intros Ht Hgp.
  destruct (snapshot_obj_inv _ _ _ _ Ht) as (f' & l & d & [= <-] & -> & Hl & Hd).
  destruct Hgp as [Hnone|[jg Hsome]].
  - (* no guild_prefixes yet: a fresh dict is stored first *)
    pose proof (entries_get_None _ _ _ _ Hd Hnone) as Hdn.
    set (h1 := objs w0 ++ [ODict []]).
    set (fresh := PRef (length (objs w0))).
    set (h2 := <[l := ODict (dict_set "guild_prefixes" fresh d)]> h1).
    set (h3 := <[length (objs w0) := ODict (dict_set (str g) (PStr p) [])]> h2).
    assert (h1 !! l = Some (ODict d)) as Hl1 by (by apply lookup_app_l_Some).
    assert (l < length (objs w0)) as Hlt by (by eapply lookup_lt_Some).
    assert (h2 !! l = Some (ODict (dict_set "guild_prefixes" fresh d))) as Hl2.
    { apply list_lookup_insert_eq. by eapply lookup_lt_Some. }
    assert (h2 !! length (objs w0) = Some (ODict [])) as Hf2.
    { unfold h2. rewrite list_lookup_insert_ne by lia. by apply list_lookup_middle. }
    assert (put_prefix (PRef l) g (PStr p) w0 = (Ret tt, set_objs h3 w0)) as Hrun.
    { unfold h3, h2, h1, fresh in *.
      unfold put_prefix, contains, new_dict, new_obj, getitem. unfold_M. rewrite Hl.
      unfold dict_mem. rewrite Hdn. cbv beta iota. simpl_world.
      erewrite setitem_dict by (simpl_world; exact Hl1). simpl_world.
      rewrite Hl2, dict_get_set_eq.
      erewrite setitem_dict by (simpl_world; exact Hf2). by simpl_world. }
    assert (tree_of h2 (PRef l) = Some (JObj (dict_set "guild_prefixes" (JObj []) jd)))
      as Ht2.
    { apply tree_of_setitem; [done | by apply tree_of_app |].
      assert (length h1 = S (length (objs w0))) as ->.
      { unfold h1. rewrite length_app. simpl. lia. }
      change (snapshot (S (length (objs w0))) h2 (PRef (length (objs w0)))
              = Some (JObj [])).
      by rewrite snapshot_ref, Hf2. }
    destruct (snapshot_setitem_nested (length h2) h2 l _ _ "guild_prefixes"
                (length (objs w0)) [] (str g) (PStr p) (JStr p) Hl2 Ht2
                (dict_get_set_eq _ _ _) Hf2 I eq_refl)
      as (jd3 & jg & Hjg & Ht3 & Hg3).
    exists (set_objs h3 w0), jd3, (dict_set (str g) (JStr p) jg).
    split; [done|]. simpl_world.
    split_and!; [|exact Hg3|apply dict_get_set_eq|done|done].
    unfold tree_of, h3. by rewrite length_insert.
  - (* guild_prefixes is a dict already *)
    destruct (entries_get_r _ _ _ _ _ Hd Hsome) as (vg & Hvg & Hsg).
    destruct (snapshot_obj_inv _ _ _ _ Hsg) as (f'' & lg & dg & _ & -> & Hlg & _).
    set (h3 := <[lg := ODict (dict_set (str g) (PStr p) dg)]> (objs w0)).
    assert (put_prefix (PRef l) g (PStr p) w0 = (Ret tt, set_objs h3 w0)) as Hrun.
    { unfold put_prefix, contains, new_dict, new_obj, getitem. unfold_M. rewrite Hl.
      unfold dict_mem. rewrite Hvg. cbv beta iota. rewrite ?Hl, ?Hvg.
      by erewrite setitem_dict by exact Hlg. }
    destruct (snapshot_setitem_nested (length (objs w0)) (objs w0) l d jd "guild_prefixes"
                lg dg (str g) (PStr p) (JStr p) Hl Ht Hvg Hlg I eq_refl)
      as (jd3 & jg' & Hjg & Ht3 & Hg3).
    exists (set_objs h3 w0), jd3, (dict_set (str g) (JStr p) jg').
    split; [done|]. simpl_world.
    split_and!; [|exact Hg3|apply dict_get_set_eq|done|done].
    unfold tree_of, h3. by rewrite length_insert.
Qed.

(** [get_guild_prefix] in terms of the tree of the loaded document. *)
Lemma get_guild_prefix_tree g w v w0 jd :
  load_config w = (Ret v, w0) ->
  tree_of (objs w0) v = Some (JObj jd) ->
  match dict_get "guild_prefixes" jd with
  | None => fst (get_guild_prefix g w) = Ret (PStr "!")
  | Some (JObj jg) =>
      match dict_get (str g) jg with
      | None => fst (get_guild_prefix g w) = Ret (PStr "!")
      | Some (JStr p) => fst (get_guild_prefix g w) = Ret (PStr p)
      | Some _ => True
      end
  | Some _ => True
  end.
Proof.
  intros Hload Ht.
  destruct (snapshot_obj_inv _ _ _ _ Ht) as (f' & l & d & [= <-] & -> & Hl & Hd).
  unfold get_guild_prefix, get_method, new_dict, new_obj. unfold_M.
  rewrite Hload, Hl. cbv beta iota. simpl_world.
  destruct (dict_get "guild_prefixes" jd) as [jgp|] eqn:Hgp.
  - destruct jgp as [| | | | |jg]; try done.
    destruct (entries_get_r _ _ _ _ _ Hd Hgp) as (vg & Hvg & Hsg).
    destruct (snapshot_obj_inv _ _ _ _ Hsg) as (f'' & lg & dg & _ & -> & Hlg & Hdg).
    rewrite Hvg, (lookup_app_l_Some _ _ _ _ Hlg).
    destruct (dict_get (str g) jg) as [jp|] eqn:Hp.
    + destruct jp as [| | |p| |]; try done.
      destruct (entries_get_r _ _ _ _ _ Hdg Hp) as (vp & Hvp & Hsp).
      apply snapshot_str_inv in Hsp as ->. by rewrite Hvp.
    + by rewrite (entries_get_None _ _ _ _ Hdg Hp).
  - rewrite (entries_get_None _ _ _ _ Hd Hgp).
    by rewrite list_lookup_middle.
Qed.

Lemma DEFAULT_CONFIG_ref : DEFAULT_CONFIG = PRef 11.
Proof. reflexivity. Qed.

(** A copy of a dict reads as the dict does. *)
Lemma copy_tree h l o J :
  h !! l = Some o ->
  tree_of h (PRef l) = Some J ->
  tree_of (h ++ [o]) (PRef (length h)) = Some J.
Proof.
  unfold tree_of. intros Hl Ht. rewrite snapshot_ref, Hl in Ht.
  rewrite snapshot_ref, list_lookup_middle by done.
  destruct o as [d|xs|xs].
  - apply fmap_Some in Ht as (jd & Hm & ->). apply fmap_Some. exists jd. split; [|done].
    apply mapM_Some. apply mapM_Some in Hm. eapply Forall2_impl; [exact Hm|].
    intros [k v] kj Hkv. simpl in *. apply fmap_Some in Hkv as (j' & Hs & ->).
    apply fmap_Some. exists j'. split; [|done].
    eapply snapshot_weaken; [exact Hs|]. rewrite length_app. lia.
  - apply fmap_Some in Ht as (js & Hm & ->). apply fmap_Some. exists js. split; [|done].
    apply mapM_Some. apply mapM_Some in Hm. eapply Forall2_impl; [exact Hm|].
    intros v j Hs. eapply snapshot_weaken; [exact Hs|]. rewrite length_app. lia.
  - apply fmap_Some in Ht as (js & Hm & ->). apply fmap_Some. exists js. split; [|done].
    apply mapM_Some. apply mapM_Some in Hm. eapply Forall2_impl; [exact Hm|].
    intros v j Hs. eapply snapshot_weaken; [exact Hs|]. rewrite length_app. lia.
Qed.

(** When neither file can be parsed, the document returned reads as
    [DEFAULT_CONFIG] reads at that moment. *)
Lemma load_config_default w J :
  corrupt (files w) CONFIG_FILE ->
  (files w !! CONFIG_BACKUP_FILE = None \/ unreadable (files w) CONFIG_BACKUP_FILE \/
   corrupt (files w) CONFIG_BACKUP_FILE) ->
  default_alive (objs w) ->
  tree_of (objs w) DEFAULT_CONFIG = Some J ->
  exists v w',
    load_config w = (Ret v, w') /\ tree_of (objs w') v = Some J /\
    _config_cache w' = _config_cache w.
Proof.
  intros Hc Hb Hd Ht. rewrite (load_config_fallback w Hc Hb).
  unfold copy_method, new_obj, default_alive in *. simpl_world.
  rewrite DEFAULT_CONFIG_ref in *. set (l := 11) in *.
  destruct Hd as [d Hl]. rewrite Hl.
  eexists _, _. split; [done|]. simpl_world. split; [|done]. by apply (copy_tree _ l).
Qed.

End Outcomes.

(** ** The store only grows *)

Section StoreGrows.
Context `{JsonLib}.

Lemma grows_bind {A B : Type} (c : M A) (k : A -> M B) :
  grows c -> (forall a, grows (k a)) -> grows (c ≫= k).
Proof.
  intros Hc Hk w. unfold mbind, M_bind. specialize (Hc w).
  destruct (c w) as [[a|err] w1]; cbn [snd] in *; [|done].
  specialize (Hk a w1). lia.
Qed.

Lemma grows_try {A : Type} (body : M A) (handler : exn -> M A) :
  grows body -> (forall err, grows (handler err)) -> grows (try_except body handler).
Proof.
  intros Hb Hh w. unfold try_except. specialize (Hb w).
  destruct (body w) as [[a|err] w1]; cbn [snd] in *; [done|].
  specialize (Hh err w1). lia.
Qed.

Lemma grows_ret {A : Type} (a : A) : grows (mret a).
Proof. by intros w. Qed.

Lemma grows_raise {A : Type} (err : exn) : grows (@raise A err).
Proof. by intros w. Qed.

Lemma grows_print l : grows (print l).
Proof. by intros w. Qed.

Lemma grows_assign_cache v : grows (assign_cache v).
Proof. by intros w. Qed.

Lemma grows_read_cache : grows read_cache.
Proof. by intros w. Qed.

Lemma grows_os_path_exists path : grows (os_path_exists path).
Proof. by intros w. Qed.

Lemma grows_write_text path text : grows (write_text path text).
Proof. by intros w. Qed.

Lemma grows_build_value j : grows (build_value j).
Proof.
  intros w. unfold build_value.
  destruct (alloc_json j (objs w)) as [v h'] eqn:Ha.
  apply alloc_json_tree in Ha as [[cells ->] _]. cbn [snd]. simpl_world.
  rewrite length_app. lia.
Qed.

Lemma grows_setitem v k x : grows (setitem v k x).
Proof.
  intros w. unfold setitem. destruct v as [| | | |l]; try done.
  destruct (objs w !! l) as [[d|xs|xs]|]; try done.
  cbn [snd]. simpl_world. by rewrite length_insert.
Qed.

Lemma grows_getitem v k : grows (getitem v k).
Proof.
  intros w. unfold getitem. destruct v as [| | | |l]; try done.
  destruct (objs w !! l) as [[d|xs|xs]|]; try done. by destruct (dict_get k d).
Qed.

Lemma grows_contains k v : grows (contains k v).
Proof.
  intros w. unfold contains. destruct v as [| | | |l]; try done.
  by destruct (objs w !! l) as [[d|xs|xs]|].
Qed.

Lemma grows_new_dict : grows new_dict.
Proof.
  intros w. unfold new_dict, new_obj. cbn [snd]. simpl_world. rewrite length_app. lia.
Qed.

Lemma grows_get_method v k default : grows default -> grows (get_method v k default).
Proof.
  intros Hd w. unfold get_method. destruct v as [| | | |l]; try done.
  destruct (objs w !! l) as [[d|xs|xs]|]; try done.
  specialize (Hd w). by destruct (default w) as [[dv|err] w'].
Qed.

Lemma grows_copy_method v : grows (copy_method v).
Proof.
  intros w. unfold copy_method, new_obj. destruct v as [| | | |l]; try done.
  destruct (objs w !! l) as [[]|]; try done;
    cbn [snd]; simpl_world; rewrite length_app; lia.
Qed.

Lemma grows_json_load path : grows (json_load path).
Proof.
  unfold json_load. apply grows_bind.
  - intros w. unfold read_text. by destruct (files w !! path) as [[[| |] t]|].
  - intros text. destruct (json_loads text); [apply grows_build_value | apply grows_raise].
Qed.

Lemma grows_json_dump v path cut : grows (json_dump v path cut).
Proof. intros w. unfold json_dump. by destruct (tree_of (objs w) v), cut. Qed.

Lemma grows_io_check e s : grows (io_check e s).
Proof. intros w. unfold io_check. by destruct (fails_at e s). Qed.

Lemma grows_mkstemp e : grows (mkstemp e).
Proof.
  intros w. unfold mkstemp. destruct (fails_at e AtMkstemp); [done|].
  by destruct (files w !! temp_name e).
Qed.

Lemma grows_os_replace e src dst : grows (os_replace e src dst).
Proof.
  intros w. unfold os_replace. destruct (fails_at e AtReplace); [done|].
  by destruct (files w !! src).
Qed.

Lemma grows_os_remove path : grows (os_remove path).
Proof. intros w. unfold os_remove. by destruct (files w !! path). Qed.

Lemma grows_read_text path : grows (read_text path).
Proof. intros w. unfold read_text. by destruct (files w !! path) as [[[| |] t]|]. Qed.

Ltac grows_step :=
  lazymatch goal with
  | |- grows (match ?x with _ => _ end) => destruct x
  | |- grows _ =>
      first
        [ apply grows_ret | apply grows_raise | apply grows_build_value
        | apply grows_setitem | apply grows_getitem | apply grows_contains
        | apply grows_new_dict | apply grows_get_method | apply grows_copy_method
        | apply grows_json_load | apply grows_json_dump | apply grows_io_check
        | apply grows_mkstemp | apply grows_os_replace | apply grows_os_remove
        | apply grows_print | apply grows_assign_cache | apply grows_read_cache
        | apply grows_os_path_exists | apply grows_write_text | apply grows_read_text
        | apply grows_try | apply grows_bind ]
  | |- forall _, _ => intro
  end.

Lemma grows_load_config : grows load_config.
Proof. unfold load_config. repeat grows_step. Qed.

Lemma grows_save_config e v : grows (save_config e v).
Proof.
  unfold save_config, make_backup, write_atomically, dump_backup, dump_temp.
  repeat grows_step.
Qed.

Ltac grows_calls :=
  repeat first [ apply grows_load_config | apply grows_save_config | grows_step ].

Lemma grows_update_config e k x : grows (update_config e k x).
Proof. unfold update_config. grows_calls. Qed.

Lemma grows_get_guild_prefix g : grows (get_guild_prefix g).
Proof. unfold get_guild_prefix. grows_calls. Qed.

Lemma grows_set_guild_prefix e g p : grows (set_guild_prefix e g p).
Proof. unfold set_guild_prefix. grows_calls. Qed.

Lemma grows_refresh_config_cache : grows refresh_config_cache.
Proof. unfold refresh_config_cache. grows_calls. Qed.

Lemma grows_get_cached_config : grows get_cached_config.
Proof. unfold get_cached_config. grows_calls. Qed.

End StoreGrows.

(** ** Dicts stay dicts *)

Section DictsStay.
Context `{JsonLib}.

Lemma dicts_bind {A B : Type} (c : M A) (k : A -> M B) :
  keeps_dicts c -> (forall a, keeps_dicts (k a)) -> keeps_dicts (c ≫= k).
Proof.
  intros Hc Hk w l d Hl. unfold mbind, M_bind. destruct (Hc w l d Hl) as [d1 H1].
  destruct (c w) as [[a|err] w1]; cbn [snd] in *; [|eauto]. by apply (Hk a w1 l d1).
Qed.

Lemma dicts_try {A : Type} (body : M A) (handler : exn -> M A) :
  keeps_dicts body -> (forall err, keeps_dicts (handler err)) ->
  keeps_dicts (try_except body handler).
Proof.
  intros Hb Hh w l d Hl. unfold try_except. destruct (Hb w l d Hl) as [d1 H1].
  destruct (body w) as [[a|err] w1]; cbn [snd] in *; [eauto|]. by apply (Hh err w1 l d1).
Qed.

(** What only adds objects keeps the others. *)
Lemma dicts_appends {A : Type} (c : M A) :
  (forall w, exists ext, objs (snd (c w)) = objs w ++ ext) -> keeps_dicts c.
Proof.
  intros Ha w l d Hl. destruct (Ha w) as [ext ->]. exists d. by apply lookup_app_l_Some.
Qed.

Lemma dicts_frame {A : Type} (c : M A) :
  (forall w, objs (snd (c w)) = objs w) -> keeps_dicts c.
Proof. intros Hc. apply dicts_appends. intros w. exists []. by rewrite app_nil_r. Qed.

Lemma dicts_build_value j : keeps_dicts (build_value j).
Proof.
  apply dicts_appends. intros w. unfold build_value.
  destruct (alloc_json j (objs w)) as [v h'] eqn:Ha.
  apply alloc_json_tree in Ha as [[cells ->] _]. eauto.
Qed.

Lemma dicts_new_dict : keeps_dicts new_dict.
Proof. apply dicts_appends. intros w. unfold new_dict, new_obj. eauto. Qed.

Lemma dicts_copy_method v : keeps_dicts (copy_method v).
Proof.
  apply dicts_appends. intros w. unfold copy_method, new_obj.
  destruct v as [| | | |l]; try (exists []; by rewrite app_nil_r).
  destruct (objs w !! l) as [[]|]; cbn [snd]; simpl_world; eauto;
    exists []; by rewrite app_nil_r.
Qed.

(** [d[k] = x] puts a dict where a dict was. *)
Lemma dicts_setitem v k x : keeps_dicts (setitem v k x).
Proof.
  intros w l d Hl. unfold setitem. destruct v as [| | | |l']; eauto.
  destruct (objs w !! l') as [[d'|xs|xs]|] eqn:Hl'; eauto.
  cbn [snd]. simpl_world. destruct (decide (l = l')) as [->|Hne].
  - rewrite list_lookup_insert_eq by (by eapply lookup_lt_Some). eauto.
  - rewrite list_lookup_insert_ne by done. eauto.
Qed.

Lemma dicts_get_method v k default :
  keeps_dicts default -> keeps_dicts (get_method v k default).
Proof.
  intros Hd w l d Hl. unfold get_method. destruct v as [| | | |l']; eauto.
  destruct (objs w !! l') as [[d'|xs|xs]|]; eauto.
  specialize (Hd w l d Hl). by destruct (default w) as [[dv|err] w'].
Qed.

(** The other steps leave the store alone. *)
Ltac dicts_same :=
  apply dicts_frame; intros ?;
  unfold mret, M_ret, raise, print, assign_cache, read_cache, os_path_exists,
    write_text, getitem, contains, json_dump, io_check, mkstemp, os_replace,
    os_remove, read_text;
  repeat case_match; done.

Ltac dicts_step :=
  lazymatch goal with
  | |- keeps_dicts (match ?x with _ => _ end) => destruct x
  | |- keeps_dicts _ =>
      first
        [ apply dicts_try | apply dicts_bind | apply dicts_build_value
        | apply dicts_setitem | apply dicts_new_dict | apply dicts_get_method
        | apply dicts_copy_method | dicts_same ]
  | |- forall _, _ => intro
  end.

Lemma dicts_load_config : keeps_dicts load_config.
Proof. unfold load_config, json_load. repeat dicts_step. Qed.

Lemma dicts_save_config e v : keeps_dicts (save_config e v).
Proof.
  unfold save_config, make_backup, write_atomically, dump_backup, dump_temp, json_load.
  repeat dicts_step.
Qed.

Ltac dicts_calls :=
  repeat first [ apply dicts_load_config | apply dicts_save_config | dicts_step ].

Lemma dicts_update_config e k x : keeps_dicts (update_config e k x).
Proof. unfold update_config. dicts_calls. Qed.

Lemma dicts_get_guild_prefix g : keeps_dicts (get_guild_prefix g).
Proof. unfold get_guild_prefix. dicts_calls. Qed.

Lemma dicts_set_guild_prefix e g p : keeps_dicts (set_guild_prefix e g p).
Proof. unfold set_guild_prefix. dicts_calls. Qed.

Lemma dicts_refresh_config_cache : keeps_dicts refresh_config_cache.
Proof. unfold refresh_config_cache. dicts_calls. Qed.

Lemma dicts_get_cached_config : keeps_dicts get_cached_config.
Proof. unfold get_cached_config. dicts_calls. Qed.

(** [DEFAULT_CONFIG] is a dict of the store after the import, and stays one
    whatever the module does. *)
Lemma default_alive_boot f : default_alive (objs (boot f)).
Proof. vm_compute. eexists. reflexivity. Qed.

Lemma default_alive_kept {A : Type} (c : M A) w :
  keeps_dicts c -> default_alive (objs w) -> default_alive (objs (snd (c w))).
Proof.
  unfold default_alive. rewrite DEFAULT_CONFIG_ref. intros Hk [d Hd]. by apply (Hk w 11 d).
Qed.
End DictsStay.

(** ** The claims *)

Section Claims.
Context `{JsonLib}.
Implicit Types (w : world) (j : json) (e : env).

(** C1.  Whatever value is passed to [save_config], when the operating
    system fails at a step of the durable write (creating the temporary
    file, writing, flushing, syncing or closing it, renaming it) and the
    temporary name was free, [save_config] returns normally, no temporary
    file is left under that name, and the primary file is the file it was
    before the call, text and all. *)
Theorem save_fault_keeps_primary e v w s :
  io_fault e = Some s ->
  files w !! temp_name e = None ->
  fst (save_config e v w) = Ret tt /\
  files (snd (save_config e v w)) !! temp_name e = None /\
  files (snd (save_config e v w)) !! CONFIG_FILE = files w !! CONFIG_FILE.
Proof.
  intros Hs Hf. split; [apply save_config_returns|].
  destruct (save_config_fault_frame e v w s Hs) as [_ Hfs].
  rewrite !Hfs by (apply temp_name_not_backup || apply config_not_backup).
  done.
Qed.

(** C2, amended.  Let [v] be a document made of what the store holds
    ([None], booleans, integers, strings, dicts with string keys, lists and
    tuples) that reads as the JSON object [jd]: the document [json.dump]
    writes for it, in which a tuple is the array of its items.  When nothing
    fails in the durable write, the temporary name is free and the json
    library reads back the text it writes for the stamped document,
    [load_config] after [save_config e v] returns the value [json.load]
    builds for [jd] with [last_saved] set to the timestamp of the save.
    That value reads as the same JSON document as the caller's [v] now does;
    it is made of new dicts and lists, so it holds a list where [v] holds a
    tuple. *)
Theorem save_then_load e v jd w :
  tree_of (objs w) v = Some (JObj jd) ->
  io_fault e = None ->
  files w !! temp_name e = None ->
  reads_back (stamped (now e) jd) ->
  exists v' w',
    load_config (snd (save_config e v w)) = (Ret v', w') /\
    tree_of (objs w') v' = Some (stamped (now e) jd) /\
    tree_of (objs w') v = Some (stamped (now e) jd) /\
    alloc_json (stamped (now e) jd) (objs (snd (save_config e v w))) = (v', objs w').
Proof.
  intros Ht Hs Hf Hrb.
  destruct (snapshot_obj_inv _ _ _ _ Ht) as (f' & l & d & _ & -> & Hl & _).
  destruct (save_config_succeeds e l d jd w Hl Ht Hs Hf) as (w2 & _ & Ht2 & ->).
  cbn [snd]. erewrite load_config_primary; cycle 1.
  { exists (json_dumps (stamped (now e) jd)). simpl_world.
    by rewrite lookup_insert_eq. }
  simpl_world.
  destruct (alloc_json (stamped (now e) jd) (objs w2)) as [v' h'] eqn:Ha.
  pose proof Ha as Hb. apply alloc_json_tree in Hb as [[cells ->] Ht'].
  eexists _, _. split; [done|]. cbn [fst snd]. simpl_world.
  split; [done|]. split; [by apply tree_of_app|done].
Qed.

(** C3, amended.  Whatever the state of the backup file, [load_config]
    returns a value when the primary file is absent, holds a JSON document,
    or is a readable text that is not JSON: in the last case the value is
    the document of the backup file when that one holds one, and a copy of
    [DEFAULT_CONFIG] otherwise.  In every other state of the primary file
    [load_config] raises, without a look at the backup: [OSError] when the
    file cannot be opened, [UnicodeDecodeError] when its bytes are no text,
    and the exception of [json.load] when that is not one the handler names
    ([RecursionError] for a text nested too deep, [ValueError] for an
    integer literal with too many digits).  [default_alive] holds in every
    world the module reaches ([default_alive_boot], [default_alive_kept]). *)
Theorem load_config_total w :
  default_alive (objs w) ->
  (files w !! CONFIG_FILE = None \/ corrupt (files w) CONFIG_FILE \/
   (exists j, holds_json (files w) CONFIG_FILE j) ->
   exists v, fst (load_config w) = Ret v) /\
  (corrupt (files w) CONFIG_FILE ->
   (exists j v w',
      holds_json (files w) CONFIG_BACKUP_FILE j /\
      load_config w = (Ret v, w') /\ tree_of (objs w') v = Some j) \/
   load_config w
   = copy_method DEFAULT_CONFIG (put_line RecoveryFailed (put_line WarnCorrupted w))) /\
  (unreadable (files w) CONFIG_FILE -> load_config w = (Raise OSError, w)) /\
  (undecodable (files w) CONFIG_FILE -> load_config w = (Raise UnicodeDecodeError, w)) /\
  (forall err, refused (files w) CONFIG_FILE err -> load_config w = (Raise err, w)).
Proof.
  intros Hd. split_and!.
  - intros [Hs|[Hs|[j Hs]]].
    + rewrite load_config_absent by done. by apply copy_default_returns.
    + destruct (document_or_not (files w) CONFIG_BACKUP_FILE) as [[j Hb]|Hb].
      * rewrite (load_config_backup w j) by done. eauto.
      * rewrite load_config_no_backup by done. by apply copy_default_returns.
    + rewrite (load_config_primary w j) by done. eauto.
  - intros Hc.
    destruct (document_or_not (files w) CONFIG_BACKUP_FILE) as [[j Hb]|Hb].
    + left. destruct (load_recovers_backup_aux w j Hc Hb) as (v & w' & Hl & Ht & _).
      by exists j, v, w'.
    + right. by apply load_config_no_backup.
  - apply load_config_unreadable.
  - apply load_config_undecodable.
  - intros err. apply load_config_refused.
Qed.

(** C4, amended.  When the primary file is a readable text that is not JSON
    ([json.load] raises [JSONDecodeError] on it: malformed, truncated,
    empty) and the backup file holds the JSON document [j], [load_config]
    returns a value that reads as [j], binds the cache to that value, and
    leaves every file, the primary one included, as it was.  A primary file
    on which the read raises another exception is not recovered: the
    exception goes to the caller. *)
Theorem load_recovers_from_backup w j :
  corrupt (files w) CONFIG_FILE ->
  holds_json (files w) CONFIG_BACKUP_FILE j ->
  exists v w',
    load_config w = (Ret v, w') /\
    tree_of (objs w') v = Some j /\
    _config_cache w' = v /\
    files w' = files w.
Proof.
  intros Hc Hb.
  (* the primary file raises JSONDecodeError, the backup file is parsed *)
  rewrite (load_config_backup w j Hc Hb).
  destruct (alloc_json j (objs w)) as [v h'] eqn:Ha.
  apply alloc_json_tree in Ha as [_ Ht].
  exists v, (set_cache v (set_objs h' (put_line WarnCorrupted w))).
  cbn [fst snd]. simpl_world. done.
Qed.

(** C6, amended.  In a save of a dict: when the primary file holds a JSON
    document [j] and the backup copy does not fail, the backup file receives
    the text [json.dump(_, indent=4)] writes for [j] (the document parsed
    and written again, not the bytes of the primary file; the same bytes
    when the primary file is such a text, as after a save); and whatever
    happens in the backup block (the primary file missing, unreadable or
    not JSON, the backup file failing to open or to be written), a save of a
    document that nothing else stops returns normally, puts the text of the
    stamped document in the primary file and binds the cache to the
    document. *)
Theorem backup_is_reserialised e l d w :
  objs w !! l = Some (ODict d) ->
  let w' := snd (save_config e (PRef l) w) in
  (forall j, holds_json (files w) CONFIG_FILE j -> backup_fault e = None ->
             exists r, files w' !! CONFIG_BACKUP_FILE = Some (Node r (json_dumps j))) /\
  (forall j, files w !! CONFIG_FILE = Some (Node Readable (json_dumps j)) ->
             reads_back j -> backup_fault e = None ->
             content <$> files w' !! CONFIG_BACKUP_FILE
             = content <$> files w !! CONFIG_FILE) /\
  (forall jd, tree_of (objs w) (PRef l) = Some (JObj jd) ->
              io_fault e = None -> files w !! temp_name e = None ->
              fst (save_config e (PRef l) w) = Ret tt /\
              files w' !! CONFIG_FILE
              = Some (Node Readable (json_dumps (stamped (now e) jd))) /\
              _config_cache w' = PRef l).
Proof.
  intros Hl w'. split_and!.
  - intros j Hp Hbf. by eapply save_config_copies_primary.
  - intros j Hf Hrb Hbf.
    destruct (save_config_copies_primary e l d w j Hl) as [r Hr]; [|done|].
    { exists (json_dumps j). by split. }
    fold w' in Hr. by rewrite Hr, Hf.
  - intros jd Ht Hs Hf. subst w'.
    destruct (save_config_succeeds e l d jd w Hl Ht Hs Hf) as (w2 & _ & _ & ->).
    cbn [fst snd]. simpl_world. by rewrite lookup_insert_eq.
Qed.

(** C7, amended.  In a save of a dict, whether the durable write then
    succeeds or fails: when the primary file holds a JSON document [j] and
    the backup copy does not fail, the backup file is overwritten with the
    text written for [j]; when the primary file is absent, unreadable or not
    JSON, the backup file is left as it was. *)
Theorem backup_written_before_main_write e l d w :
  objs w !! l = Some (ODict d) ->
  let w' := snd (save_config e (PRef l) w) in
  (forall j, holds_json (files w) CONFIG_FILE j -> backup_fault e = None ->
             exists r, files w' !! CONFIG_BACKUP_FILE = Some (Node r (json_dumps j))) /\
  (files w !! CONFIG_FILE = None \/ unreadable (files w) CONFIG_FILE \/
   corrupt (files w) CONFIG_FILE ->
   files w' !! CONFIG_BACKUP_FILE = files w !! CONFIG_BACKUP_FILE).
Proof.
  intros Hl w'. split.
  - intros j Hp Hbf. by eapply save_config_copies_primary.
  - intros Hp. by eapply save_config_keeps_backup.
Qed.

(** C8.  Let the stored document load as the JSON object [jd].  When [jd]
    has no [guild_prefixes], or a [guild_prefixes] object without the key
    [str g], [get_guild_prefix g] returns ["!"].  When [guild_prefixes] is
    absent or an object, nothing fails in the durable write, the temporary
    name is free and the json library reads back the document as saved,
    [set_guild_prefix e g p] returns [p], [get_guild_prefix g] after it
    returns [p], and the primary file holds a document whose
    [guild_prefixes] has [p] under [str g]. *)
Theorem guild_prefix_set_get e g p w v w0 jd :
  load_config w = (Ret v, w0) ->
  tree_of (objs w0) v = Some (JObj jd) ->
  (dict_get "guild_prefixes" jd = None ->
   fst (get_guild_prefix g w) = Ret (PStr "!")) /\
  (forall jg, dict_get "guild_prefixes" jd = Some (JObj jg) ->
              dict_get (str g) jg = None ->
              fst (get_guild_prefix g w) = Ret (PStr "!")) /\
  (dict_get "guild_prefixes" jd = None \/
   (exists jg, dict_get "guild_prefixes" jd = Some (JObj jg)) ->
   io_fault e = None ->
   files w !! temp_name e = None ->
   let w1 := snd (set_guild_prefix e g (PStr p) w) in
   (forall j, tree_of (objs w1) v = Some j -> reads_back j) ->
   fst (set_guild_prefix e g (PStr p) w) = Ret (PStr p) /\
   fst (get_guild_prefix g w1) = Ret (PStr p) /\
   exists jd1 jg1,
     holds_json (files w1) CONFIG_FILE (JObj jd1) /\
     dict_get "guild_prefixes" jd1 = Some (JObj jg1) /\
     dict_get (str g) jg1 = Some (JStr p)).
Proof.
  intros Hload Ht. pose proof (get_guild_prefix_tree g w v w0 jd Hload Ht) as Hget.
  split_and!.
  - intros Hgp. by rewrite Hgp in Hget.
  - intros jg Hgp Hp. by rewrite Hgp, Hp in Hget.
  - intros Hgp Hs Hf w1 Hrb.
    destruct (put_prefix_tree g p v w0 jd Ht Hgp)
      as (w3 & jd3 & jg3 & Hput & Ht3 & Hg3 & Hp3 & Hfs3 & _).
    pose proof (set_guild_prefix_eq e g (PStr p) w) as Heq.
    rewrite Hload, Hput in Heq.
    destruct (snapshot_obj_inv _ _ _ _ Ht3) as (f' & l & d3 & _ & -> & Hl3 & _).
    assert (files w3 !! temp_name e = None) as Hf3.
    { rewrite Hfs3. pose proof (load_config_files w) as Hlf.
      rewrite Hload in Hlf. cbn [snd] in Hlf. by rewrite Hlf. }
    destruct (save_config_succeeds e l d3 jd3 w3 Hl3 Ht3 Hs Hf3) as (w2 & _ & Ht2 & Hsave).
    rewrite Hsave in Heq. cbn [snd] in Heq.
    subst w1. rewrite Heq. cbn [fst snd]. split; [done|].
    set (w1 := put_line _ _).
    assert (reads_back (stamped (now e) jd3)) as Hrb3.
    { apply Hrb. rewrite Heq. cbn [snd]. by simpl_world. }
    assert (holds_json (files w1) CONFIG_FILE (stamped (now e) jd3)) as Hp1.
    { exists (json_dumps (stamped (now e) jd3)). unfold w1. simpl_world.
      by rewrite lookup_insert_eq. }
    assert (dict_get "guild_prefixes" (dict_set "last_saved" (JStr (now e)) jd3)
            = Some (JObj jg3)) as Hg1.
    { by rewrite dict_get_set_ne. }
    split.
    + pose proof (load_config_primary w1 _ Hp1) as Hload1.
      destruct (alloc_json (stamped (now e) jd3) (objs w1)) as [v1 h1] eqn:Ha.
      apply alloc_json_tree in Ha as [_ Ht1]. cbn [fst snd] in Hload1.
      pose proof (get_guild_prefix_tree g w1 v1 _ _ Hload1 Ht1) as Hget1.
      by rewrite Hg1, Hp3 in Hget1.
    + by exists (dict_set "last_saved" (JStr (now e)) jd3), jg3.
Qed.

(** C9.  [save_config] writes into its argument, and does so first: the
    backup block and the durable write, the only parts that touch files, run
    in the world [stamp e l d w], where the caller's dict at [l] already has
    the new [last_saved] and the files are those of [w].  After the call
    that dict still has [last_saved] set to the timestamp of the call,
    whatever failed.  When the durable write fails, the primary file is the
    file it was, so a stored document with another [last_saved] differs from
    what the caller's dict now reads as. *)
Theorem save_stamps_argument e l d w :
  objs w !! l = Some (ODict d) ->
  let w' := snd (save_config e (PRef l) w) in
  (files (stamp e l d w) = files w /\
   exists w2,
     make_backup e (stamp e l d w) = (Ret tt, w2) /\
     save_config e (PRef l) w =
       match write_atomically e (PRef l) w2 with
       | (Ret _, w3) => (Ret tt, w3)
       | (Raise err, w3) => (Ret tt, put_line (SaveFailed err) w3)
       end) /\
  objs w' !! l = Some (ODict (dict_set "last_saved" (PStr (now e)) d)) /\
  (is_Some (io_fault e) ->
   files w' !! CONFIG_FILE = files w !! CONFIG_FILE /\
   forall jd jd',
     holds_json (files w') CONFIG_FILE (JObj jd) ->
     dict_get "last_saved" jd <> Some (JStr (now e)) ->
     tree_of (objs w') (PRef l) = Some (JObj jd') -> jd' <> jd).
Proof.
  intros Hl w'.
  destruct (save_config_dict e l d w Hl) as (w2 & Hb & Hsave).
  destruct (make_backup_frame e (stamp e l d w)) as (w2' & Hb' & [ext Hext] & Hc & _ & Hfs).
  rewrite Hb in Hb'. injection Hb' as <-.
  assert (objs w2 !! l = Some (ODict (dict_set "last_saved" (PStr (now e)) d))) as Hl2.
  { rewrite Hext. apply lookup_app_l_Some. by apply stamp_lookup. }
  assert (objs w' = objs w2) as Hobjs.
  { subst w'. rewrite Hsave.
    rewrite <- (write_atomically_objs e l _ (PStr (now e)) w2 Hl2)
      by apply dict_get_set_eq.
    by destruct (write_atomically e (PRef l) w2) as [[[]|err] w3]. }
  split; [split; [done | by exists w2]|].
  split; [by rewrite Hobjs|].
  intros [s Hs]. split.
  - apply (save_config_fault_frame e (PRef l) w s Hs), config_not_backup.
  - intros jd jd' _ Hne Ht ->. rewrite Hobjs in Ht.
    destruct (tree_of_dict_get _ _ _ _ "last_saved" _ Hl2 Ht (dict_get_set_eq _ _ _))
      as (jx & Hjx & Hsx).
    destruct (length (objs w2)); simpl in Hsx; congruence.
Qed.

(** C10, amended.  [load_config] and [save_config] bind the cache variable
    only on success: after [load_config] the cache is bound as before, or to
    the value just parsed from the primary file or from the backup; a load
    that falls back to the default document leaves it bound as before.
    After [save_config e v] the cache is bound as before, or to [v] with the
    primary file replaced by the text of [v]; a save whose durable write
    fails leaves it bound as before.  This is about the binding: the object
    the cache is bound to is the caller's own dict. *)
Theorem cache_rebound_on_success_only e v w :
  let wl := snd (load_config w) in
  let ws := snd (save_config e v w) in
  (_config_cache wl = _config_cache w \/
   exists v' j,
     fst (load_config w) = Ret v' /\ _config_cache wl = v' /\
     tree_of (objs wl) v' = Some j /\
     (holds_json (files w) CONFIG_FILE j \/
      (corrupt (files w) CONFIG_FILE /\ holds_json (files w) CONFIG_BACKUP_FILE j))) /\
  (files w !! CONFIG_FILE = None \/
   (corrupt (files w) CONFIG_FILE /\
    forall j, ~ holds_json (files w) CONFIG_BACKUP_FILE j) ->
   _config_cache wl = _config_cache w) /\
  (_config_cache ws = _config_cache w \/
   (_config_cache ws = v /\ io_fault e = None /\
    exists j, files ws !! CONFIG_FILE = Some (Node Readable (json_dumps j)) /\
              tree_of (objs ws) v = Some j)) /\
  (is_Some (io_fault e) -> _config_cache ws = _config_cache w).
Proof.
  intros wl ws. subst wl ws. split_and!.
  - destruct (file_state (files w) CONFIG_FILE) as [Hs|[Hs|[Hs|[[j Hs]|[Hs|[err Hs]]]]]].
    + left. by rewrite load_config_absent, copy_default_frame.
    + left. by rewrite load_config_unreadable.
    + destruct (document_or_not (files w) CONFIG_BACKUP_FILE) as [[j Hb]|Hb].
      * right.
        destruct (load_recovers_backup_aux w j Hs Hb) as (v' & w' & -> & Ht & Hc & _).
        exists v', j. split_and!; eauto.
      * left. by rewrite load_config_no_backup, copy_default_frame.
    + right. rewrite (load_config_primary w j Hs).
      destruct (alloc_json j (objs w)) as [v' h'] eqn:Ha.
      apply alloc_json_tree in Ha as [_ Ht].
      exists v', j. cbn [fst snd]. simpl_world. split_and!; eauto.
    + left. by rewrite load_config_undecodable.
    + left. by rewrite (load_config_refused w err).
  - intros [Hs|[Hs Hnb]].
    + by rewrite load_config_absent, copy_default_frame.
    + by rewrite load_config_no_backup, copy_default_frame.
  - destruct (dict_or_not (objs w) v) as [(l & d & -> & Hl)|Hn].
    + destruct (save_config_outcome e l d w Hl)
        as (w2 & Hb & [[err ->]|(j & Hs & Hf & Ht & ->)]).
      * left. cbn [snd]. simpl_world.
        destruct (make_backup_frame e (stamp e l d w)) as (w2' & Hb' & _ & Hc & _).
        rewrite Hb in Hb'. by injection Hb' as <-.
      * right. cbn [snd]. simpl_world. split_and!; try done.
        exists j. by rewrite lookup_insert_eq.
    + left. by rewrite save_config_not_dict.
  - intros [s Hs]. apply (save_config_fault_frame e v w s Hs).
Qed.

End Claims.

(** ** The claims on concrete runs *)

Import Sample.

Ltac by_running := vm_compute; reflexivity.

(** C1 when the write of the temporary file fails at once. *)
Lemma save_fault_keeps_primary_witness :
  io_fault env_write_fails = Some (AtWrite 0) /\
  files loaded !! temp_name env_write_fails = None /\
  fst (save_config env_write_fails doc loaded) = Ret tt /\
  files (snd (save_config env_write_fails doc loaded)) !! temp_name env_write_fails = None /\
  files (snd (save_config env_write_fails doc loaded)) !! CONFIG_FILE
  = files loaded !! CONFIG_FILE.
Proof.
  split; [reflexivity|]. split; [by_running|].
  apply (save_fault_keeps_primary env_write_fails doc loaded (AtWrite 0)); by_running.
Defined.

(** C2 on the document loaded from [dir_valid]. *)
Lemma save_then_load_witness :
  tree_of (objs loaded) doc = Some compact_tree /\
  reads_back (stamped (now env_ok) [("ticket_counter", JInt 5)]) /\
  exists v' w',
    load_config (snd (save_config env_ok doc loaded)) = (Ret v', w') /\
    tree_of (objs w') v' = Some (stamped (now env_ok) [("ticket_counter", JInt 5)]) /\
    tree_of (objs w') doc = Some (stamped (now env_ok) [("ticket_counter", JInt 5)]).
Proof.
  split; [by_running|]. split; [by_running|].
  destruct (save_then_load env_ok doc [("ticket_counter", JInt 5)] loaded)
    as (v' & w' & Hl & Hv' & Hv & _); [by_running ..|].
  exists v', w'. split; [exact Hl|]. split; [exact Hv'|exact Hv].
Defined.

(** C2 as stated fails: the caller saves [{'a': (1, 2)}]; the save succeeds,
    and the document [load_config] then returns holds a list under ['a']
    where the document saved holds a tuple, so the two are not equal. *)
Lemma tuple_comes_back_as_list :
  deref (objs with_tuple) tuple_doc = Some (ODict [("a", PRef 12)]) /\
  deref (objs with_tuple) (PRef 12) = Some (OTuple [PInt 1; PInt 2]) /\
  stdout (snd (save_config env_ok tuple_doc with_tuple)) = [SavedAt (PStr stamp_time)] /\
  exists config w' item,
    load_config (snd (save_config env_ok tuple_doc with_tuple)) = (Ret config, w') /\
    getitem config "a" w' = (Ret item, w') /\
    deref (objs w') item = Some (OList [PInt 1; PInt 2]) /\
    getitem tuple_doc "a" w' = (Ret (PRef 12), w') /\
    deref (objs w') (PRef 12) = Some (OTuple [PInt 1; PInt 2]).
Proof.
  split; [by_running|]. split; [by_running|]. split; [by_running|].
  eexists _, _, _. split_and!; by_running.
Qed.

(** C3 as stated fails: the primary file exists and cannot be opened, and
    [load_config] raises [OSError] to its caller; the primary file holds an
    integer of 4301 digits, and [load_config] raises [ValueError] to its
    caller, with a valid backup at hand. *)
Lemma load_config_raises_to_caller :
  (unreadable (files (boot dir_unreadable)) CONFIG_FILE /\
   load_config (boot dir_unreadable) = (Raise OSError, boot dir_unreadable)) /\
  (files (boot dir_long_int) !! CONFIG_FILE = Some (Node Readable long_int_text) /\
   String.length long_int_text = 4301 /\
   holds_json (files (boot dir_long_int)) CONFIG_BACKUP_FILE compact_tree /\
   load_config (boot dir_long_int) = (Raise ValueError, boot dir_long_int)).
Proof.
  split; [split; [by exists compact_text | by_running]|].
  split; [by_running|]. split; [by_running|].
  split; [exists compact_text; split; by_running | by_running].
Qed.

(** C3, amended, on a truncated primary file with a valid backup. *)
Lemma load_config_total_witness :
  default_alive (objs (boot dir_recoverable)) /\
  corrupt (files (boot dir_recoverable)) CONFIG_FILE /\
  exists v, fst (load_config (boot dir_recoverable)) = Ret v.
Proof.
  assert (default_alive (objs (boot dir_recoverable))) as Hd.
  { vm_compute. eexists. reflexivity. }
  assert (corrupt (files (boot dir_recoverable)) CONFIG_FILE) as Hc.
  { apply (corrupt_intro _ _ "{"); by_running. }
  split; [exact Hd|]. split; [exact Hc|].
  destruct (load_config_total (boot dir_recoverable) Hd) as (Hret & _).
  apply Hret. right; left. exact Hc.
Defined.

(** C4 as stated fails: the primary file holds bytes that are no text, or a
    thousand opening brackets; neither is JSON, the backup is a valid
    document, and [load_config] raises to its caller without a look at the
    backup. *)
Lemma load_raises_past_valid_backup :
  (undecodable (files (boot dir_garbled)) CONFIG_FILE /\
   holds_json (files (boot dir_garbled)) CONFIG_BACKUP_FILE compact_tree /\
   load_config (boot dir_garbled) = (Raise UnicodeDecodeError, boot dir_garbled)) /\
  (files (boot dir_deep) !! CONFIG_FILE = Some (Node Readable deep_text) /\
   holds_json (files (boot dir_deep)) CONFIG_BACKUP_FILE compact_tree /\
   load_config (boot dir_deep) = (Raise RecursionError, boot dir_deep)).
Proof.
  split.
  - split; [by exists garbled_bytes|].
    split; [exists compact_text; split; by_running | by_running].
  - split; [by_running|].
    split; [exists compact_text; split; by_running | by_running].
Qed.

(** C4, amended, on a truncated primary file with a valid backup. *)
Lemma load_recovers_from_backup_witness :
  corrupt (files (boot dir_recoverable)) CONFIG_FILE /\
  holds_json (files (boot dir_recoverable)) CONFIG_BACKUP_FILE compact_tree /\
  exists v w',
    load_config (boot dir_recoverable) = (Ret v, w') /\
    tree_of (objs w') v = Some compact_tree /\
    _config_cache w' = v /\
    files w' = files (boot dir_recoverable).
Proof.
  assert (corrupt (files (boot dir_recoverable)) CONFIG_FILE) as Hc.
  { apply (corrupt_intro _ _ "{"); by_running. }
  assert (holds_json (files (boot dir_recoverable)) CONFIG_BACKUP_FILE compact_tree) as Hb.
  { exists compact_text. split; by_running. }
  split; [exact Hc|]. split; [exact Hb|].
  exact (load_recovers_from_backup (boot dir_recoverable) compact_tree Hc Hb).
Defined.

(** In a process that has done nothing else, a truncated primary file and
    no backup give the default document. *)
Lemma load_default_at_boot :
  exists v w',
    load_config (boot dir_truncated) = (Ret v, w') /\
    tree_of (objs w') v = Some default_schema.
Proof.
  destruct (load_config_default (boot dir_truncated) default_schema)
    as (v & w' & Hl & Ht & _).
  - apply (corrupt_intro _ _ "{"); by_running.
  - left. by_running.
  - apply default_alive_boot.
  - by_running.
  - by exists v, w'.
Qed.

(** C5 fails on the code.  [DEFAULT_CONFIG.copy()] is a shallow copy: the
    document it returns shares its inner dicts with [DEFAULT_CONFIG], and
    [set_guild_prefix] writes into the shared [guild_prefixes].  In both runs
    the primary file is not JSON and there is no backup, and [load_config]
    returns a document that has the prefix set earlier, not the default
    document. *)
Theorem default_copy_shares_guild_prefixes :
  (corrupt (files after_failed_set) CONFIG_FILE /\
   files after_failed_set !! CONFIG_BACKUP_FILE = None /\
   tree_of (objs (snd (load_config after_failed_set)))
           (returned (fst (load_config after_failed_set)))
   = Some (JObj (dict_set "guild_prefixes" (JObj [("1", JStr "?")]) default_members)) /\
   tree_of (objs (snd (load_config after_failed_set)))
           (returned (fst (load_config after_failed_set)))
   <> Some default_schema) /\
  (corrupt (files truncated_later) CONFIG_FILE /\
   files truncated_later !! CONFIG_BACKUP_FILE = None /\
   tree_of (objs (snd (load_config truncated_later)))
           (returned (fst (load_config truncated_later)))
   = Some (JObj (dict_set "guild_prefixes" (JObj [("12345", JStr "?")]) default_members)) /\
   tree_of (objs (snd (load_config truncated_later)))
           (returned (fst (load_config truncated_later)))
   <> Some default_schema).
Proof.
  split; (split; [apply (corrupt_intro _ _ "{"); by_running|]);
    (split; [by_running|]); (split; [by_running|]); vm_compute; discriminate.
Qed.

(** C6 as stated fails: the primary file was written on one line, the
    backup made of it by a save is indented over three lines. *)
Lemma backup_differs_from_primary_text :
  files loaded !! CONFIG_FILE = Some (Node Readable compact_text) /\
  files (snd (save_config env_ok doc loaded)) !! CONFIG_BACKUP_FILE
  = Some (Node Readable indented_text) /\
  indented_text <> compact_text.
Proof. split; [by_running|]. split; [by_running|]. vm_compute. discriminate. Qed.

(** C6, amended, on the document loaded from [dir_valid]. *)
Lemma backup_is_reserialised_witness :
  objs loaded !! 12 = Some (ODict [("ticket_counter", PInt 5)]) /\
  (exists r, files (snd (save_config env_ok (PRef 12) loaded)) !! CONFIG_BACKUP_FILE
             = Some (Node r (json_dumps compact_tree))) /\
  fst (save_config env_ok (PRef 12) loaded) = Ret tt /\
  files (snd (save_config env_ok (PRef 12) loaded)) !! CONFIG_FILE
  = Some (Node Readable (json_dumps (stamped (now env_ok) [("ticket_counter", JInt 5)]))) /\
  _config_cache (snd (save_config env_ok (PRef 12) loaded)) = PRef 12.
Proof.
  assert (objs loaded !! 12 = Some (ODict [("ticket_counter", PInt 5)])) as Hl
    by by_running.
  split; [exact Hl|].
  destruct (backup_is_reserialised env_ok 12 _ loaded Hl) as (Hcopy & _ & Hmain).
  split.
  - apply Hcopy; [|by_running]. exists compact_text. split; by_running.
  - apply Hmain; by_running.
Defined.

(** C7 as stated fails both ways: a save whose durable write fails has
    already written the backup; a save that succeeds over a truncated
    primary file writes no backup. *)
Lemma failed_save_changes_backup :
  (stdout (snd (save_config env_write_fails doc loaded)) = [SaveFailed OSError] /\
   files (snd (save_config env_write_fails doc loaded)) !! CONFIG_FILE
   = files loaded !! CONFIG_FILE /\
   files loaded !! CONFIG_BACKUP_FILE = None /\
   files (snd (save_config env_write_fails doc loaded)) !! CONFIG_BACKUP_FILE
   = Some (Node Readable indented_text)) /\
  (stdout (snd (save_config env_ok default_doc fallen_back))
   = stdout fallen_back ++ [SavedAt (PStr stamp_time)] /\
   is_Some (files fallen_back !! CONFIG_FILE) /\
   files fallen_back !! CONFIG_BACKUP_FILE = None /\
   files (snd (save_config env_ok default_doc fallen_back)) !! CONFIG_BACKUP_FILE = None).
Proof.
  split; split_and!; try by_running. vm_compute. eexists. reflexivity.
Qed.

(** C7, amended, with a failing durable write and over a truncated primary
    file. *)
Lemma backup_written_before_main_write_witness :
  objs loaded !! 12 = Some (ODict [("ticket_counter", PInt 5)]) /\
  (exists r, files (snd (save_config env_write_fails (PRef 12) loaded)) !! CONFIG_BACKUP_FILE
             = Some (Node r (json_dumps compact_tree))) /\
  files (snd (save_config env_write_fails (PRef 12) fallen_back)) !! CONFIG_BACKUP_FILE
  = files fallen_back !! CONFIG_BACKUP_FILE.
Proof.
  assert (objs loaded !! 12 = Some (ODict [("ticket_counter", PInt 5)])) as Hl
    by by_running.
  split; [exact Hl|]. split.
  - apply (backup_written_before_main_write env_write_fails 12 _ loaded Hl); [|by_running].
    exists compact_text. split; by_running.
  - eapply (backup_written_before_main_write env_write_fails 12 _ fallen_back).
    + by_running.
    + right; right. apply (corrupt_intro _ _ "{"); by_running.
Defined.

(** C8 on the first run of a process in an empty directory. *)
Lemma guild_prefix_set_get_witness :
  load_config first_run = (Ret first_doc, snd (load_config first_run)) /\
  fst (get_guild_prefix 12345 first_run) = Ret (PStr "!") /\
  fst (set_guild_prefix env_ok 12345 (PStr "?") first_run) = Ret (PStr "?") /\
  fst (get_guild_prefix 12345 after_set) = Ret (PStr "?") /\
  exists jd1 jg1,
    holds_json (files after_set) CONFIG_FILE (JObj jd1) /\
    dict_get "guild_prefixes" jd1 = Some (JObj jg1) /\
    dict_get (str 12345) jg1 = Some (JStr "?").
Proof.
  assert (load_config first_run = (Ret first_doc, snd (load_config first_run))) as Hload
    by by_running.
  split; [exact Hload|].
  destruct (guild_prefix_set_get env_ok 12345 "?" first_run first_doc _ default_members Hload)
    as (_ & Hdefault & Hset); [by_running|].
  split.
  - apply (Hdefault []); by_running.
  - apply Hset; [right; exists []; by_running | by_running | by_running |].
    intros j Hj. vm_compute in Hj. injection Hj as <-. by_running.
Defined.

(** C9 when the write of the temporary file fails. *)
Lemma save_stamps_argument_witness :
  objs loaded !! 12 = Some (ODict [("ticket_counter", PInt 5)]) /\
  is_Some (io_fault env_write_fails) /\
  objs (snd (save_config env_write_fails (PRef 12) loaded)) !! 12
  = Some (ODict (dict_set "last_saved" (PStr (now env_write_fails)) [("ticket_counter", PInt 5)])) /\
  files (snd (save_config env_write_fails (PRef 12) loaded)) !! CONFIG_FILE
  = files loaded !! CONFIG_FILE.
Proof.
  assert (objs loaded !! 12 = Some (ODict [("ticket_counter", PInt 5)])) as Hl
    by by_running.
  assert (is_Some (io_fault env_write_fails)) as Hf by (eexists; reflexivity).
  split; [exact Hl|]. split; [exact Hf|].
  destruct (save_stamps_argument env_write_fails 12 _ loaded Hl) as (_ & Hstamp & Hfail).
  split; [exact Hstamp|]. exact (proj1 (Hfail Hf)).
Defined.

(** C10 as stated fails: a save whose durable write fails changes what the
    cache reads as (the cached dict is the one being saved, and it is
    stamped); after [update_config] with such a failure the cache reads as a
    document that was never saved, while the primary file still holds the
    old one; and [refresh_config_cache] binds the cache to [None] when the
    primary file is gone, with no parse and no rename. *)
Lemma failed_update_reaches_cache :
  (_config_cache loaded = doc /\
   tree_of (objs loaded) (_config_cache loaded) = Some compact_tree /\
   stdout (snd (save_config env_write_fails doc loaded)) = [SaveFailed OSError] /\
   tree_of (objs (snd (save_config env_write_fails doc loaded)))
           (_config_cache (snd (save_config env_write_fails doc loaded)))
   = Some (stamped stamp_time [("ticket_counter", JInt 5)])) /\
  (stdout after_failed_update = [SaveFailed OSError] /\
   holds_json (files after_failed_update) CONFIG_FILE compact_tree /\
   tree_of (objs after_failed_update)
           (returned (fst (get_cached_config after_failed_update)))
   = Some (JObj [("ticket_counter", JInt 9); ("last_saved", JStr stamp_time)])) /\
  (_config_cache file_gone = PRef 12 /\
   _config_cache (snd (refresh_config_cache file_gone)) = PNone).
Proof.
  split; [split_and!; by_running|].
  split; [|split; by_running].
  split; [by_running|]. split; [exists compact_text; split; by_running | by_running].
Qed.

(** C10, amended, with a failing durable write and in an empty directory. *)
Lemma cache_rebound_on_success_only_witness :
  is_Some (io_fault env_write_fails) /\
  _config_cache (snd (save_config env_write_fails doc loaded)) = _config_cache loaded /\
  _config_cache (snd (load_config (boot dir_empty))) = _config_cache (boot dir_empty).
Proof.
  assert (is_Some (io_fault env_write_fails)) as Hf by (eexists; reflexivity).
  split; [exact Hf|].
  destruct (cache_rebound_on_success_only env_write_fails doc loaded) as (_ & _ & _ & Hsave).
  destruct (cache_rebound_on_success_only env_write_fails doc (boot dir_empty))
    as (_ & Hload & _ & _).
  split; [exact (Hsave Hf)|]. apply Hload. left. by_running.
Defined.

(** * Further properties *)

Section Further.
Context `{JsonLib}.
Implicit Types (w : world) (j : json) (e : env).

(** ** What a load does, by the state of the two files *)

Lemma load_config_cases w :
  (exists err, load_config w = (Raise err, w)) \/
  exists wl,
    files wl = files w /\ objs wl = objs w /\ _config_cache wl = _config_cache w /\
    ((exists j,
        (holds_json (files w) CONFIG_FILE j \/
         (corrupt (files w) CONFIG_FILE /\ holds_json (files w) CONFIG_BACKUP_FILE j)) /\
        load_config w =
          (Ret (fst (alloc_json j (objs w))),
           set_cache (fst (alloc_json j (objs w)))
             (set_objs (snd (alloc_json j (objs w))) wl))) \/
     ((files w !! CONFIG_FILE = None \/
       (corrupt (files w) CONFIG_FILE /\
        forall j, ~ holds_json (files w) CONFIG_BACKUP_FILE j)) /\
      load_config w = copy_method DEFAULT_CONFIG wl)).
Proof.
  destruct (file_state (files w) CONFIG_FILE) as [Hs|[Hs|[Hs|[[j Hs]|[Hs|[err Hs]]]]]].
  - right. exists w. split_and!; try done. right. split; [by left|].
    by apply load_config_absent.
  - left. exists OSError. by apply load_config_unreadable.
  - right. destruct (document_or_not (files w) CONFIG_BACKUP_FILE) as [[j Hb]|Hb].
    + exists (put_line WarnCorrupted w). split_and!; try done. left. exists j.
      split; [by right|]. by apply load_config_backup.
    + exists (put_line RecoveryFailed (put_line WarnCorrupted w)).
      split_and!; try done. right. split; [by right|]. by apply load_config_no_backup.
  - right. exists w. split_and!; try done. left. exists j. split; [by left|].
    by apply load_config_primary.
  - left. exists UnicodeDecodeError. by apply load_config_undecodable.
  - left. exists err. by apply load_config_refused.
Qed.

(** [copy()] on a dict or a list, and what it takes for it to return. *)
Lemma copy_method_some l o w :
  objs w !! l = Some o -> (forall xs, o <> OTuple xs) ->
  copy_method (PRef l) w = (Ret (PRef (length (objs w))), set_objs (objs w ++ [o]) w).
Proof.
  intros Hl Ho. unfold copy_method, new_obj. rewrite Hl.
  destruct o as [d|xs|xs]; try done. by destruct (Ho xs).
Qed.

Lemma copy_method_ret l w v' w' :
  copy_method (PRef l) w = (Ret v', w') ->
  exists o, objs w !! l = Some o /\ (forall xs, o <> OTuple xs) /\
            v' = PRef (length (objs w)) /\ w' = set_objs (objs w ++ [o]) w.
Proof.
  unfold copy_method, new_obj. destruct (objs w !! l) as [[d|xs|xs]|]; try done;
    intros [= <- <-]; eexists; split_and!; done.
Qed.

(** A container built for a parsed tree is a new object. *)
Lemma alloc_json_root j h :
  match fst (alloc_json j h) with
  | PRef l => length h <= l
  | _ => True
  end.
Proof.
  destruct j as [| | | |items|members]; try done; cbn [alloc_json].
  - destruct (alloc_seq_built alloc_json (fun j => j) items) with (h := h)
      as (cells & Hh & _).
    { apply Forall_forall. intros x _ h0. apply alloc_json_built. }
    destruct (alloc_seq alloc_json items h) as [vs h1]. cbn [fst snd new_obj] in *.
    subst h1. rewrite length_app. lia.
  - destruct (alloc_seq_built (fun kv => alloc_json (snd kv)) snd members) with (h := h)
      as (cells & Hh & _).
    { apply Forall_forall. intros x _ h0. apply alloc_json_built. }
    destruct (alloc_seq (fun kv => alloc_json (snd kv)) members h) as [vs h1].
    cbn [fst snd new_obj] in *. subst h1. rewrite length_app. lia.
Qed.

Lemma alloc_json_app j h : exists cells, snd (alloc_json j h) = h ++ cells.
Proof. destruct (alloc_json_built j h) as (cells & Hh & _). eauto. Qed.

(** The store after a save of the dict at [l]: the stamp, and whatever the
    backup block added. *)
Lemma save_config_objs e l d w :
  objs w !! l = Some (ODict d) ->
  exists ext,
    objs (snd (save_config e (PRef l) w))
    = <[l := ODict (dict_set "last_saved" (PStr (now e)) d)]> (objs w) ++ ext.
Proof.
  intros Hl.
  destruct (save_config_outcome e l d w Hl) as (w2 & Hb & Hout).
  destruct (make_backup_frame e (stamp e l d w)) as (w2' & Hb' & [ext Hext] & _).
  rewrite Hb in Hb'. injection Hb' as <-. exists ext.
  destruct Hout as [[err ->]|(j & _ & _ & _ & ->)]; cbn [snd]; simpl_world; done.
Qed.

(** The tree of a reference is the tree of the object it refers to. *)
Lemma tree_of_same_object h l l' o J :
  h !! l = Some o -> h !! l' = Some o ->
  tree_of h (PRef l) = Some J -> tree_of h (PRef l') = Some J.
Proof. unfold tree_of. rewrite !snapshot_ref. by intros -> ->. Qed.

(** X1.  Loading twice gives the same document.  When [load_config]
    returns a value that reads as [j] (parsed from the primary file, from
    the backup, or a copy of the defaults), a second [load_config] right
    after it returns a value that reads as [j] too, and the first value
    still reads as [j]: the second load builds its own objects. *)
Theorem load_config_idempotent w v1 w1 j :
  load_config w = (Ret v1, w1) ->
  tree_of (objs w1) v1 = Some j ->
  exists v2 w2,
    load_config w1 = (Ret v2, w2) /\
    tree_of (objs w2) v2 = Some j /\
    tree_of (objs w2) v1 = Some j.
Proof.
  intros Hload Ht.
  pose proof (load_config_files w) as Hfs. rewrite Hload in Hfs. cbn [snd] in Hfs.
  destruct (load_config_cases w) as [[err Hr]|(wl & Hfl & Hol & _ & Hcase)]; [congruence|].
  destruct Hcase as [(j' & Hsrc & Heq)|[Hsrc Heq]]; rewrite Heq in Hload.
  - (* parsed from a file: the file is still there *)
    destruct (alloc_json j' (objs w)) as [v h'] eqn:Ha. cbn [fst snd] in Hload.
    injection Hload as <- <-. simpl_world.
    apply alloc_json_tree in Ha as [_ Ht']. rewrite Ht' in Ht. injection Ht as ->.
    simpl_world.
    assert (exists wl', load_config (set_cache v (set_objs h' wl)) =
              (Ret (fst (alloc_json j h')),
               set_cache (fst (alloc_json j h')) (set_objs (snd (alloc_json j h')) wl')))
      as [wl' Heq'].
    { destruct Hsrc as [Hp|[Hc Hb]].
      - eexists. apply load_config_primary. simpl_world. by rewrite Hfl.
      - eexists. apply load_config_backup; simpl_world; by rewrite Hfl. }
    rewrite Heq'. destruct (alloc_json j h') as [v2 h2] eqn:Ha2.
    apply alloc_json_tree in Ha2 as [[cells ->] Ht2].
    eexists _, _. split; [done|]. cbn [fst snd]. simpl_world.
    split; [done|]. by apply tree_of_app.
  - (* a copy of the defaults: the next one is a copy of the same dict *)
    rewrite DEFAULT_CONFIG_ref in Hload.
    apply copy_method_ret in Hload as (o & Ho & Hnt & -> & ->).
    rewrite Hol in *. simpl_world.
    set (h1 := objs w ++ [o]) in *.
    assert (h1 !! 11 = Some o) as Ho1 by by apply lookup_app_l_Some.
    assert (tree_of h1 (PRef 11) = Some j) as Ht11.
    { eapply tree_of_same_object; [| exact Ho1 | exact Ht]. by apply list_lookup_middle. }
    assert (exists wl', files wl' = files w /\ objs wl' = h1 /\
              load_config (set_objs h1 wl) = copy_method DEFAULT_CONFIG wl')
      as (wl' & Hfl' & Hol' & Heq').
    { destruct Hsrc as [Hnone|[Hc Hnb]].
      - exists (set_objs h1 wl). split_and!; simpl_world; try done.
        apply load_config_absent. simpl_world. by rewrite Hfl.
      - exists (put_line RecoveryFailed (put_line WarnCorrupted (set_objs h1 wl))).
        split_and!; simpl_world; try done.
        apply load_config_no_backup; simpl_world; by rewrite Hfl. }
    rewrite Heq', DEFAULT_CONFIG_ref.
    rewrite (copy_method_some 11 o wl') by (by rewrite ?Hol').
    eexists _, _. split; [done|]. simpl_world. rewrite Hol'. split.
    + by apply (copy_tree h1 11).
    + by apply tree_of_app.
Qed.

(** X2.  After a save whose durable write fails at some step, over a
    primary file that holds the JSON document [j], [load_config] returns a
    value that reads as [j]: the stored document is the one from before the
    save, whatever was passed to [save_config]. *)
Theorem load_after_failed_save e v w s j :
  io_fault e = Some s ->
  holds_json (files w) CONFIG_FILE j ->
  exists v' w',
    load_config (snd (save_config e v w)) = (Ret v', w') /\
    tree_of (objs w') v' = Some j.
Proof.
  intros Hs (text & Hf & Hj).
  destruct (save_config_fault_frame e v w s Hs) as [_ Hfs].
  set (w1 := snd (save_config e v w)) in *.
  assert (holds_json (files w1) CONFIG_FILE j) as Hp.
  { exists text. split; [|done]. rewrite Hfs by apply config_not_backup. done. }
  rewrite (load_config_primary w1 j Hp).
  destruct (alloc_json j (objs w1)) as [v' h'] eqn:Ha.
  apply alloc_json_tree in Ha as [_ Ht].
  eexists _, _. split; [done|]. by simpl_world.
Qed.

(** X3.  [refresh_config_cache] writes no file and keeps nothing of the
    old cache.  After it the cache is [None], or it is the value the call
    returned, which reads as the document held by the primary file or, the
    primary file not being JSON, by the backup.  When the read of the
    primary file raises an exception that the handler does not name, the
    call raises it and leaves the cache at [None]: [OSError] when the file
    cannot be opened, [UnicodeDecodeError] when its bytes are no text, the
    exception of [json.load] otherwise. *)
Theorem refresh_never_stale w :
  let r := fst (refresh_config_cache w) in
  let w' := snd (refresh_config_cache w) in
  files w' = files w /\
  (_config_cache w' = PNone \/
   exists v j,
     r = Ret v /\ _config_cache w' = v /\ tree_of (objs w') v = Some j /\
     (holds_json (files w) CONFIG_FILE j \/
      (corrupt (files w) CONFIG_FILE /\ holds_json (files w) CONFIG_BACKUP_FILE j))) /\
  (unreadable (files w) CONFIG_FILE -> r = Raise OSError /\ _config_cache w' = PNone) /\
  (undecodable (files w) CONFIG_FILE ->
   r = Raise UnicodeDecodeError /\ _config_cache w' = PNone) /\
  (forall err, refused (files w) CONFIG_FILE err ->
               r = Raise err /\ _config_cache w' = PNone).
Proof.
  intros r w'. subst r w'.
  assert (refresh_config_cache w = load_config (set_cache PNone w)) as -> by done.
  split; [by rewrite load_config_files|]. split.
  - destruct (load_config_cases (set_cache PNone w))
      as [[err ->]|(wl & Hfl & Hol & Hcl & [(j & Hsrc & ->)|[_ ->]])].
    + by left.
    + right. destruct (alloc_json j (objs (set_cache PNone w))) as [v h'] eqn:Ha.
      apply alloc_json_tree in Ha as [_ Ht].
      exists v, j. cbn [fst snd]. simpl_world. by split_and!.
    + left. by rewrite copy_default_frame.
  - split_and!.
    + intros Hu. by rewrite (load_config_unreadable (set_cache PNone w)).
    + intros Hu. by rewrite (load_config_undecodable (set_cache PNone w)).
    + intros err Hr. by rewrite (load_config_refused (set_cache PNone w) err).
Qed.

(** X4.  After [load_config] has parsed the document [j] from the primary
    file, [get_cached_config] returns the very value that load returned and
    changes nothing, whatever the directory has become in between ([f'] is
    arbitrary: the files are not read), provided [j] is not [null].  A file
    that holds [null] parses to [None], which is also the mark of an empty
    cache: [get_cached_config] then loads again on every call. *)
Theorem cached_config_skips_disk w j f' :
  holds_json (files w) CONFIG_FILE j ->
  let v := fst (alloc_json j (objs w)) in
  let w1 := snd (load_config w) in
  fst (load_config w) = Ret v /\
  (j <> JNull ->
   get_cached_config (set_files f' w1) = (Ret v, set_files f' w1)) /\
  (j = JNull ->
   _config_cache w1 = PNone /\ get_cached_config w1 = load_config w1).
Proof.
  intros Hp v w1. subst v w1. rewrite (load_config_primary w j Hp). cbn [fst snd].
  split; [done|]. unfold get_cached_config, read_cache. unfold_M. simpl_world.
  split.
  - intros Hj. destruct j; try done; cbn [alloc_json fst];
      by destruct (alloc_seq _ _ _).
  - intros ->. done.
Qed.

(** ** Which files the module touches *)

Lemma keeps_files_bind {A B : Type} (c : M A) (k : A -> M B) :
  keeps_files c -> (forall a, keeps_files (k a)) -> keeps_files (c ≫= k).
Proof.
  intros Hc Hk w. unfold mbind, M_bind. specialize (Hc w).
  destruct (c w) as [[a|err] w1]; cbn [snd] in *; [|done].
  by rewrite Hk.
Qed.

Lemma keeps_files_get_method v k default :
  keeps_files default -> keeps_files (get_method v k default).
Proof.
  intros Hd w. unfold get_method. destruct v as [| | | |l]; try done.
  destruct (objs w !! l) as [[d|xs|xs]|]; try done.
  specialize (Hd w). by destruct (default w) as [[dv|err] w'].
Qed.

Lemma keeps_files_setitem v k x : keeps_files (setitem v k x).
Proof.
  intros w. unfold setitem. destruct v as [| | | |l]; try done.
  by destruct (objs w !! l) as [[d|xs|xs]|].
Qed.

Lemma keeps_files_put_prefix v g p : keeps_files (put_prefix v g p).
Proof.
  unfold put_prefix. apply keeps_files_bind.
  { intros w. unfold contains. destruct v as [| | | |l]; try done.
    by destruct (objs w !! l) as [[d|xs|xs]|]. }
  intros present. apply keeps_files_bind.
  { destruct present; [done|]. apply keeps_files_bind; [done|].
    intros fresh. apply keeps_files_setitem. }
  intros _. apply keeps_files_bind; [|intros gp; apply keeps_files_setitem].
  intros w. unfold getitem. destruct v as [| | | |l]; try done.
  destruct (objs w !! l) as [[d|xs|xs]|]; try done. by destruct (dict_get _ d).
Qed.

Lemma confined_bind {A B : Type} (c : M A) (k : A -> M B) :
  confined c -> (forall a, confined (k a)) -> confined (c ≫= k).
Proof.
  intros Hc Hk w path H1 H2. unfold mbind, M_bind. specialize (Hc w path H1 H2).
  destruct (c w) as [[a|err] w1]; cbn [snd] in *; [|done].
  by rewrite Hk.
Qed.

Lemma keeps_files_confined {A : Type} (c : M A) : keeps_files c -> confined c.
Proof. intros Hc w path _ _. by rewrite Hc. Qed.

Lemma confined_save_config e v : confined (save_config e v).
Proof.
  intros w path H1 H2.
  destruct (dict_or_not (objs w) v) as [(l & d & -> & Hl)|Hn].
  - destruct (save_config_outcome e l d w Hl) as (w2 & Hb & Hout).
    destruct (make_backup_frame e (stamp e l d w)) as (w2' & Hb' & _ & _ & _ & Hfr).
    rewrite Hb in Hb'. injection Hb' as <-.
    destruct Hout as [[err ->]|(j & _ & _ & _ & ->)]; cbn [snd]; simpl_world.
    + by rewrite Hfr.
    + rewrite lookup_insert_ne by done. by rewrite Hfr.
  - by rewrite save_config_not_dict.
Qed.

(** X5.  The functions that read write no file: [load_config],
    [get_config], [get_guild_prefix], [refresh_config_cache] and
    [get_cached_config] leave the directory as it was, in every case (no
    default file is created, a primary file that is not JSON is not
    repaired from the backup). *)
Theorem reads_keep_files g :
  keeps_files load_config /\ keeps_files get_config /\
  keeps_files (get_guild_prefix g) /\
  keeps_files refresh_config_cache /\ keeps_files get_cached_config.
Proof.
  assert (keeps_files load_config) as Hload by exact load_config_files.
  split_and!; try done.
  - unfold get_guild_prefix. apply keeps_files_bind; [done|]. intros config.
    apply keeps_files_bind.
    + apply keeps_files_get_method. by intros w.
    + intros gp. apply keeps_files_get_method. by intros w.
  - unfold refresh_config_cache. apply keeps_files_bind; [by intros w|done].
  - unfold get_cached_config. apply keeps_files_bind; [by intros w|].
    intros [| | | |l]; done.
Qed.

(** X6.  The functions that write touch two files only.  After
    [save_config], [update_config] or [set_guild_prefix], any path other
    than the primary file and the backup file is as before, whatever value
    is passed and wherever the environment makes the backup copy or the
    durable write fail: the temporary file is renamed or removed, an
    existing file is never taken as the temporary one. *)
Theorem writes_are_confined e :
  (forall v, confined (save_config e v)) /\
  (forall k x, confined (update_config e k x)) /\
  (forall g p, confined (set_guild_prefix e g p)).
Proof.
  assert (confined load_config) as Hload
    by (apply keeps_files_confined; exact load_config_files).
  split_and!.
  - apply confined_save_config.
  - intros k x. unfold update_config. apply confined_bind; [done|]. intros config.
    apply confined_bind; [apply keeps_files_confined, keeps_files_setitem|].
    intros _. apply confined_bind; [apply confined_save_config|].
    intros _. by apply keeps_files_confined.
  - intros g p w path H1 H2. rewrite set_guild_prefix_eq.
    pose proof (load_config_files w) as Hl.
    destruct (load_config w) as [[config|err] w0]; cbn [snd] in *; [|by rewrite Hl].
    pose proof (keeps_files_put_prefix config g p w0) as Hp.
    destruct (put_prefix config g p w0) as [[[]|err] w1]; cbn [snd] in *.
    + rewrite confined_save_config by done. by rewrite Hp, Hl.
    + by rewrite Hp, Hl.
Qed.

(** ** What a save reports *)

(** X7.  [save_config] prints exactly one line, and the line tells what
    happened.  After the success line, which carries the timestamp of this
    call, the cache is the argument and the primary file holds the text
    written for what the argument now reads as.  After the failure line the
    cache is bound as before and the primary file is the file it was. *)
Theorem save_config_reports e v w :
  let w' := snd (save_config e v w) in
  exists ln,
    stdout w' = stdout w ++ [ln] /\
    match ln with
    | SavedAt ts =>
        ts = PStr (now e) /\ _config_cache w' = v /\
        exists j, tree_of (objs w') v = Some j /\
                  files w' !! CONFIG_FILE = Some (Node Readable (json_dumps j))
    | SaveFailed _ =>
        _config_cache w' = _config_cache w /\
        files w' !! CONFIG_FILE = files w !! CONFIG_FILE
    | _ => False
    end.
Proof.
  intros w'. subst w'.
  destruct (dict_or_not (objs w) v) as [(l & d & -> & Hl)|Hn].
  - destruct (save_config_outcome e l d w Hl) as (w2 & Hb & Hout).
    destruct (make_backup_frame e (stamp e l d w)) as (w2' & Hb' & _ & Hc & Ho & Hfr).
    rewrite Hb in Hb'. injection Hb' as <-.
    destruct Hout as [[err ->]|(j & _ & _ & Ht & ->)]; cbn [snd]; simpl_world.
    + exists (SaveFailed err). split; [by rewrite Ho|]. split; [done|].
      by rewrite Hfr by apply config_not_backup.
    + exists (SavedAt (PStr (now e))). split; [by rewrite Ho|].
      split_and!; try done. exists j. split; [done|]. by rewrite lookup_insert_eq.
  - rewrite save_config_not_dict by done. exists (SaveFailed TypeError).
    by simpl_world.
Qed.

(** ** The backup file *)

(** X8.  The backup file is written in place.  When the primary file
    holds the document [j] and the write of the backup fails after [n]
    characters, the backup file is left with the first [n] characters of the
    text for [j]; the failure is swallowed, and the save goes on: with no
    fault in the durable write it prints the success line and the primary
    file holds the stamped document. *)
Theorem backup_write_is_not_atomic e l d jd w j n :
  objs w !! l = Some (ODict d) ->
  tree_of (objs w) (PRef l) = Some (JObj jd) ->
  holds_json (files w) CONFIG_FILE j ->
  backup_fault e = Some (AtBackupWrite n) ->
  let w' := snd (save_config e (PRef l) w) in
  (exists r, files w' !! CONFIG_BACKUP_FILE
             = Some (Node r (String.substring 0 n (json_dumps j)))) /\
  (io_fault e = None -> files w !! temp_name e = None ->
   stdout w' = stdout w ++ [SavedAt (PStr (now e))] /\
   files w' !! CONFIG_FILE = Some (Node Readable (json_dumps (stamped (now e) jd)))).
Proof.
  intros Hl Ht Hp Hbf w'. subst w'.
  assert (holds_json (files (stamp e l d w)) CONFIG_FILE j) as Hp' by done.
  pose proof (make_backup_copy e (stamp e l d w) j Hp') as Hcopy.
  rewrite Hbf in Hcopy. cbv zeta in Hcopy. split.
  - rewrite (save_config_backup_file e l d w _ Hl Hcopy). simpl_world.
    unfold put_text at 1. rewrite lookup_insert_eq. eauto.
  - intros Hs Hf.
    destruct (save_config_succeeds e l d jd w Hl Ht Hs Hf) as (w2 & Hb & _ & ->).
    rewrite Hcopy in Hb. injection Hb as <-. cbn [snd]. simpl_world.
    split; [done|]. by rewrite lookup_insert_eq.
Qed.

(** X9.  The backup made by a save is enough to recover the document the
    save found.  Let the primary file hold [j], the backup file be absent or
    readable, the backup copy not fail and the library read back the text it
    writes for [j].  After [save_config] of any dict, succeeding or not, if
    the primary file is then overwritten with a text [bad] that is not JSON,
    [load_config] returns a value that reads as [j]. *)
Theorem backup_is_previous_generation e l d w j bad :
  objs w !! l = Some (ODict d) ->
  holds_json (files w) CONFIG_FILE j ->
  ~ unreadable (files w) CONFIG_BACKUP_FILE ->
  backup_fault e = None ->
  reads_back j ->
  json_loads bad = Raise JSONDecodeError ->
  let w1 := snd (save_config e (PRef l) w) in
  let w2 := set_files (put_text CONFIG_FILE bad (files w1)) w1 in
  exists v' w',
    load_config w2 = (Ret v', w') /\ tree_of (objs w') v' = Some j.
Proof.
  intros Hl Hp Hnu Hbf Hrb Hbad w1 w2.
  assert (exists r, files w1 !! CONFIG_FILE = Some (Node Readable r)) as [r Hr].
  { subst w1. destruct (save_config_outcome e l d w Hl) as (w3 & Hb & Hout).
    destruct (make_backup_frame e (stamp e l d w)) as (w3' & Hb' & _ & _ & _ & Hfr).
    rewrite Hb in Hb'. injection Hb' as <-.
    destruct Hout as [[err ->]|(j' & _ & _ & _ & ->)]; cbn [snd]; simpl_world.
    - rewrite Hfr by apply config_not_backup. destruct Hp as (t & Ht & _).
      exists t. by simpl_world.
    - eexists. by rewrite lookup_insert_eq. }
  assert (files w1 !! CONFIG_BACKUP_FILE = Some (Node Readable (json_dumps j))) as Hbk.
  { subst w1.
    assert (holds_json (files (stamp e l d w)) CONFIG_FILE j) as Hp' by done.
    pose proof (make_backup_copy e (stamp e l d w) j Hp') as Hcopy.
    rewrite Hbf in Hcopy. cbv zeta in Hcopy.
    rewrite (save_config_backup_file e l d w _ Hl Hcopy). simpl_world.
    unfold put_text. rewrite !lookup_insert_eq. cbn [readable].
    change (files (stamp e l d w)) with (files w).
    destruct (files w !! CONFIG_BACKUP_FILE) as [[[| |] t]|] eqn:Hb; try done.
    destruct Hnu. by exists t. }
  destruct (load_recovers_backup_aux w2 j) as (v' & w' & Hload & Ht & _).
  - apply (corrupt_intro _ _ bad); [|done].
    subst w2. simpl_world. unfold put_text. rewrite lookup_insert_eq, Hr.
    done.
  - exists (json_dumps j). subst w2. simpl_world. unfold put_text.
    rewrite lookup_insert_ne by (intros E; by apply config_not_backup).
    done.
  - eauto.
Qed.

(** ** Documents of another shape *)

(** A value that reads as something else than an object is not a dict, and
    no later allocation makes it one. *)
Lemma snapshot_not_object f h x j ext :
  snapshot f h x = Some j -> (forall jd, j <> JObj jd) -> not_a_dict (h ++ ext) x.
Proof.
  intros Hs Hj. destruct x as [| | | |l]; try done. destruct f as [|f]; [done|].
  rewrite snapshot_ref in Hs. cbn [not_a_dict].
  destruct (h !! l) as [[d|xs|xs]|] eqn:Hl; [| | |done].
  - destruct (mapM _ d) as [jd|]; [|done]. injection Hs as <-. by destruct (Hj jd).
  - by rewrite (lookup_app_l_Some _ _ _ _ Hl).
  - by rewrite (lookup_app_l_Some _ _ _ _ Hl).
Qed.

Lemma get_method_not_dict v k default w :
  not_a_dict (objs w) v -> get_method v k default w = (Raise AttributeError, w).
Proof.
  unfold get_method, not_a_dict. destruct v as [| | | |l]; try done.
  by destruct (objs w !! l) as [[]|].
Qed.

Lemma put_prefix_not_dict v g p w :
  (forall ext, not_a_dict (objs w ++ ext) v) ->
  exists w1, put_prefix v g p w = (Raise TypeError, w1) /\
             files w1 = files w /\ stdout w1 = stdout w /\
             _config_cache w1 = _config_cache w.
Proof.
  intros Hn. unfold put_prefix, contains, new_dict, new_obj. unfold_M.
  destruct v as [| | |s|l].
  1-3: by exists w.
  - destruct (occurs_in _ s); cbv beta iota.
    + by exists w.
    + eexists. split; [reflexivity|done].
  - pose proof (Hn []) as Hn0. rewrite app_nil_r in Hn0.
    pose proof (Hn [ODict []]) as Hn1. cbn [not_a_dict] in Hn0.
    destruct (objs w !! l) as [[d|xs|xs]|] eqn:Hl; [done| | |by exists w];
      (destruct (existsb _ xs); cbv beta iota;
       [unfold getitem; rewrite Hl; by exists w
       |rewrite setitem_not_dict by (by simpl_world);
        eexists; split; [reflexivity|done]]).
Qed.

(** X10.  A stored document that is valid JSON but not an object (an
    array, a string, a number, [true], [null]) is loaded without complaint,
    and then every accessor raises: [update_config] raises [TypeError] and
    [get_guild_prefix] raises [AttributeError], both right after the load;
    [set_guild_prefix] raises [TypeError], having written no file, printed
    nothing after the load and left the cache as the load bound it. *)
Theorem accessors_need_an_object e k x g p w v w0 j :
  load_config w = (Ret v, w0) ->
  tree_of (objs w0) v = Some j ->
  (forall jd, j <> JObj jd) ->
  update_config e k x w = (Raise TypeError, w0) /\
  get_guild_prefix g w = (Raise AttributeError, w0) /\
  exists w1,
    set_guild_prefix e g p w = (Raise TypeError, w1) /\
    files w1 = files w /\ stdout w1 = stdout w0 /\
    _config_cache w1 = _config_cache w0.
Proof.
  intros Hload Ht Hj.
  assert (forall ext, not_a_dict (objs w0 ++ ext) v) as Hn.
  { intros ext. by eapply snapshot_not_object. }
  pose proof (Hn []) as Hn0. rewrite app_nil_r in Hn0.
  split_and!.
  - unfold update_config. unfold_M. rewrite Hload.
    by rewrite setitem_not_dict.
  - unfold get_guild_prefix. unfold_M. rewrite Hload.
    by rewrite get_method_not_dict.
  - rewrite set_guild_prefix_eq, Hload.
    destruct (put_prefix_not_dict v g p w0 Hn) as (w1 & -> & Hf & Ho & Hc).
    exists w1. split_and!; try done.
    pose proof (load_config_files w) as Hlf. rewrite Hload in Hlf. by rewrite Hf.
Qed.

(** X11.  When the loaded document is an object whose [guild_prefixes]
    is not an object, [get_guild_prefix] raises [AttributeError] and
    [set_guild_prefix] raises [TypeError] right after the load: nothing is
    stamped, backed up or saved. *)
Theorem guild_prefixes_must_be_an_object e g p w v w0 jd jg :
  load_config w = (Ret v, w0) ->
  tree_of (objs w0) v = Some (JObj jd) ->
  dict_get "guild_prefixes" jd = Some jg ->
  (forall m, jg <> JObj m) ->
  fst (get_guild_prefix g w) = Raise AttributeError /\
  set_guild_prefix e g p w = (Raise TypeError, w0).
Proof.
  intros Hload Ht Hjg Hnj.
  destruct (snapshot_obj_inv _ _ _ _ Ht) as (f' & l & d & _ & -> & Hl & Hd).
  destruct (entries_get_r _ _ _ _ _ Hd Hjg) as (x & Hx & Hsx).
  assert (forall ext, not_a_dict (objs w0 ++ ext) x) as Hn.
  { intros ext. by eapply snapshot_not_object. }
  split.
  - unfold get_guild_prefix. unfold_M. rewrite Hload.
    unfold get_method at 1. rewrite Hl. unfold new_dict, new_obj. rewrite Hx.
    rewrite get_method_not_dict; [done|]. simpl_world. apply Hn.
  - rewrite set_guild_prefix_eq, Hload.
    unfold put_prefix, contains, getitem. unfold_M. rewrite Hl.
    unfold dict_mem. rewrite Hx. cbv beta iota. rewrite Hl, Hx.
    rewrite setitem_not_dict; [done|]. specialize (Hn []). by rewrite app_nil_r in Hn.
Qed.

(** ** [update_config] *)

(** X12.  Let the stored document load as the object [jd], and let [x]
    be an immediate value that reads as [jx].  When nothing fails in the
    durable write and the temporary name is free, [update_config e k x]
    returns the loaded dict; the primary file then holds the text of [jd]
    with [k] set to [jx] and [last_saved] set to the timestamp of the call
    (the stamp comes last, so it wins when [k] is [last_saved]); the cache is
    the returned dict and reads the same; and when the library reads back
    that text, [load_config] returns the same document. *)
Theorem update_config_round_trip e k x jx w v w0 jd :
  load_config w = (Ret v, w0) ->
  tree_of (objs w0) v = Some (JObj jd) ->
  snapshot 0 [] x = Some jx ->
  io_fault e = None ->
  files w !! temp_name e = None ->
  let J := stamped (now e) (dict_set k jx jd) in
  let w1 := snd (update_config e k x w) in
  fst (update_config e k x w) = Ret v /\
  files w1 !! CONFIG_FILE = Some (Node Readable (json_dumps J)) /\
  _config_cache w1 = v /\
  tree_of (objs w1) v = Some J /\
  (reads_back J ->
   exists v' w', load_config w1 = (Ret v', w') /\ tree_of (objs w') v' = Some J).
Proof.
  intros Hload Ht Hx Hs Hf J w1.
  destruct (snapshot_obj_inv _ _ _ _ Ht) as (f' & l & d & _ & -> & Hl & _).
  assert (is_atom x) as Hat by (by destruct x).
  set (w0' := set_objs (<[l := ODict (dict_set k x d)]> (objs w0)) w0).
  assert (objs w0' !! l = Some (ODict (dict_set k x d))) as Hl'.
  { unfold w0'. simpl_world. apply list_lookup_insert_eq. by eapply lookup_lt_Some. }
  assert (tree_of (objs w0') (PRef l) = Some (JObj (dict_set k jx jd))) as Ht'.
  { unfold w0'. simpl_world. apply tree_of_setitem; [done|done|].
    by rewrite (snapshot_atom _ _ [] x Hat). }
  assert (files w0' !! temp_name e = None) as Hf'.
  { unfold w0'. simpl_world. pose proof (load_config_files w) as Hlf.
    rewrite Hload in Hlf. cbn [snd] in Hlf. by rewrite Hlf. }
  destruct (save_config_succeeds e l _ _ w0' Hl' Ht' Hs Hf') as (w2 & _ & Ht2 & Hsave).
  assert (update_config e k x w = (Ret (PRef l), snd (save_config e (PRef l) w0'))) as Hrun.
  { unfold update_config. unfold_M. rewrite Hload.
    rewrite (setitem_dict l d k x w0 Hl). fold w0'. by rewrite Hsave. }
  subst w1. rewrite Hrun, Hsave. cbn [fst snd]. simpl_world.
  split_and!; try done.
  - by rewrite lookup_insert_eq.
  - intros Hrb. erewrite load_config_primary; cycle 1.
    { exists (json_dumps J). simpl_world. by rewrite lookup_insert_eq. }
    simpl_world. destruct (alloc_json J (objs w2)) as [v' h'] eqn:Ha.
    apply alloc_json_tree in Ha as [_ Ht3]. eexists _, _. split; [done|]. done.
Qed.

(** What follows the load in [update_config], run on a new object. *)
Lemma update_tail_keeps e k x (v : pyval) w w0 :
  (exists ext, objs w0 = objs w ++ ext) ->
  match v with PRef l => length (objs w) <= l | _ => True end ->
  forall l0 o, objs w !! l0 = Some o ->
    objs (snd ((setitem v k x;; save_config e v;; mret v) w0)) !! l0 = Some o.
Proof.
  intros [ext Hext] Hv l0 o Hl0.
  assert (objs w0 !! l0 = Some o) as Hl0'.
  { rewrite Hext. by apply lookup_app_l_Some. }
  destruct (dict_or_not (objs w0) v) as [(l & d & -> & Hl)|Hn].
  - unfold_M. rewrite (setitem_dict l d k x w0 Hl).
    set (w0' := set_objs _ w0).
    assert (objs w0' !! l = Some (ODict (dict_set k x d))) as Hl'.
    { unfold w0'. simpl_world. apply list_lookup_insert_eq. by eapply lookup_lt_Some. }
    destruct (save_config_objs e l _ w0' Hl') as [ext' Hobjs].
    pose proof (save_config_returns e (PRef l) w0') as Hret.
    destruct (save_config e (PRef l) w0') as [[[]|err] w3]; cbn [fst snd] in *; [|done].
    rewrite Hobjs. apply lookup_app_l_Some.
    assert (l0 < length (objs w)) by (by eapply lookup_lt_Some).
    rewrite list_lookup_insert_ne by lia. unfold w0'. simpl_world.
    by rewrite list_lookup_insert_ne by lia.
  - unfold_M. by rewrite setitem_not_dict.
Qed.

(** X13.  [update_config] writes into no object that existed before the
    call: the dict it changes and stamps is the one its own [load_config]
    built, also when that is a copy of the defaults, whose outer dict is
    new.  Every object of the store is after the call what it was before
    it. *)
Theorem update_config_keeps_objects e k x : keeps_objects (update_config e k x).
Proof.
  intros w l0 o Hl0.
  change (update_config e k x w) with
    (match load_config w with
     | (Ret v, w0) => (setitem v k x;; save_config e v;; mret v) w0
     | (Raise err, w0) => (Raise err, w0)
     end).
  destruct (load_config_cases w)
    as [[err ->]|(wl & Hfl & Hol & Hcl & [(j & _ & ->)|[_ ->]])]; [done| |].
  - apply (update_tail_keeps e k x _ w); [|apply alloc_json_root|done].
    simpl_world. apply alloc_json_app.
  - unfold copy_method, new_obj. rewrite DEFAULT_CONFIG_ref, Hol.
    destruct (objs w !! 11) as [[d'|xs|xs]|]; try (by cbn [snd]; rewrite Hol);
      (apply (update_tail_keeps e k x _ w); [|by cbn|done]); simpl_world; eauto.
Qed.

(** ** Guild prefixes *)

(** [str] gives different texts for different integers. *)
Lemma str_inj a b : str a = str b -> a = b.
Proof.
  unfold str. intros Heq.
  assert (forall z, Z.to_int z <> Decimal.Pos Decimal.Nil /\
                    Z.to_int z <> Decimal.Neg Decimal.Nil) as Hnn.
  { intros [|q|q]; simpl; split; try discriminate; intros [= Hq];
      by apply DecimalPos.Unsigned.to_uint_nonnil in Hq. }
  apply DecimalZ.to_int_inj.
  pose proof (NilZero.isi (Z.to_int a) (proj1 (Hnn a)) (proj2 (Hnn a))) as Ha.
  pose proof (NilZero.isi (Z.to_int b) (proj1 (Hnn b)) (proj2 (Hnn b))) as Hb.
  rewrite Heq in Ha. congruence.
Qed.

(** The [guild_prefixes] of the document before a prefix is put in it. *)
Lemma put_prefix_exact g p v w0 jd :
  tree_of (objs w0) v = Some (JObj jd) ->
  (dict_get "guild_prefixes" jd = None \/
   exists jg, dict_get "guild_prefixes" jd = Some (JObj jg)) ->
  exists w3 jd3,
    put_prefix v g (PStr p) w0 = (Ret tt, w3) /\
    tree_of (objs w3) v = Some (JObj jd3) /\
    dict_get "guild_prefixes" jd3
    = Some (JObj (dict_set (str g) (JStr p)
                    match dict_get "guild_prefixes" jd with
                    | Some (JObj jg) => jg
                    | _ => []
                    end)) /\
    files w3 = files w0 /\ _config_cache w3 = _config_cache w0.
Proof.
  intros Ht Hgp.
  destruct (snapshot_obj_inv _ _ _ _ Ht) as (f' & l & d & [= <-] & -> & Hl & Hd).
  destruct Hgp as [Hnone|[jg Hsome]].
  - pose proof (entries_get_None _ _ _ _ Hd Hnone) as Hdn.
    set (h1 := objs w0 ++ [ODict []]).
    set (fresh := PRef (length (objs w0))).
    set (h2 := <[l := ODict (dict_set "guild_prefixes" fresh d)]> h1).
    set (h3 := <[length (objs w0) := ODict (dict_set (str g) (PStr p) [])]> h2).
    assert (h1 !! l = Some (ODict d)) as Hl1 by (by apply lookup_app_l_Some).
    assert (l < length (objs w0)) as Hlt by (by eapply lookup_lt_Some).
    assert (h2 !! l = Some (ODict (dict_set "guild_prefixes" fresh d))) as Hl2.
    { apply list_lookup_insert_eq. by eapply lookup_lt_Some. }
    assert (h2 !! length (objs w0) = Some (ODict [])) as Hf2.
    { unfold h2. rewrite list_lookup_insert_ne by lia. by apply list_lookup_middle. }
    assert (put_prefix (PRef l) g (PStr p) w0 = (Ret tt, set_objs h3 w0)) as Hrun.
    { unfold h3, h2, h1, fresh in *.
      unfold put_prefix, contains, new_dict, new_obj, getitem. unfold_M. rewrite Hl.
      unfold dict_mem. rewrite Hdn. cbv beta iota. simpl_world.
      erewrite setitem_dict by (simpl_world; exact Hl1). simpl_world.
      rewrite Hl2, dict_get_set_eq.
      erewrite setitem_dict by (simpl_world; exact Hf2). by simpl_world. }
    assert (tree_of h2 (PRef l) = Some (JObj (dict_set "guild_prefixes" (JObj []) jd)))
      as Ht2.
    { apply tree_of_setitem; [done | by apply tree_of_app |].
      assert (length h1 = S (length (objs w0))) as ->.
      { unfold h1. rewrite length_app. simpl. lia. }
      change (snapshot (S (length (objs w0))) h2 (PRef (length (objs w0)))
              = Some (JObj [])).
      by rewrite snapshot_ref, Hf2. }
    destruct (snapshot_setitem_nested (length h2) h2 l _ _ "guild_prefixes"
                (length (objs w0)) [] (str g) (PStr p) (JStr p) Hl2 Ht2
                (dict_get_set_eq _ _ _) Hf2 I eq_refl)
      as (jd3 & jg & Hjg & Ht3 & Hg3).
    rewrite dict_get_set_eq in Hjg. injection Hjg as <-.
    exists (set_objs h3 w0), jd3. rewrite Hnone.
    split; [done|]. simpl_world.
    split_and!; [|exact Hg3|done|done].
    unfold tree_of, h3. by rewrite length_insert.
  - destruct (entries_get_r _ _ _ _ _ Hd Hsome) as (vg & Hvg & Hsg).
    destruct (snapshot_obj_inv _ _ _ _ Hsg) as (f'' & lg & dg & _ & -> & Hlg & _).
    set (h3 := <[lg := ODict (dict_set (str g) (PStr p) dg)]> (objs w0)).
    assert (put_prefix (PRef l) g (PStr p) w0 = (Ret tt, set_objs h3 w0)) as Hrun.
    { unfold put_prefix, contains, new_dict, new_obj, getitem. unfold_M. rewrite Hl.
      unfold dict_mem. rewrite Hvg. cbv beta iota. rewrite ?Hl, ?Hvg.
      by erewrite setitem_dict by exact Hlg. }
    destruct (snapshot_setitem_nested (length (objs w0)) (objs w0) l d jd "guild_prefixes"
                lg dg (str g) (PStr p) (JStr p) Hl Ht Hvg Hlg I eq_refl)
      as (jd3 & jg' & Hjg & Ht3 & Hg3).
    rewrite Hsome in Hjg. injection Hjg as <-.
    exists (set_objs h3 w0), jd3. rewrite Hsome.
    split; [done|]. simpl_world.
    split_and!; [|exact Hg3|done|done].
    unfold tree_of, h3. by rewrite length_insert.
Qed.

(** X14.  [set_guild_prefix] for one guild leaves the other guilds
    alone.  Let the stored document load as the object [jd], whose
    [guild_prefixes] is absent or an object, [before] being that object (or
    the empty one).  When nothing fails in the durable write, the temporary
    name is free and the library reads back the document as saved, the
    primary file afterwards holds a document whose [guild_prefixes] is
    [before] with [str g] set to [p]; so for a guild [g'] other than [g],
    [get_guild_prefix g'] returns the prefix [g'] had in [before], or ["!"]
    when it had none. *)
Theorem set_guild_prefix_keeps_other_guilds e g g' p w v w0 jd :
  load_config w = (Ret v, w0) ->
  tree_of (objs w0) v = Some (JObj jd) ->
  (dict_get "guild_prefixes" jd = None \/
   exists jg, dict_get "guild_prefixes" jd = Some (JObj jg)) ->
  io_fault e = None ->
  files w !! temp_name e = None ->
  g' <> g ->
  let before := match dict_get "guild_prefixes" jd with
                | Some (JObj jg) => jg
                | _ => []
                end in
  let w1 := snd (set_guild_prefix e g (PStr p) w) in
  (forall j, tree_of (objs w1) v = Some j -> reads_back j) ->
  exists jd1,
    holds_json (files w1) CONFIG_FILE (JObj jd1) /\
    dict_get "guild_prefixes" jd1 = Some (JObj (dict_set (str g) (JStr p) before)) /\
    match dict_get (str g') before with
    | None => fst (get_guild_prefix g' w1) = Ret (PStr "!")
    | Some (JStr p') => fst (get_guild_prefix g' w1) = Ret (PStr p')
    | Some _ => True
    end.
Proof.
  intros Hload Ht Hgp Hs Hf Hne before w1 Hrb.
  destruct (put_prefix_exact g p v w0 jd Ht Hgp)
    as (w3 & jd3 & Hput & Ht3 & Hg3 & Hfs3 & _).
  fold before in Hg3.
  pose proof (set_guild_prefix_eq e g (PStr p) w) as Heq.
  rewrite Hload, Hput in Heq.
  destruct (snapshot_obj_inv _ _ _ _ Ht3) as (f' & l & d3 & _ & -> & Hl3 & _).
  assert (files w3 !! temp_name e = None) as Hf3.
  { rewrite Hfs3. pose proof (load_config_files w) as Hlf.
    rewrite Hload in Hlf. cbn [snd] in Hlf. by rewrite Hlf. }
  destruct (save_config_succeeds e l d3 jd3 w3 Hl3 Ht3 Hs Hf3) as (w2 & _ & Ht2 & Hsave).
  rewrite Hsave in Heq. cbn [snd] in Heq.
  assert (reads_back (stamped (now e) jd3)) as Hrb3.
  { apply Hrb. subst w1. rewrite Heq. cbn [snd]. by simpl_world. }
  subst w1. rewrite Heq. cbn [fst snd]. clear Hrb.
  set (w1 := put_line _ _).
  assert (holds_json (files w1) CONFIG_FILE (stamped (now e) jd3)) as Hp1.
  { exists (json_dumps (stamped (now e) jd3)). unfold w1. simpl_world.
    by rewrite lookup_insert_eq. }
  assert (dict_get "guild_prefixes" (dict_set "last_saved" (JStr (now e)) jd3)
          = Some (JObj (dict_set (str g) (JStr p) before))) as Hg1.
  { by rewrite dict_get_set_ne. }
  exists (dict_set "last_saved" (JStr (now e)) jd3). split_and!; try done.
  pose proof (load_config_primary w1 _ Hp1) as Hload1.
  destruct (alloc_json (stamped (now e) jd3) (objs w1)) as [v1 h1] eqn:Ha.
  apply alloc_json_tree in Ha as [_ Ht1]. cbn [fst snd] in Hload1.
  pose proof (get_guild_prefix_tree g' w1 v1 _ _ Hload1 Ht1) as Hget1.
  rewrite Hg1 in Hget1.
  rewrite dict_get_set_ne in Hget1; [done|].
  intros E. by apply str_inj in E.
Qed.

(** X15.  When [load_config] falls back to the defaults (the primary
    file is absent, or it is not JSON and the backup does not help),
    [set_guild_prefix] writes the prefix into the dict that
    [DEFAULT_CONFIG] itself holds under [guild_prefixes]: the copy is
    shallow.  This happens whether the save then succeeds or fails, wherever
    the environment makes it fail. *)
Theorem set_guild_prefix_writes_into_defaults e g p w d gp dg :
  files w !! CONFIG_FILE = None \/
  (corrupt (files w) CONFIG_FILE /\
   (files w !! CONFIG_BACKUP_FILE = None \/ unreadable (files w) CONFIG_BACKUP_FILE \/
    corrupt (files w) CONFIG_BACKUP_FILE)) ->
  deref (objs w) DEFAULT_CONFIG = Some (ODict d) ->
  dict_get "guild_prefixes" d = Some gp ->
  deref (objs w) gp = Some (ODict dg) ->
  let w1 := snd (set_guild_prefix e g p w) in
  fst (set_guild_prefix e g p w) = Ret p /\
  deref (objs w1) gp = Some (ODict (dict_set (str g) p dg)).
Proof.
  intros Hsrc Hd Hgp Hdg w1.
  destruct gp as [| | | |lg]; try done. cbn [deref] in Hdg.
  rewrite DEFAULT_CONFIG_ref in Hd. cbn [deref] in Hd.
  assert (exists wl, objs wl = objs w /\ load_config w = copy_method DEFAULT_CONFIG wl)
    as (wl & Hol & Hload).
  { destruct Hsrc as [Hnone|[Hc Hb]].
    - exists w. split; [done|]. by apply load_config_absent.
    - eexists. split; [|by apply load_config_fallback]. by simpl_world. }
  unfold copy_method, new_obj in Hload. rewrite DEFAULT_CONFIG_ref, Hol, Hd in Hload.
  cbv beta iota in Hload.
  set (l := length (objs w)) in *.
  set (h0 := objs w ++ [ODict d]) in *.
  assert (lg < l) as Hlt by (by eapply lookup_lt_Some).
  assert (h0 !! l = Some (ODict d)) as Hl0 by (by apply list_lookup_middle).
  assert (h0 !! lg = Some (ODict dg)) as Hlg0 by (by apply lookup_app_l_Some).
  set (h1 := <[lg := ODict (dict_set (str g) p dg)]> h0).
  assert (put_prefix (PRef l) g p (set_objs h0 wl) = (Ret tt, set_objs h1 wl)) as Hput.
  { unfold h1. unfold put_prefix, contains, getitem. unfold_M. simpl_world.
    rewrite Hl0. unfold dict_mem. rewrite Hgp. cbv beta iota. simpl_world.
    rewrite Hl0, Hgp.
    erewrite setitem_dict by (simpl_world; exact Hlg0). by simpl_world. }
  assert (h1 !! l = Some (ODict d)) as Hl1.
  { unfold h1. by rewrite list_lookup_insert_ne by lia. }
  assert (h1 !! lg = Some (ODict (dict_set (str g) p dg))) as Hlg1.
  { unfold h1. apply list_lookup_insert_eq. by eapply lookup_lt_Some. }
  pose proof (set_guild_prefix_eq e g p w) as Heq.
  rewrite Hload, Hput in Heq. subst w1. rewrite Heq. cbn [fst snd].
  split; [done|].
  destruct (save_config_objs e l d (set_objs h1 wl)) as [ext Hobjs]; [by simpl_world|].
  cbn [deref]. rewrite Hobjs. simpl_world. apply lookup_app_l_Some.
  by rewrite list_lookup_insert_ne by lia.
Qed.

(** ** What a load prints *)

Lemma copy_method_stdout v w : stdout (snd (copy_method v w)) = stdout w.
Proof.
  unfold copy_method, new_obj. destruct v as [| | | |l]; try done.
  by destruct (objs w !! l) as [[]|].
Qed.

(** X16.  What [load_config] prints tells which source it used.  It
    prints nothing when the primary file is absent, unreadable or valid; the
    warning alone when the primary file is not JSON and the backup is a
    valid document; the warning and then the recovery failure when the
    primary file is not JSON and the backup is no valid document. *)
Theorem load_config_prints w :
  let w' := snd (load_config w) in
  (files w !! CONFIG_FILE = None \/ unreadable (files w) CONFIG_FILE \/
   (exists j, holds_json (files w) CONFIG_FILE j) ->
   stdout w' = stdout w) /\
  (corrupt (files w) CONFIG_FILE ->
   ((exists j, holds_json (files w) CONFIG_BACKUP_FILE j) ->
    stdout w' = stdout w ++ [WarnCorrupted]) /\
   ((forall j, ~ holds_json (files w) CONFIG_BACKUP_FILE j) ->
    stdout w' = stdout w ++ [WarnCorrupted; RecoveryFailed])).
Proof.
  intros w'. subst w'. split.
  - intros [Hn|[Hu|[j Hj]]].
    + rewrite load_config_absent by done. apply copy_method_stdout.
    + by rewrite load_config_unreadable.
    + by rewrite (load_config_primary w j).
  - intros Hc. split.
    + intros [j Hj]. by rewrite (load_config_backup w j).
    + intros Hnb. rewrite load_config_no_backup by done.
      rewrite copy_method_stdout. simpl_world. by rewrite <- app_assoc.
Qed.

(** ** A save that fails, seen from the callers *)

Lemma save_config_fault_line e v w s :
  io_fault e = Some s ->
  exists err, stdout (snd (save_config e v w)) = stdout w ++ [SaveFailed err].
Proof.
  intros Hs. destruct (dict_or_not (objs w) v) as [(l & d & -> & Hl)|Hn].
  - destruct (save_config_fails e l d w Hl) as (w2 & err & Hb & ->); [left; eauto|].
    destruct (make_backup_frame e (stamp e l d w)) as (w2' & Hb' & _ & _ & Ho & _).
    rewrite Hb in Hb'. injection Hb' as <-. exists err. cbn [snd]. simpl_world.
    by rewrite Ho.
  - rewrite save_config_not_dict by done. by exists TypeError.
Qed.

(** X17.  A save that fails is invisible to the callers of
    [update_config] and [set_guild_prefix].  Let the stored document load as
    an object, and let the durable write fail at some step.  Then
    [update_config] still returns the dict and [set_guild_prefix] (the
    [guild_prefixes] member being absent or an object) still returns the
    prefix, the primary file is the file it was, and the only trace is the
    failure line printed after whatever the load printed. *)
Theorem failed_save_is_not_raised e s w v w0 jd :
  load_config w = (Ret v, w0) ->
  tree_of (objs w0) v = Some (JObj jd) ->
  io_fault e = Some s ->
  (forall k x,
     let w1 := snd (update_config e k x w) in
     fst (update_config e k x w) = Ret v /\
     files w1 !! CONFIG_FILE = files w !! CONFIG_FILE /\
     exists err, stdout w1 = stdout w0 ++ [SaveFailed err]) /\
  (forall g p,
     dict_get "guild_prefixes" jd = None \/
     (exists jg, dict_get "guild_prefixes" jd = Some (JObj jg)) ->
     let w1 := snd (set_guild_prefix e g (PStr p) w) in
     fst (set_guild_prefix e g (PStr p) w) = Ret (PStr p) /\
     files w1 !! CONFIG_FILE = files w !! CONFIG_FILE /\
     exists err, stdout w1 = stdout w0 ++ [SaveFailed err]).
Proof.
  intros Hload Ht Hs.
  pose proof (load_config_files w) as Hlf. rewrite Hload in Hlf. cbn [snd] in Hlf.
  split.
  - intros k x w1. subst w1.
    destruct (snapshot_obj_inv _ _ _ _ Ht) as (f' & l & d & _ & -> & Hl & _).
    set (w0' := set_objs (<[l := ODict (dict_set k x d)]> (objs w0)) w0).
    assert (update_config e k x w = (Ret (PRef l), snd (save_config e (PRef l) w0')))
      as ->.
    { unfold update_config. unfold_M. rewrite Hload.
      rewrite (setitem_dict l d k x w0 Hl). fold w0'.
      pose proof (save_config_returns e (PRef l) w0') as Hret.
      by destruct (save_config e (PRef l) w0') as [[[]|err] w3]. }
    cbn [fst snd]. split; [done|].
    destruct (save_config_fault_frame e (PRef l) w0' s Hs) as [_ Hfr].
    split.
    + rewrite Hfr by apply config_not_backup. unfold w0'. simpl_world. by rewrite Hlf.
    + apply (save_config_fault_line e (PRef l) w0' s Hs).
  - intros g p Hgp w1. subst w1.
    destruct (put_prefix_tree g p v w0 jd Ht Hgp)
      as (w3 & jd3 & jg3 & Hput & _ & _ & _ & Hfs3 & _).
    assert (stdout w3 = stdout w0) as Ho3.
    { pose proof (f_equal snd Hput) as Hw3. cbn [snd] in Hw3. subst w3.
      clear. unfold put_prefix, contains, new_dict, new_obj, getitem, setitem.
      unfold_M. repeat case_match; simplify_eq; cbn [snd]; by simpl_world. }
    rewrite set_guild_prefix_eq, Hload, Hput. cbn [fst snd]. split; [done|].
    destruct (save_config_fault_frame e v w3 s Hs) as [_ Hfr].
    split.
    + rewrite Hfr by apply config_not_backup. by rewrite Hfs3, Hlf.
    + destruct (save_config_fault_line e v w3 s Hs) as [err Herr].
      exists err. by rewrite Herr, Ho3.
Qed.
End Further.

(** ** The further properties on concrete runs *)

(** X1 on a valid primary file. *)
Lemma load_config_idempotent_witness :
  load_config (boot dir_valid) = (Ret doc, loaded) /\
  tree_of (objs loaded) doc = Some compact_tree /\
  exists v2 w2,
    load_config loaded = (Ret v2, w2) /\
    tree_of (objs w2) v2 = Some compact_tree /\
    tree_of (objs w2) doc = Some compact_tree.
Proof.
  assert (load_config (boot dir_valid) = (Ret doc, loaded)) as Hload by by_running.
  assert (tree_of (objs loaded) doc = Some compact_tree) as Ht by by_running.
  split; [exact Hload|]. split; [exact Ht|].
  exact (load_config_idempotent (boot dir_valid) doc loaded compact_tree Hload Ht).
Defined.

(** X2 when the write of the temporary file fails at once. *)
Lemma load_after_failed_save_witness :
  io_fault env_write_fails = Some (AtWrite 0) /\
  holds_json (files loaded) CONFIG_FILE compact_tree /\
  exists v' w',
    load_config (snd (save_config env_write_fails doc loaded)) = (Ret v', w') /\
    tree_of (objs w') v' = Some compact_tree.
Proof.
  assert (holds_json (files loaded) CONFIG_FILE compact_tree) as Hp.
  { exists compact_text. split; by_running. }
  split; [reflexivity|]. split; [exact Hp|].
  exact (load_after_failed_save env_write_fails doc loaded (AtWrite 0) compact_tree
           eq_refl Hp).
Defined.

(** X3 when the primary file can no longer be opened, can no longer be
    decoded, or holds an integer of 4301 digits, under a process that had
    loaded it. *)
Lemma refresh_never_stale_witness :
  (unreadable (files (set_files dir_unreadable loaded)) CONFIG_FILE /\
   fst (refresh_config_cache (set_files dir_unreadable loaded)) = Raise OSError /\
   _config_cache (snd (refresh_config_cache (set_files dir_unreadable loaded))) = PNone) /\
  (undecodable (files (set_files dir_garbled loaded)) CONFIG_FILE /\
   fst (refresh_config_cache (set_files dir_garbled loaded)) = Raise UnicodeDecodeError /\
   _config_cache (snd (refresh_config_cache (set_files dir_garbled loaded))) = PNone) /\
  (refused (files (set_files dir_long_int loaded)) CONFIG_FILE ValueError /\
   fst (refresh_config_cache (set_files dir_long_int loaded)) = Raise ValueError /\
   _config_cache (snd (refresh_config_cache (set_files dir_long_int loaded))) = PNone).
Proof.
  assert (unreadable (files (set_files dir_unreadable loaded)) CONFIG_FILE) as Hu.
  { exists compact_text. by_running. }
  assert (undecodable (files (set_files dir_garbled loaded)) CONFIG_FILE) as Hg.
  { exists garbled_bytes. by_running. }
  assert (refused (files (set_files dir_long_int loaded)) CONFIG_FILE ValueError) as Hv.
  { exists long_int_text. split; [by_running|]. split; by_running. }
  destruct (refresh_never_stale (set_files dir_unreadable loaded)) as (_ & _ & Hr & _).
  destruct (refresh_never_stale (set_files dir_garbled loaded)) as (_ & _ & _ & Hr' & _).
  destruct (refresh_never_stale (set_files dir_long_int loaded)) as (_ & _ & _ & _ & Hr'').
  split; [split; [exact Hu|exact (Hr Hu)]|].
  split; [split; [exact Hg|exact (Hr' Hg)]|].
  split; [exact Hv|exact (Hr'' ValueError Hv)].
Defined.

(** X4 when the primary file disappears after it was loaded. *)
Lemma cached_config_skips_disk_witness :
  holds_json (files (boot dir_valid)) CONFIG_FILE compact_tree /\
  compact_tree <> JNull /\
  get_cached_config file_gone = (Ret doc, file_gone).
Proof.
  assert (holds_json (files (boot dir_valid)) CONFIG_FILE compact_tree) as Hp.
  { exists compact_text. split; by_running. }
  assert (compact_tree <> JNull) as Hn by discriminate.
  split; [exact Hp|]. split; [exact Hn|].
  destruct (cached_config_skips_disk (boot dir_valid) compact_tree dir_empty Hp)
    as (_ & Hc & _).
  exact (Hc Hn).
Defined.

(** X6: no temporary file is left by an [update_config] whose write fails. *)
Lemma writes_are_confined_witness :
  temp_name env_write_fails <> CONFIG_FILE /\
  temp_name env_write_fails <> CONFIG_BACKUP_FILE /\
  files (snd (update_config env_write_fails "ticket_counter" (PInt 9) (boot dir_valid)))
    !! temp_name env_write_fails
  = files (boot dir_valid) !! temp_name env_write_fails.
Proof.
  assert (temp_name env_write_fails <> CONFIG_FILE) as H1 by discriminate.
  assert (temp_name env_write_fails <> CONFIG_BACKUP_FILE) as H2 by discriminate.
  split; [exact H1|]. split; [exact H2|].
  destruct (writes_are_confined env_write_fails) as (_ & Hu & _).
  exact (Hu "ticket_counter" (PInt 9) (boot dir_valid) (temp_name env_write_fails) H1 H2).
Defined.

(** X8 when the write of the backup stops after three characters. *)
Lemma backup_write_is_not_atomic_witness :
  objs loaded !! 12 = Some (ODict [("ticket_counter", PInt 5)]) /\
  holds_json (files loaded) CONFIG_FILE compact_tree /\
  backup_fault env_backup_cut = Some (AtBackupWrite 3) /\
  (exists r, files (snd (save_config env_backup_cut (PRef 12) loaded)) !! CONFIG_BACKUP_FILE
             = Some (Node r (String.substring 0 3 (json_dumps compact_tree)))) /\
  stdout (snd (save_config env_backup_cut (PRef 12) loaded))
  = stdout loaded ++ [SavedAt (PStr (now env_backup_cut))].
Proof.
  assert (objs loaded !! 12 = Some (ODict [("ticket_counter", PInt 5)])) as Hl
    by by_running.
  assert (holds_json (files loaded) CONFIG_FILE compact_tree) as Hp.
  { exists compact_text. split; by_running. }
  split; [exact Hl|]. split; [exact Hp|]. split; [reflexivity|].
  destruct (backup_write_is_not_atomic env_backup_cut 12 _ [("ticket_counter", JInt 5)]
              loaded compact_tree 3 Hl) as [Hb Hs]; [by_running|exact Hp|reflexivity|].
  split; [exact Hb|]. apply Hs; by_running.
Defined.

(** X9 when the primary file is truncated after a save. *)
Lemma backup_is_previous_generation_witness :
  objs loaded !! 12 = Some (ODict [("ticket_counter", PInt 5)]) /\
  holds_json (files loaded) CONFIG_FILE compact_tree /\
  reads_back compact_tree /\
  json_loads "{" = Raise JSONDecodeError /\
  exists v' w',
    load_config
      (set_files (put_text CONFIG_FILE "{" (files (snd (save_config env_ok (PRef 12) loaded))))
                 (snd (save_config env_ok (PRef 12) loaded)))
    = (Ret v', w') /\
    tree_of (objs w') v' = Some compact_tree.
Proof.
  assert (objs loaded !! 12 = Some (ODict [("ticket_counter", PInt 5)])) as Hl
    by by_running.
  assert (holds_json (files loaded) CONFIG_FILE compact_tree) as Hp.
  { exists compact_text. split; by_running. }
  assert (reads_back compact_tree) as Hrb by by_running.
  assert (json_loads "{" = Raise JSONDecodeError) as Hbad by by_running.
  split; [exact Hl|]. split; [exact Hp|]. split; [exact Hrb|]. split; [exact Hbad|].
  apply (backup_is_previous_generation env_ok 12 _ loaded compact_tree "{" Hl Hp);
    [|reflexivity|exact Hrb|exact Hbad].
  intros [text Hu]. vm_compute in Hu. discriminate Hu.
Defined.

(** X10 on a primary file that holds an array. *)
Lemma accessors_need_an_object_witness :
  load_config (boot dir_list)
  = (Ret (returned (fst (load_config (boot dir_list)))), snd (load_config (boot dir_list))) /\
  tree_of (objs (snd (load_config (boot dir_list))))
          (returned (fst (load_config (boot dir_list)))) = Some (JArr [JInt 1]) /\
  fst (update_config env_ok "ticket_counter" (PInt 9) (boot dir_list)) = Raise TypeError /\
  fst (get_guild_prefix 12345 (boot dir_list)) = Raise AttributeError /\
  files (snd (update_config env_ok "ticket_counter" (PInt 9) (boot dir_list)))
  = files (boot dir_list).
Proof.
  assert (load_config (boot dir_list)
          = (Ret (returned (fst (load_config (boot dir_list)))),
             snd (load_config (boot dir_list)))) as Hload by by_running.
  assert (tree_of (objs (snd (load_config (boot dir_list))))
            (returned (fst (load_config (boot dir_list)))) = Some (JArr [JInt 1])) as Ht
    by by_running.
  split; [exact Hload|]. split; [exact Ht|].
  destruct (accessors_need_an_object env_ok "ticket_counter" (PInt 9) 12345 (PStr "?")
              (boot dir_list) _ _ (JArr [JInt 1]) Hload Ht) as (Hu & Hg & _);
    [discriminate|].
  rewrite Hu, Hg. split; [reflexivity|]. split; [reflexivity|]. by_running.
Defined.

(** X11 on a primary file whose [guild_prefixes] is a number. *)
Lemma guild_prefixes_must_be_an_object_witness :
  load_config (boot dir_bad_prefixes)
  = (Ret (returned (fst (load_config (boot dir_bad_prefixes)))),
     snd (load_config (boot dir_bad_prefixes))) /\
  tree_of (objs (snd (load_config (boot dir_bad_prefixes))))
          (returned (fst (load_config (boot dir_bad_prefixes))))
  = Some (JObj [("guild_prefixes", JInt 5)]) /\
  fst (get_guild_prefix 12345 (boot dir_bad_prefixes)) = Raise AttributeError /\
  set_guild_prefix env_ok 12345 (PStr "?") (boot dir_bad_prefixes)
  = (Raise TypeError, snd (load_config (boot dir_bad_prefixes))).
Proof.
  assert (load_config (boot dir_bad_prefixes)
          = (Ret (returned (fst (load_config (boot dir_bad_prefixes)))),
             snd (load_config (boot dir_bad_prefixes)))) as Hload by by_running.
  assert (tree_of (objs (snd (load_config (boot dir_bad_prefixes))))
            (returned (fst (load_config (boot dir_bad_prefixes))))
          = Some (JObj [("guild_prefixes", JInt 5)])) as Ht by by_running.
  split; [exact Hload|]. split; [exact Ht|].
  apply (guild_prefixes_must_be_an_object env_ok 12345 (PStr "?") (boot dir_bad_prefixes)
           _ _ [("guild_prefixes", JInt 5)] (JInt 5) Hload Ht); [reflexivity|discriminate].
Defined.

(** X12 on the document of [dir_valid]. *)
Lemma update_config_round_trip_witness :
  load_config (boot dir_valid) = (Ret doc, loaded) /\
  tree_of (objs loaded) doc = Some compact_tree /\
  reads_back (stamped (now env_ok) [("ticket_counter", JInt 9)]) /\
  fst (update_config env_ok "ticket_counter" (PInt 9) (boot dir_valid)) = Ret doc /\
  files (snd (update_config env_ok "ticket_counter" (PInt 9) (boot dir_valid))) !! CONFIG_FILE
  = Some (Node Readable (json_dumps (stamped (now env_ok) [("ticket_counter", JInt 9)]))) /\
  exists v' w',
    load_config (snd (update_config env_ok "ticket_counter" (PInt 9) (boot dir_valid)))
    = (Ret v', w') /\
    tree_of (objs w') v' = Some (stamped (now env_ok) [("ticket_counter", JInt 9)]).
Proof.
  assert (load_config (boot dir_valid) = (Ret doc, loaded)) as Hload by by_running.
  assert (tree_of (objs loaded) doc = Some compact_tree) as Ht by by_running.
  assert (reads_back (stamped (now env_ok) [("ticket_counter", JInt 9)])) as Hrb
    by by_running.
  split; [exact Hload|]. split; [exact Ht|]. split; [exact Hrb|].
  destruct (update_config_round_trip env_ok "ticket_counter" (PInt 9) (JInt 9)
              (boot dir_valid) doc loaded [("ticket_counter", JInt 5)] Hload Ht)
    as (Hr & Hf & _ & _ & Hre); [reflexivity|reflexivity|by_running|].
  split; [exact Hr|]. split; [exact Hf|]. exact (Hre Hrb).
Defined.

(** X13: the [guild_prefixes] dict of the defaults after an
    [update_config] that fell back to them. *)
Lemma update_config_keeps_objects_witness :
  objs (boot dir_truncated) !! 10 = Some (ODict []) /\
  objs (snd (update_config env_ok "guild_prefixes" (PInt 1) (boot dir_truncated))) !! 10
  = Some (ODict []).
Proof.
  assert (objs (boot dir_truncated) !! 10 = Some (ODict [])) as Hl by by_running.
  split; [exact Hl|].
  exact (update_config_keeps_objects env_ok "guild_prefixes" (PInt 1) (boot dir_truncated)
           10 (ODict []) Hl).
Defined.

(** X14: guild 12345 keeps its prefix when guild 1 gets one. *)
Lemma set_guild_prefix_keeps_other_guilds_witness :
  load_config after_set = (Ret second_doc, second_run) /\
  (12345 <> 1)%Z /\
  fst (get_guild_prefix 12345 (snd (set_guild_prefix env_ok 1 (PStr "$") after_set)))
  = Ret (PStr "?").
Proof.
  assert (load_config after_set = (Ret second_doc, second_run)) as Hload by by_running.
  assert (12345 <> 1)%Z as Hne by discriminate.
  split; [exact Hload|]. split; [exact Hne|].
  destruct (set_guild_prefix_keeps_other_guilds env_ok 1 12345 "$" after_set second_doc
              second_run
              (dict_set "last_saved" (JStr stamp_time)
                 (dict_set "guild_prefixes" (JObj [("12345", JStr "?")]) default_members))
              Hload)
    as (jd1 & _ & _ & Hget).
  - by_running.
  - right. eexists. by_running.
  - reflexivity.
  - by_running.
  - exact Hne.
  - intros j Hj. vm_compute in Hj. injection Hj as <-. by_running.
  - exact Hget.
Defined.

(** X15 with a truncated primary file, no backup and a failing save. *)
Lemma set_guild_prefix_writes_into_defaults_witness :
  corrupt (files (boot dir_truncated)) CONFIG_FILE /\
  files (boot dir_truncated) !! CONFIG_BACKUP_FILE = None /\
  deref (objs (boot dir_truncated)) (PRef 10) = Some (ODict []) /\
  fst (set_guild_prefix env_write_fails 1 (PStr "?") (boot dir_truncated)) = Ret (PStr "?") /\
  deref (objs after_failed_set) (PRef 10) = Some (ODict [("1", PStr "?")]).
Proof.
  assert (corrupt (files (boot dir_truncated)) CONFIG_FILE) as Hc.
  { apply (corrupt_intro _ _ "{"); by_running. }
  assert (files (boot dir_truncated) !! CONFIG_BACKUP_FILE = None) as Hb by by_running.
  assert (deref (objs (boot dir_truncated)) (PRef 10) = Some (ODict [])) as Hg by by_running.
  split; [exact Hc|]. split; [exact Hb|]. split; [exact Hg|].
  eapply (set_guild_prefix_writes_into_defaults env_write_fails 1 (PStr "?")
           (boot dir_truncated) _ (PRef 10) []); [|by_running|by_running|exact Hg].
  right. split; [exact Hc|]. left. exact Hb.
Defined.

(** X16 on a truncated primary file with a valid backup. *)
Lemma load_config_prints_witness :
  corrupt (files (boot dir_recoverable)) CONFIG_FILE /\
  (exists j, holds_json (files (boot dir_recoverable)) CONFIG_BACKUP_FILE j) /\
  stdout (snd (load_config (boot dir_recoverable)))
  = stdout (boot dir_recoverable) ++ [WarnCorrupted].
Proof.
  assert (corrupt (files (boot dir_recoverable)) CONFIG_FILE) as Hc.
  { apply (corrupt_intro _ _ "{"); by_running. }
  assert (exists j, holds_json (files (boot dir_recoverable)) CONFIG_BACKUP_FILE j) as Hb.
  { exists compact_tree, compact_text. split; by_running. }
  split; [exact Hc|]. split; [exact Hb|].
  destruct (load_config_prints (boot dir_recoverable)) as [_ Hp].
  destruct (Hp Hc) as [Hw _]. exact (Hw Hb).
Defined.

(** X17 when the write of the temporary file fails at once. *)
Lemma failed_save_is_not_raised_witness :
  load_config (boot dir_valid) = (Ret doc, loaded) /\
  tree_of (objs loaded) doc = Some compact_tree /\
  io_fault env_write_fails = Some (AtWrite 0) /\
  fst (update_config env_write_fails "ticket_counter" (PInt 9) (boot dir_valid)) = Ret doc /\
  files after_failed_update !! CONFIG_FILE = files (boot dir_valid) !! CONFIG_FILE /\
  fst (set_guild_prefix env_write_fails 12345 (PStr "?") (boot dir_valid)) = Ret (PStr "?").
Proof.
  assert (load_config (boot dir_valid) = (Ret doc, loaded)) as Hload by by_running.
  assert (tree_of (objs loaded) doc = Some compact_tree) as Ht by by_running.
  split; [exact Hload|]. split; [exact Ht|]. split; [reflexivity|].
  destruct (failed_save_is_not_raised env_write_fails (AtWrite 0) (boot dir_valid) doc
              loaded [("ticket_counter", JInt 5)] Hload Ht eq_refl) as [Hu Hs].
  destruct (Hu "ticket_counter" (PInt 9)) as (Hr & Hf & _).
  split; [exact Hr|]. split; [exact Hf|].
  destruct (Hs 12345%Z "?") as (Hr' & _); [left; by_running|exact Hr'].
Defined.
